(** * addValidator re-join script: a shallow embedding and its properties

    The repository holds two revisions of one command-line script:
    [rejoin_validator_set.js] (CommonJS; its contract call mixes the
    interfaces of ethers 5 and ethers 6, and is embedded for either) and a
    later ES-module revision (ethers 6).  Both export
    [parseArgsData], [extractDataFromArgs] and [callAddValidator] and drive
    them from [main].  Each revision is embedded in a module of its own
    ([RejoinValidatorSet] and [Part000]); the host language's values and
    string primitives live in [JS], and a model of the host's [JSON.parse]
    in [JSON]. *)

From Stdlib Require Import List NArith ZArith Bool Lia String Ascii.
From Stdlib Require Import Floats.SpecFloat.
Import ListNotations.

Set Implicit Arguments.
Set Warnings "-register-all".

(* ===================================================================== *)
(** * Host language: strings and values *)
(* ===================================================================== *)

Module JS.

(** A string is a sequence of UTF-16 code units. *)
Definition jsstring := list N.

(** Literals of the source, written in ASCII. *)
Definition str (s : string) : jsstring :=
  map N_of_ascii (list_ascii_of_string s).

Definition jsstring_eqb (a b : jsstring) : bool :=
  if list_eq_dec N.eq_dec a b then true else false.

(** The code units the source names. *)
Definition c_dquote : N := 34.
Definition c_squote : N := 39.
Definition c_lparen : N := 40.
Definition c_rparen : N := 41.
Definition c_comma : N := 44.
Definition c_lbracket : N := 91.
Definition c_backslash : N := 92.
Definition c_rbracket : N := 93.
Definition c_lbrace : N := 123.
Definition c_rbrace : N := 125.

(** ECMAScript WhiteSpace and LineTerminator: what [String.prototype.trim]
    strips and what [\s] matches. *)
Definition isWhiteSpace (c : N) : bool :=
  ((9 <=? c) && (c <=? 13) || (c =? 32) || (c =? 160) || (c =? 5760)
   || (8192 <=? c) && (c <=? 8202) || (c =? 8232) || (c =? 8233)
   || (c =? 8239) || (c =? 8287) || (c =? 12288) || (c =? 65279))%N.

Fixpoint trimStart (s : jsstring) : jsstring :=
  match s with
  | [] => []
  | c :: r => if isWhiteSpace c then trimStart r else s
  end.

Definition trimEnd (s : jsstring) : jsstring := rev (trimStart (rev s)).

Definition trim (s : jsstring) : jsstring := trimEnd (trimStart s).

Fixpoint startsWith (p s : jsstring) : bool :=
  match p, s with
  | [], _ => true
  | _ :: _, [] => false
  | a :: p', b :: s' => (a =? b)%N && startsWith p' s'
  end.

Definition endsWith (p s : jsstring) : bool := startsWith (rev p) (rev s).

(** [s.substring(a, b)]: the arguments are swapped when [a > b]. *)
Definition substring (a b : nat) (s : jsstring) : jsstring :=
  firstn (Nat.max a b - Nat.min a b) (skipn (Nat.min a b) s).

(** [s.substring(a)]. *)
Definition substringFrom (a : nat) (s : jsstring) : jsstring := skipn a s.

(** [s.slice(1, -1)]. *)
Definition slice_1_m1 (s : jsstring) : jsstring := removelast (tl s).

(** [String.prototype.toLowerCase], on the ASCII letters.  Code units
    outside [A-Z] are left as they are: the only strings the script lowers
    are addresses and a one-letter answer, and no code unit outside ASCII
    lowers to an ASCII letter or digit that occurs in them. *)
Definition lowerUnit (c : N) : N :=
  if ((65 <=? c) && (c <=? 90))%N then (c + 32)%N else c.

Definition toLowerCase (s : jsstring) : jsstring := map lowerUnit s.

(** Values: what [JSON.parse] can build, plus [undefined]. An object is the
    list of its own properties in insertion order, keys distinct. *)
Inductive value : Type :=
| VUndefined
| VNull
| VBool (b : bool)
| VNum (x : spec_float)
| VStr (s : jsstring)
| VArr (elems : list value)
| VObj (props : list (jsstring * value)).

Inductive jstype := TUndefined | TObject | TBoolean | TNumber | TString.

Definition typeof (v : value) : jstype :=
  match v with
  | VUndefined => TUndefined
  | VNull | VArr _ | VObj _ => TObject
  | VBool _ => TBoolean
  | VNum _ => TNumber
  | VStr _ => TString
  end.

Definition jstype_eqb (a b : jstype) : bool :=
  match a, b with
  | TUndefined, TUndefined | TObject, TObject | TBoolean, TBoolean
  | TNumber, TNumber | TString, TString => true
  | _, _ => false
  end.

(** ToBoolean. *)
Definition truthy (v : value) : bool :=
  match v with
  | VUndefined | VNull => false
  | VBool b => b
  | VNum (S754_zero _) | VNum S754_nan => false
  | VNum _ => true
  | VStr s => negb (jsstring_eqb s [])
  | VArr _ | VObj _ => true
  end.

(** [a || b]. *)
Definition or_else (a b : value) : value := if truthy a then a else b.

Definition isArray (v : value) : bool :=
  match v with VArr _ => true | _ => false end.

(** A non-negative integer as a Number (binary64, round to nearest even). *)
Definition number_of_nat (n : nat) : value :=
  VNum (binary_normalize 53 1024 (Z.of_nat n) 0 false).

Fixpoint lookup (k : jsstring) (ps : list (jsstring * value)) : option value :=
  match ps with
  | [] => None
  | (k', v) :: r => if jsstring_eqb k k' then Some v else lookup k r
  end.

Definition hasOwn (k : jsstring) (ps : list (jsstring * value)) : bool :=
  match lookup k ps with Some _ => true | None => false end.

(** Errors the script can raise or receive.  The constructors after
    [HostError] are the [throw new Error(...)] sites of the two revisions;
    interpolated parts of a message are kept as data. *)
Inductive error : Type :=
| TypeError
| SyntaxError
| HostError (msg : jsstring)
| InvalidInputFormat
| ZKPassportNotObject
| NoInputData
| InvalidInputFormatReceived (received : jsstring)
| ExpectedSixArguments (received : value)
| InvalidAttester (attester : value)
| MerkleProofNotArray (proof : value)
| ZKPassportParamsNotObject (ty : jstype)
| MissingBLS
| InvalidPrivateKey (cause : error).

Inductive result (A : Type) : Type :=
| Ok (a : A)
| Err (e : error).
Arguments Ok {A} a.
Arguments Err {A} e.

Definition rbind {A B} (r : result A) (f : A -> result B) : result B :=
  match r with Ok a => f a | Err e => Err e end.

Definition isOk {A} (r : result A) : bool :=
  match r with Ok _ => true | Err _ => false end.

(** [o.length] for a value [o]; [TypeError] on [null] and [undefined].
    Strings and arrays answer with their length, an object with its own
    property of that name, other primitives with [undefined]. *)
Definition lengthOf (o : value) : result value :=
  match o with
  | VUndefined | VNull => Err TypeError
  | VStr s => Ok (number_of_nat (List.length s))
  | VArr l => Ok (number_of_nat (List.length l))
  | VObj ps => Ok (match lookup (str "length") ps with Some v => v | None => VUndefined end)
  | VBool _ | VNum _ => Ok VUndefined
  end.

(** [o.name] for a property name that no prototype defines. *)
Definition getProp (o : value) (name : jsstring) : result value :=
  match o with
  | VUndefined | VNull => Err TypeError
  | VObj ps => Ok (match lookup name ps with Some v => v | None => VUndefined end)
  | _ => Ok VUndefined
  end.

(** [o[i]] where the access does not raise. *)
Definition elementAt (o : value) (i : nat) : value :=
  match o with
  | VArr l => nth i l VUndefined
  | VStr s => match nth_error s i with Some c => VStr [c] | None => VUndefined end
  | VObj ps => match lookup [(48 + N.of_nat i)%N] ps with Some v => v | None => VUndefined end
  | _ => VUndefined
  end.

(** [o[i]] for a literal index [i < 10]. *)
Definition getIndex (o : value) (i : nat) : result value :=
  match o with
  | VUndefined | VNull => Err TypeError
  | _ => Ok (elementAt o i)
  end.

(** [p?.length]. *)
Definition optLength (p : value) : value :=
  match lengthOf p with Ok v => v | Err _ => VUndefined end.

(** [o.publicInputs?.length || 0]. *)
Definition publicInputsCount (o : value) : result value :=
  match getProp o (str "publicInputs") with
  | Ok p => Ok (or_else (optLength p) (number_of_nat 0))
  | Err e => Err e
  end.

(** [v.toLowerCase()]: only a string has the method. *)
Definition callToLowerCase (v : value) : result jsstring :=
  match v with VStr s => Ok (toLowerCase s) | _ => Err TypeError end.

(** Whether ToString raises on a value, as in a template literal.  A plain
    object converts through [toString]; an own property of that name is
    never callable for the values at hand, and the inherited [valueOf]
    returns the object itself, so the conversion ends in a TypeError.  An
    array joins the conversions of its elements. *)
Fixpoint toStringThrows (v : value) : bool :=
  match v with
  | VObj ps => hasOwn (str "toString") ps
  | VArr l => existsb toStringThrows l
  | _ => false
  end.

(** Evaluation of a template literal that interpolates [v]. *)
Definition template (v : value) : result unit :=
  if toStringThrows v then Err TypeError else Ok tt.

End JS.

(* ===================================================================== *)
(** * Host language: [JSON.parse] *)
(* ===================================================================== *)

(** A model of the host's [JSON.parse] (ECMA-404 grammar, numbers rounded
    to binary64).  The script's functions take the parser as an argument,
    so the general theorems hold for any parser; this one runs the
    concrete examples.  [None] stands for a SyntaxError. *)
Module JSON.
Import JS.

Definition isJsonSpace (c : N) : bool :=
  ((c =? 32) || (c =? 9) || (c =? 10) || (c =? 13))%N.

Fixpoint skip_ws (s : jsstring) : jsstring :=
  match s with
  | c :: r => if isJsonSpace c then skip_ws r else s
  | [] => []
  end.

Definition isDigit (c : N) : bool := ((48 <=? c) && (c <=? 57))%N.

Definition hexval (c : N) : option N :=
  if isDigit c then Some (c - 48)%N
  else if ((97 <=? c) && (c <=? 102))%N then Some (c - 87)%N
  else if ((65 <=? c) && (c <=? 70))%N then Some (c - 55)%N
  else None.

Definition hex4 (a b c d : N) : option N :=
  match hexval a, hexval b, hexval c, hexval d with
  | Some x, Some y, Some z, Some w => Some (((x * 16 + y) * 16 + z) * 16 + w)%N
  | _, _, _, _ => None
  end.

Definition simple_escape (e : N) : option N :=
  if (e =? 34)%N then Some 34%N
  else if (e =? 92)%N then Some 92%N
  else if (e =? 47)%N then Some 47%N
  else if (e =? 98)%N then Some 8%N
  else if (e =? 102)%N then Some 12%N
  else if (e =? 110)%N then Some 10%N
  else if (e =? 114)%N then Some 13%N
  else if (e =? 116)%N then Some 9%N
  else None.

(** The characters of a string literal after its opening quote. *)
Fixpoint string_body (s acc : jsstring) {struct s} : option (jsstring * jsstring) :=
  match s with
  | [] => None
  | c :: r =>
      if (c =? 34)%N then Some (rev acc, r)
      else if (c =? 92)%N then
        match r with
        | [] => None
        | e :: r1 =>
            if (e =? 117)%N then
              match r1 with
              | h1 :: h2 :: h3 :: h4 :: r2 =>
                  match hex4 h1 h2 h3 h4 with
                  | Some u => string_body r2 (u :: acc)
                  | None => None
                  end
              | _ => None
              end
            else
              match simple_escape e with
              | Some u => string_body r1 (u :: acc)
              | None => None
              end
        end
      else if (c <? 32)%N then None
      else string_body r (c :: acc)
  end.

Fixpoint digits (s : jsstring) : jsstring * jsstring :=
  match s with
  | c :: r => if isDigit c then let (d, t) := digits r in (c :: d, t) else ([], s)
  | [] => ([], [])
  end.

Definition digits_value (d : jsstring) : Z :=
  fold_left (fun a c => (a * 10 + Z.of_N (c - 48))%Z) d 0%Z.

(** The binary64 nearest to [(-1)^neg * m * 10^e]. *)
Definition decimal_to_number (neg : bool) (m e : Z) : spec_float :=
  match m with
  | Zpos p =>
      if (0 <=? e)%Z then
        binary_normalize 53 1024 ((if neg then -1 else 1) * m * 10 ^ e)%Z 0 false
      else
        match (10 ^ (- e))%Z with
        | Zpos q => SFdiv 53 1024 (S754_finite neg p 0) (S754_finite false q 0)
        | _ => S754_nan
        end
  | _ => S754_zero neg
  end.

Definition number (s : jsstring) : option (value * jsstring) :=
  let (neg, s1) := match s with
                   | c :: r => if (c =? 45)%N then (true, r) else (false, s)
                   | [] => (false, s)
                   end in
  let (ip, s2) := match s1 with
                  | c :: r => if (c =? 48)%N then ([c], r) else digits s1
                  | [] => ([], [])
                  end in
  match ip with
  | [] => None
  | _ =>
      let fracpart :=
        match s2 with
        | c :: r => if (c =? 46)%N then
                      let (fp, t) := digits r in
                      match fp with [] => None | _ => Some (fp, t) end
                    else Some ([], s2)
        | [] => Some ([], s2)
        end in
      match fracpart with
      | None => None
      | Some (fp, s3) =>
          let exppart :=
            match s3 with
            | c :: r =>
                if ((c =? 101) || (c =? 69))%N then
                  let (eneg, r1) := match r with
                                    | g :: r' => if (g =? 45)%N then (true, r')
                                                 else if (g =? 43)%N then (false, r')
                                                 else (false, r)
                                    | [] => (false, r)
                                    end in
                  let (ed, t) := digits r1 in
                  match ed with
                  | [] => None
                  | _ => Some (if eneg then (- digits_value ed)%Z else digits_value ed, t)
                  end
                else Some (0%Z, s3)
            | [] => Some (0%Z, s3)
            end in
          match exppart with
          | None => None
          | Some (ex, s4) =>
              Some (VNum (decimal_to_number neg (digits_value (ip ++ fp))
                            (ex - Z.of_nat (List.length fp))%Z), s4)
          end
      end
  end.

(** Defining a property: a repeated key keeps its place and takes the
    later value. *)
Fixpoint define (k : jsstring) (v : value) (ps : list (jsstring * value))
  : list (jsstring * value) :=
  match ps with
  | [] => [(k, v)]
  | (k', v') :: r => if jsstring_eqb k k' then (k', v) :: r else (k', v') :: define k v r
  end.

Fixpoint value_ (fuel : nat) (s : jsstring) {struct fuel} : option (value * jsstring) :=
  match fuel with
  | O => None
  | S fuel' =>
      let fix elements (n : nat) (acc : list value) (s : jsstring) {struct n}
        : option (value * jsstring) :=
        match n with
        | O => None
        | S n' =>
            match value_ fuel' s with
            | None => None
            | Some (v, r) =>
                match skip_ws r with
                | c :: r' =>
                    if (c =? 44)%N then elements n' (v :: acc) r'
                    else if (c =? 93)%N then Some (VArr (rev (v :: acc)), r')
                    else None
                | [] => None
                end
            end
        end in
      let fix members (n : nat) (acc : list (jsstring * value)) (s : jsstring) {struct n}
        : option (value * jsstring) :=
        match n with
        | O => None
        | S n' =>
            match skip_ws s with
            | q :: r =>
                if (q =? 34)%N then
                  match string_body r [] with
                  | None => None
                  | Some (k, r1) =>
                      match skip_ws r1 with
                      | c :: r2 =>
                          if (c =? 58)%N then
                            match value_ fuel' r2 with
                            | None => None
                            | Some (v, r3) =>
                                match skip_ws r3 with
                                | d :: r4 =>
                                    if (d =? 44)%N then members n' (define k v acc) r4
                                    else if (d =? 125)%N then Some (VObj (define k v acc), r4)
                                    else None
                                | [] => None
                                end
                            end
                          else None
                      | [] => None
                      end
                  end
                else None
            | [] => None
            end
        end in
      match skip_ws s with
      | [] => None
      | c :: r =>
          if (c =? 91)%N then
            match skip_ws r with
            | c2 :: r2 => if (c2 =? 93)%N then Some (VArr [], r2) else elements fuel' [] r
            | [] => None
            end
          else if (c =? 123)%N then
            match skip_ws r with
            | c2 :: r2 => if (c2 =? 125)%N then Some (VObj [], r2) else members fuel' [] r
            | [] => None
            end
          else if (c =? 34)%N then
            match string_body r [] with
            | Some (t, r1) => Some (VStr t, r1)
            | None => None
            end
          else if startsWith (str "true") (c :: r) then Some (VBool true, skipn 4 (c :: r))
          else if startsWith (str "false") (c :: r) then Some (VBool false, skipn 5 (c :: r))
          else if startsWith (str "null") (c :: r) then Some (VNull, skipn 4 (c :: r))
          else number (c :: r)
      end
  end.

Definition parse (s : jsstring) : option value :=
  match value_ (S (List.length s)) s with
  | Some (v, r) => match skip_ws r with [] => Some v | _ :: _ => None end
  | None => None
  end.

End JSON.


(* ===================================================================== *)
(** * Effects shared by the two revisions *)
(* ===================================================================== *)

Module Effects.
Import JS.

(** The three questions [main] asks through [getUserInput]. *)
Inductive prompt := AskPrivateKey | AskArgs | AskProceed.

Record receipt := {
  blockNumber : Z;
  gasUsed : Z;
  transactionHash : jsstring
}.

(** The major version of the ethers package that [require('ethers')]
    resolves to.  The first revision names both in its comments (it tries
    the v6 syntax first and falls back to the v5 syntax) and calls methods
    of either; which of its calls exist depends on the one installed.
    The second revision is written against version 6 throughout. *)
Inductive ethersVersion := EthersV5 | EthersV6.

(** A gas amount as the library hands it out: a [BigNumber] object with
    ethers 5, a [bigint] with ethers 6. *)
Inductive gasAmount :=
| BigNumber (n : Z)
| BigInt (n : Z).

(** What the script exchanges with the outside world: the lines the user
    types, the wallet constructor, and the three RPC interactions; a left
    injection is the error a call raises. *)
Record host := {
  answer : prompt -> jsstring;
  newWallet : jsstring -> error + jsstring;
  estimateGas : list value -> error + Z;
  sendTransaction : list value -> Z -> error + jsstring;
  waitReceipt : jsstring -> error + receipt
}.

(** Console lines the properties refer to.  Progress narration that cannot
    raise is not traced. *)
Inductive message :=
| MsgNoPrivateKey
| MsgNoArgs
| MsgMismatchWarning (wallet : jsstring) (attester : value)
| MsgCancelled
| MsgGasEstimationFailed (e : error)
| MsgCallFailed (e : error)
| MsgSuccess (r : receipt)
| MsgFailed
| MsgErrorMessage (e : error)
| MsgTroubleshooting
| MsgUnhandled (e : error).

Inductive event :=
| Asked (p : prompt)
| Log (m : message)
| EstimateGasCall (params : list value)
| AddValidatorCall (params : list value) (gasLimit : Z)
| WaitCall (tx : jsstring).

(** How a block of statements ends: with a value, by [return], or by a
    raised error. *)
Inductive completion (A : Type) : Type :=
| Normal (a : A)
| Returned
| Thrown (e : error).
Arguments Normal {A} a.
Arguments Returned {A}.
Arguments Thrown {A} e.

(** Computations that emit a trace of events. *)
Definition M (A : Type) : Type := list event * completion A.

Definition ret {A} (a : A) : M A := ([], Normal a).

Definition bind {A B} (m : M A) (f : A -> M B) : M B :=
  match m with
  | (t, Normal a) => let (t', c) := f a in (t ++ t', c)
  | (t, Returned) => (t, Returned)
  | (t, Thrown e) => (t, Thrown e)
  end.

Definition emit (ev : event) : M unit := ([ev], Normal tt).
Definition throw {A} (e : error) : M A := ([], Thrown e).
Definition return_ {A} : M A := ([], Returned).

Definition lift {A} (r : result A) : M A :=
  match r with Ok a => ret a | Err e => throw e end.

Definition call {A} (r : error + A) : M A :=
  match r with inr a => ret a | inl e => throw e end.

(** [try { body } catch (e) { handler e }]. *)
Definition tryCatch {A} (body : M A) (handler : error -> M A) : M A :=
  match body with
  | (t, Thrown e) => let (t', c) := handler e in (t ++ t', c)
  | other => other
  end.

Definition trace {A} (m : M A) : list event := fst m.
Definition outcome {A} (m : M A) : completion A := snd m.

(** [getUserInput]: the prompt is shown and the typed line comes back
    trimmed. *)
Definition getUserInput (h : host) (p : prompt) : M jsstring :=
  bind (emit (Asked p)) (fun _ => ret (trim (answer h p))).

Definition isSubmission (ev : event) : bool :=
  match ev with AddValidatorCall _ _ => true | _ => false end.

(** Number of transactions handed to the contract in a trace. *)
Definition submissions (t : list event) : nat :=
  List.length (filter isSubmission t).

End Effects.

Declare Scope js_scope.
Delimit Scope js_scope with js.
Notation "x <- m ;; k" := (JS.rbind m (fun x => k))
  (at level 61, m at next level, right associativity) : js_scope.
Notation "x <~ m ;; k" := (Effects.bind m (fun x => k))
  (at level 61, m at next level, right associativity) : js_scope.
Notation "m ;;; k" := (Effects.bind m (fun _ => k))
  (at level 61, right associativity) : js_scope.

(* ===================================================================== *)
(** * rejoin_validator_set.js *)
(* ===================================================================== *)

Module RejoinValidatorSet.
Import JS Effects.
Local Open Scope js_scope.

(** ** parseArgsData *)

(** [argsInput.replace(/^args:\s*/, '')]. *)
Definition removePrefix (argsInput : jsstring) : jsstring :=
  if startsWith (str "args:") argsInput
  then trimStart (skipn 5 argsInput)
  else argsInput.

Definition cleanInput (argsInput : jsstring) : jsstring :=
  trim (removePrefix argsInput).

Definition isJsonArrayForm (c : jsstring) : bool :=
  startsWith [c_lbracket] c && endsWith [c_rbracket] c.

Definition isTupleForm (c : jsstring) : bool :=
  startsWith [c_lparen] c && endsWith [c_rparen] c.

(** The variables of the splitting loop. *)
Record scanner := {
  parts : list jsstring;
  current : jsstring;
  depth : Z;
  inString : bool;
  stringChar : option N;
  braceDepth : Z
}.

Definition scanner0 : scanner :=
  {| parts := []; current := []; depth := 0; inString := false;
     stringChar := None; braceDepth := 0 |}.

Definition isStringChar (st : scanner) (c : N) : bool :=
  match stringChar st with Some q => (c =? q)%N | None => false end.

(** One iteration of the loop, on the character [char]. *)
Definition step (st : scanner) (char : N) : scanner :=
  let append := current st ++ [char] in
  if negb (inString st) && ((char =? c_dquote) || (char =? c_squote))%N then
    {| parts := parts st; current := append; depth := depth st;
       inString := true; stringChar := Some char; braceDepth := braceDepth st |}
  else if inString st && isStringChar st char then
    {| parts := parts st; current := append; depth := depth st;
       inString := false; stringChar := None; braceDepth := braceDepth st |}
  else if negb (inString st) && (char =? c_lbrace)%N then
    {| parts := parts st; current := append; depth := depth st;
       inString := inString st; stringChar := stringChar st;
       braceDepth := braceDepth st + 1 |}
  else if negb (inString st) && (char =? c_rbrace)%N then
    {| parts := parts st; current := append; depth := depth st;
       inString := inString st; stringChar := stringChar st;
       braceDepth := braceDepth st - 1 |}
  else if negb (inString st) && (char =? c_lparen)%N then
    {| parts := parts st; current := append; depth := depth st + 1;
       inString := inString st; stringChar := stringChar st;
       braceDepth := braceDepth st |}
  else if negb (inString st) && (char =? c_rparen)%N then
    {| parts := parts st; current := append; depth := depth st - 1;
       inString := inString st; stringChar := stringChar st;
       braceDepth := braceDepth st |}
  else if negb (inString st) && (char =? c_comma)%N
          && (depth st =? 0)%Z && (braceDepth st =? 0)%Z then
    {| parts := parts st ++ [trim (current st)]; current := [];
       depth := depth st; inString := inString st;
       stringChar := stringChar st; braceDepth := braceDepth st |}
  else
    {| parts := parts st; current := append; depth := depth st;
       inString := inString st; stringChar := stringChar st;
       braceDepth := braceDepth st |}.

Definition scan (st : scanner) (s : jsstring) : scanner := fold_left step s st.

(** The loop and the push of the last part. *)
Definition splitParts (inner : jsstring) : list jsstring :=
  let st := scan scanner0 inner in
  match trim (current st) with
  | [] => parts st
  | _ :: _ => parts st ++ [trim (current st)]
  end.

Section WithJSON.
Variable JSON_parse : jsstring -> option value.

(** The callback of [parts.map].  The numeric test of the source chooses
    between two branches that both return the part as it is. *)
Definition parsePart (part0 : jsstring) : value :=
  let part := trim part0 in
  if startsWith [c_lbrace] part && endsWith [c_rbrace] part then
    match JSON_parse part with Some v => v | None => VStr part end
  else if startsWith [c_lbracket] part && endsWith [c_rbracket] part then
    match JSON_parse part with Some v => v | None => VStr part end
  else VStr part.

Definition parseArgsData (argsInput : jsstring) : result value :=
  let clean := cleanInput argsInput in
  if isJsonArrayForm clean then
    match JSON_parse clean with Some v => Ok v | None => Err SyntaxError end
  else if isTupleForm clean then
    Ok (VArr (map parsePart (splitParts (slice_1_m1 clean))))
  else Err InvalidInputFormat.


(** ** extractDataFromArgs *)

Record extracted := {
  attester : value;
  merkleProof : value;
  zkPassportData : value;
  publicKeyG1 : value;
  publicKeyG2 : value;
  signature : value
}.

(** [JSON.stringify(v).substring(0, 100)]: [JSON.stringify] answers
    [undefined] for [undefined], and the method call on it raises. *)
Definition stringifyPreview (v : value) : result unit :=
  match v with VUndefined => Err TypeError | _ => Ok tt end.

(** The string case of the ZKPassport argument: parsed when it parses,
    kept otherwise. *)
Definition parseIfString (v : value) : value :=
  match v with
  | VStr s => match JSON_parse s with Some o => o | None => v end
  | _ => v
  end.

Definition extractDataFromArgs (args : value) : result extracted :=
  attester <- getIndex args 0 ;;
  _ <- template attester ;;
  a1 <- getIndex args 1 ;;
  let merkleProof := or_else a1 (VArr []) in
  len <- lengthOf merkleProof ;;
  _ <- template len ;;
  a2 <- getIndex args 2 ;;
  _ <- stringifyPreview a2 ;;
  let zkPassportData := parseIfString a2 in
  if negb (truthy zkPassportData)
     || negb (jstype_eqb (typeof zkPassportData) TObject)
  then Err ZKPassportNotObject
  else
    n <- publicInputsCount zkPassportData ;;
    _ <- template n ;;
    publicKeyG1 <- getIndex args 3 ;;
    publicKeyG2 <- getIndex args 4 ;;
    signature <- getIndex args 5 ;;
    Ok {| attester := attester; merkleProof := merkleProof;
          zkPassportData := zkPassportData; publicKeyG1 := publicKeyG1;
          publicKeyG2 := publicKeyG2; signature := signature |}.

(** ** callAddValidator *)

Variable ethers : ethersVersion.
Variable h : host.

(** The six positional arguments of [contract.addValidator]. *)
Definition callParams (d : extracted) : list value :=
  [attester d; merkleProof d; zkPassportData d;
   publicKeyG1 d; publicKeyG2 d; signature d].

(** [contract.addValidator.estimateGas(...)].  With ethers 6 this is the
    estimate method of the contract function: it asks the endpoint and
    answers a [bigint].  With ethers 5 the contract function has no such
    property (the estimate lives at [contract.estimateGas.addValidator]),
    so the call of [undefined] raises a [TypeError] before any request. *)
Definition estimateGasOfAddValidator (ps : list value) : M gasAmount :=
  match ethers with
  | EthersV6 =>
      emit (EstimateGasCall ps) ;;;
      g <~ call (estimateGas h ps) ;;
      ret (BigInt g)
  | EthersV5 => throw TypeError
  end.

(** [ethers.BigNumber.from('2000000')]: [ethers.BigNumber] exists with
    ethers 5 only; with ethers 6 it is [undefined], and reading [from] off
    it raises. *)
Definition fallbackGas : result gasAmount :=
  match ethers with
  | EthersV5 => Ok (BigNumber 2000000)
  | EthersV6 => Err TypeError
  end.

(** [gasEstimate.mul(120).div(100)]: methods of a [BigNumber]; a [bigint]
    has no [mul], and calling it raises. *)
Definition gasLimitFor (gasEstimate : gasAmount) : result Z :=
  match gasEstimate with
  | BigNumber n => Ok (Z.quot (n * 120) 100)
  | BigInt _ => Err TypeError
  end.

(** Building the provider (by the version 6 constructor, or by the version
    5 one when that raises) and the contract from the fixed URL, address
    and ABI does not raise with either version; the log lines before the
    estimate are kept, since their interpolations can.  The options object
    of [contract.addValidator], and with it the gas limit, is evaluated
    before the call. *)
Definition callAddValidator (wallet : jsstring) (d : extracted) : M receipt :=
  tryCatch
    (_ <~ lift (template (attester d)) ;;
     len <~ lift (lengthOf (merkleProof d)) ;;
     _ <~ lift (template len) ;;
     gasEstimate <~ tryCatch
       (estimateGasOfAddValidator (callParams d))
       (fun e => emit (Log (MsgGasEstimationFailed e)) ;;; lift fallbackGas) ;;
     gasLimit <~ lift (gasLimitFor gasEstimate) ;;
     emit (AddValidatorCall (callParams d) gasLimit) ;;;
     tx <~ call (sendTransaction h (callParams d) gasLimit) ;;
     emit (WaitCall tx) ;;;
     r <~ call (waitReceipt h tx) ;;
     ret r)
    (fun e => emit (Log (MsgCallFailed e)) ;;; throw e).

(** ** main *)

Definition isEmpty (s : jsstring) : bool := jsstring_eqb s [].

(** The statements of the [try] block. *)
Definition mainBody : M unit :=
  privateKey <~ getUserInput h AskPrivateKey ;;
  if isEmpty privateKey then emit (Log MsgNoPrivateKey) ;;; return_ else
  wallet <~ tryCatch (call (newWallet h privateKey))
                     (fun _ => call (newWallet h privateKey)) ;;
  argsInput <~ getUserInput h AskArgs ;;
  if isEmpty argsInput then emit (Log MsgNoArgs) ;;; return_ else
  args <~ lift (parseArgsData argsInput) ;;
  d <~ lift (extractDataFromArgs args) ;;
  _ <~ lift (template (attester d)) ;;
  len <~ lift (lengthOf (merkleProof d)) ;;
  _ <~ lift (template len) ;;
  n <~ lift (publicInputsCount (zkPassportData d)) ;;
  _ <~ lift (template n) ;;
  lowered <~ lift (callToLowerCase (attester d)) ;;
  _ <~ (if negb (jsstring_eqb (toLowerCase wallet) lowered) then
          emit (Log (MsgMismatchWarning wallet (attester d))) ;;;
          proceed <~ getUserInput h AskProceed ;;
          if negb (jsstring_eqb (toLowerCase proceed) (str "y"))
          then emit (Log MsgCancelled) ;;; return_
          else ret tt
        else ret tt) ;;
  receipt <~ callAddValidator wallet d ;;
  emit (Log (MsgSuccess receipt)).

(** The [catch] block: the failure line, the error's message, the hints. *)
Definition report (e : error) : M unit :=
  emit (Log MsgFailed) ;;;
  emit (Log (MsgErrorMessage e)) ;;;
  emit (Log MsgTroubleshooting).

Definition main : M unit := tryCatch mainBody report.

(** [main().catch(console.error)]: a rejection is printed; the exit code
    of the process is left at zero. *)
Definition entryExitCode (c : completion unit) : Z := 0.

Definition run : list event * Z :=
  match main with
  | (t, Thrown e) => (t ++ [Log (MsgUnhandled e)], entryExitCode (Thrown e))
  | (t, c) => (t, entryExitCode c)
  end.

End WithJSON.
End RejoinValidatorSet.

(* ===================================================================== *)
(** * The ES-module revision *)
(* ===================================================================== *)

Module Part000.
Import JS Effects.
Local Open Scope js_scope.

(** ** parseArgsData *)

(** Trimming and the removal of the [args:] and [args :] prefixes. *)
Definition cleanInput (argsInput : jsstring) : jsstring :=
  let clean := trim argsInput in
  if startsWith (str "args:") clean then trim (substringFrom 4 clean)
  else if startsWith (str "args :") clean then trim (substringFrom 5 clean)
  else clean.

Definition isJsonArrayForm (c : jsstring) : bool :=
  startsWith [c_lbracket] c && endsWith [c_rbracket] c.

Definition isTupleForm (c : jsstring) : bool :=
  startsWith [c_lparen] c && endsWith [c_rparen] c.

(** The variables of the splitting loop. *)
Record scanner := {
  parts : list jsstring;
  currentPart : jsstring;
  depth : Z;
  braceDepth : Z;
  bracketDepth : Z;
  inString : bool;
  stringChar : option N
}.

Definition scanner0 : scanner :=
  {| parts := []; currentPart := []; depth := 0; braceDepth := 0;
     bracketDepth := 0; inString := false; stringChar := None |}.

Definition isStringChar (st : scanner) (c : N) : bool :=
  match stringChar st with Some q => (c =? q)%N | None => false end.

(** [i > 0 && cleanInput[i - 1] === '\\'], with [prev] the character
    before the current one, if any. *)
Definition afterBackslash (prev : option N) : bool :=
  match prev with Some p => (p =? c_backslash)%N | None => false end.

Definition setCounters (st : scanner) (cur : jsstring) (d b k : Z) : scanner :=
  {| parts := parts st; currentPart := cur; depth := d; braceDepth := b;
     bracketDepth := k; inString := inString st; stringChar := stringChar st |}.

Definition setString (st : scanner) (cur : jsstring) (ins : bool) (q : option N)
  : scanner :=
  {| parts := parts st; currentPart := cur; depth := depth st;
     braceDepth := braceDepth st; bracketDepth := bracketDepth st;
     inString := ins; stringChar := q |}.

(** One iteration of the loop, on the character [char]. *)
Definition step (prev : option N) (st : scanner) (char : N) : scanner :=
  let append := currentPart st ++ [char] in
  if inString st then
    if isStringChar st char then
      if afterBackslash prev
      then setString st append (inString st) (stringChar st)
      else setString st append false None
    else setString st append (inString st) (stringChar st)
  else if ((char =? c_dquote) || (char =? c_squote))%N then
    setString st append true (Some char)
  else if (char =? c_lparen)%N then
    setCounters st append (depth st + 1) (braceDepth st) (bracketDepth st)
  else if (char =? c_rparen)%N then
    setCounters st append (depth st - 1) (braceDepth st) (bracketDepth st)
  else if (char =? c_lbrace)%N then
    setCounters st append (depth st) (braceDepth st + 1) (bracketDepth st)
  else if (char =? c_rbrace)%N then
    setCounters st append (depth st) (braceDepth st - 1) (bracketDepth st)
  else if (char =? c_lbracket)%N then
    setCounters st append (depth st) (braceDepth st) (bracketDepth st + 1)
  else if (char =? c_rbracket)%N then
    setCounters st append (depth st) (braceDepth st) (bracketDepth st - 1)
  else if (char =? c_comma)%N && (depth st =? 0)%Z && (braceDepth st =? 0)%Z
          && (bracketDepth st =? 0)%Z then
    {| parts := parts st ++ [trim (currentPart st)]; currentPart := [];
       depth := depth st; braceDepth := braceDepth st;
       bracketDepth := bracketDepth st; inString := inString st;
       stringChar := stringChar st |}
  else setString st append (inString st) (stringChar st).

Fixpoint scan (prev : option N) (st : scanner) (s : jsstring) : scanner :=
  match s with
  | [] => st
  | char :: rest => scan (Some char) (step prev st char) rest
  end.

(** The loop and the push of the last part. *)
Definition splitParts (inner : jsstring) : list jsstring :=
  let st := scan None scanner0 inner in
  match trim (currentPart st) with
  | [] => parts st
  | _ :: _ => parts st ++ [trim (currentPart st)]
  end.

Section WithHost.
Variable JSON_parse : jsstring -> option value.
Variable isAddress : jsstring -> bool.

(** The callback of [parts.map]. *)
Definition parsePart (part0 : jsstring) : value :=
  let part := trim part0 in
  match part with
  | [] => VNull
  | _ :: _ =>
      if startsWith [c_lbrace] part && endsWith [c_rbrace] part
         || startsWith [c_lbracket] part && endsWith [c_rbracket] part
      then match JSON_parse part with Some v => v | None => VStr part end
      else VStr part
  end.

Definition parseArgsData (argsInput : jsstring) : result value :=
  match argsInput with
  | [] => Err NoInputData
  | _ :: _ =>
      let clean := cleanInput argsInput in
      match (if isJsonArrayForm clean then JSON_parse clean else None) with
      | Some v => Ok v
      | None =>
          if isTupleForm clean then
            let inner := trim (substring 1 (List.length clean - 1) clean) in
            Ok (VArr (map parsePart (splitParts inner)))
          else Err (InvalidInputFormatReceived (substring 0 150 clean))
      end
  end.

(** ** extractDataFromArgs *)

Record extracted := {
  attester : value;
  merkleProof : value;
  zkPassportData : value;
  publicKeyG1 : value;
  publicKeyG2 : value;
  signature : value
}.

Definition parseIfString (v : value) : value :=
  match v with
  | VStr s => match JSON_parse s with Some o => o | None => v end
  | _ => v
  end.

Definition isAddressString (v : value) : bool :=
  match v with VStr s => isAddress s | _ => false end.

(** [throw new Error(`... ${v} ...`)]: the interpolation runs first. *)
Definition throwWith {A} (v : value) (e : error) : result A :=
  _ <- template v ;; Err e.

Definition extractDataFromArgs (args : value) : result extracted :=
  match args with
  | VArr l =>
      if (List.length l <? 6)%nat
      then throwWith (number_of_nat (List.length l))
                     (ExpectedSixArguments (number_of_nat (List.length l)))
      else
        let attester := nth 0 l VUndefined in
        if negb (isAddressString attester)
        then throwWith attester (InvalidAttester attester)
        else
          let merkleProof := or_else (nth 1 l VUndefined) (VArr []) in
          if negb (isArray merkleProof)
          then throwWith merkleProof (MerkleProofNotArray merkleProof)
          else
            let zkPassportData := parseIfString (nth 2 l VUndefined) in
            if negb (truthy zkPassportData)
               || negb (jstype_eqb (typeof zkPassportData) TObject)
            then Err (ZKPassportParamsNotObject (typeof zkPassportData))
            else
              n <- publicInputsCount zkPassportData ;;
              _ <- template n ;;
              let publicKeyG1 := nth 3 l VUndefined in
              let publicKeyG2 := nth 4 l VUndefined in
              let signature := nth 5 l VUndefined in
              if negb (truthy publicKeyG1) || negb (truthy publicKeyG2)
                 || negb (truthy signature)
              then Err MissingBLS
              else Ok {| attester := attester; merkleProof := merkleProof;
                         zkPassportData := zkPassportData;
                         publicKeyG1 := publicKeyG1;
                         publicKeyG2 := publicKeyG2; signature := signature |}
  | _ =>
      let received := or_else (optLength args) (number_of_nat 0) in
      throwWith received (ExpectedSixArguments received)
  end.

(** ** callAddValidator *)

Variable h : host.

Definition callParams (d : extracted) : list value :=
  [attester d; merkleProof d; zkPassportData d;
   publicKeyG1 d; publicKeyG2 d; signature d].

(** [gasEstimate * 120n / 100n]. *)
Definition gasLimitWithBuffer (gasEstimate : Z) : Z := Z.quot (gasEstimate * 120) 100.

(** [2_000_000n]. *)
Definition fallbackGas : Z := 2000000.

(** [Object.keys(v)] raises on [null] and [undefined] only. *)
Definition objectKeys (v : value) : result unit :=
  match v with VUndefined | VNull => Err TypeError | _ => Ok tt end.

Definition callAddValidator (wallet : jsstring) (d : extracted) : M receipt :=
  tryCatch
    (_ <~ lift (template (attester d)) ;;
     len <~ lift (lengthOf (merkleProof d)) ;;
     _ <~ lift (template len) ;;
     _ <~ lift (objectKeys (zkPassportData d)) ;;
     gasEstimate <~ tryCatch
       (emit (EstimateGasCall (callParams d)) ;;;
        call (estimateGas h (callParams d)))
       (fun e => emit (Log (MsgGasEstimationFailed e)) ;;; ret fallbackGas) ;;
     emit (AddValidatorCall (callParams d) (gasLimitWithBuffer gasEstimate)) ;;;
     tx <~ call (sendTransaction h (callParams d) (gasLimitWithBuffer gasEstimate)) ;;
     emit (WaitCall tx) ;;;
     r <~ call (waitReceipt h tx) ;;
     ret r)
    (fun e => emit (Log (MsgCallFailed e)) ;;; throw e).

(** ** main *)

Definition isEmpty (s : jsstring) : bool := jsstring_eqb s [].

(** The statements of the [try] block. *)
Definition mainBody : M unit :=
  privateKey <~ getUserInput h AskPrivateKey ;;
  if isEmpty privateKey then emit (Log MsgNoPrivateKey) ;;; return_ else
  wallet <~ tryCatch (call (newWallet h privateKey))
                     (fun e => throw (InvalidPrivateKey e)) ;;
  argsInput <~ getUserInput h AskArgs ;;
  args <~ lift (parseArgsData argsInput) ;;
  d <~ lift (extractDataFromArgs args) ;;
  _ <~ lift (template (attester d)) ;;
  lowered <~ lift (callToLowerCase (attester d)) ;;
  _ <~ (if negb (jsstring_eqb (toLowerCase wallet) lowered) then
          emit (Log (MsgMismatchWarning wallet (attester d))) ;;;
          proceed <~ getUserInput h AskProceed ;;
          if negb (jsstring_eqb (toLowerCase proceed) (str "y"))
          then emit (Log MsgCancelled) ;;; return_
          else ret tt
        else ret tt) ;;
  receipt <~ callAddValidator wallet d ;;
  emit (Log (MsgSuccess receipt)).

(** The [catch] block: the failure line, the error's message, the tips. *)
Definition report (e : error) : M unit :=
  emit (Log MsgFailed) ;;;
  emit (Log (MsgErrorMessage e)) ;;;
  emit (Log MsgTroubleshooting).

Definition main : M unit := tryCatch mainBody report.

(** [main().catch(error => { console.error(...); process.exit(1); })]. *)
Definition entryExitCode (c : completion unit) : Z :=
  match c with Thrown _ => 1 | _ => 0 end.

Definition run : list event * Z :=
  match main with
  | (t, Thrown e) => (t ++ [Log (MsgUnhandled e)], entryExitCode (Thrown e))
  | (t, c) => (t, entryExitCode c)
  end.

End WithHost.
End Part000.


(* ===================================================================== *)
(** * Vocabulary of the properties *)
(* ===================================================================== *)

Import JS Effects.

(** A value that is an object for the script's test: truthy and of type
    [object], that is, a plain object or an array. *)
Definition isObject (v : value) : bool :=
  match v with VArr _ | VObj _ => true | _ => false end.

(** An argument that is not there: [undefined] or [null]. *)
Definition missing (v : value) : bool :=
  match v with VUndefined | VNull => true | _ => false end.

(** An error that reports an invalid input format. *)
Definition isInvalidFormat (e : error) : bool :=
  match e with
  | InvalidInputFormat | InvalidInputFormatReceived _ => true
  | _ => false
  end.

(** *** Well-nested text

    The renderings the splitting loops are meant for.  A text is
    well nested when every quoted string in it is closed and every
    opening bracket is matched; at the top level of an element a comma
    is not allowed, inside a bracket pair it is.  The grammar takes as
    parameters the characters that are not plain text, the bracket pairs
    that nest, and the bodies a string of a given quote may have. *)
Definition isQuote (c : N) : bool := ((c =? c_dquote) || (c =? c_squote))%N.

Inductive nested (special : N -> bool) (pair : N -> N -> bool)
    (body : N -> jsstring -> bool) : bool -> jsstring -> Prop :=
| nested_nil top : nested special pair body top []
| nested_plain top c s :
    special c = false ->
    (top = true -> c <> c_comma) ->
    nested special pair body top s ->
    nested special pair body top (c :: s)
| nested_string top q b s :
    isQuote q = true ->
    body q b = true ->
    nested special pair body top s ->
    nested special pair body top (q :: b ++ q :: s)
| nested_group top o c inner s :
    pair o c = true ->
    nested special pair body false inner ->
    nested special pair body top s ->
    nested special pair body top (o :: inner ++ c :: s).

(** The first revision: parentheses and curly braces nest, a string runs
    to the next occurrence of its quote. *)
Definition rvs_special (c : N) : bool :=
  (isQuote c || (c =? c_lbrace) || (c =? c_rbrace)
   || (c =? c_lparen) || (c =? c_rparen))%N.

Definition rvs_pair (o c : N) : bool :=
  ((o =? c_lparen) && (c =? c_rparen) || (o =? c_lbrace) && (c =? c_rbrace))%N.

Definition rvs_body (q : N) (b : jsstring) : bool :=
  negb (existsb (N.eqb q) b).

Definition rvs_element : jsstring -> Prop :=
  nested rvs_special rvs_pair rvs_body true.

(** The second revision: square brackets nest too, and a quote that
    follows a backslash does not close its string. [prev] is the
    character before the body, the opening quote at first. *)
Definition p000_special (c : N) : bool :=
  (isQuote c || (c =? c_lparen) || (c =? c_rparen)
   || (c =? c_lbrace) || (c =? c_rbrace)
   || (c =? c_lbracket) || (c =? c_rbracket))%N.

Definition p000_pair (o c : N) : bool :=
  ((o =? c_lparen) && (c =? c_rparen) || (o =? c_lbrace) && (c =? c_rbrace)
   || (o =? c_lbracket) && (c =? c_rbracket))%N.

Fixpoint closesAfter (q prev : N) (b : jsstring) : bool :=
  match b with
  | [] => negb (prev =? c_backslash)%N
  | c :: r => (negb (c =? q)%N || (prev =? c_backslash)%N) && closesAfter q c r
  end.

Definition p000_body (q : N) (b : jsstring) : bool := closesAfter q q b.

Definition p000_element : jsstring -> Prop :=
  nested p000_special p000_pair p000_body true.

(** The elements of a tuple, separated by commas. *)
Definition join (es : list jsstring) : jsstring :=
  match es with
  | [] => []
  | e :: r => e ++ flat_map (fun x => c_comma :: x) r
  end.

(** The rendering of a tuple. *)
Definition tuple (es : list jsstring) : jsstring :=
  c_lparen :: join es ++ [c_rparen].

Definition isBlank (e : jsstring) : bool :=
  match trim e with [] => true | _ :: _ => false end.

(** The elements that make it into the array: all of them, but for a
    blank last one. *)
Definition kept (es : list jsstring) : list jsstring :=
  if isBlank (last es []) then removelast es else es.

(** The gas estimate the call goes on with: the answer of the read, or the
    fallback when the read raises. *)
Definition gasEstimateOr (fallback : Z) (r : error + Z) : Z :=
  match r with inr g => g | inl _ => fallback end.

(** The confirmation block of [main], shared by the two revisions: the
    warning, the question, and the early return on any answer but [y]. *)
Definition confirmation (h : host) (wallet : jsstring) (att : value)
    (lowered : jsstring) : M unit :=
  if negb (jsstring_eqb (toLowerCase wallet) lowered) then
    bind (emit (Log (MsgMismatchWarning wallet att))) (fun _ =>
    bind (getUserInput h AskProceed) (fun proceed =>
    if negb (jsstring_eqb (toLowerCase proceed) (str "y"))
    then bind (emit (Log MsgCancelled)) (fun _ => return_)
    else ret tt))
  else ret tt.

(** The statements of the first revision's [main] between the extraction
    and the address check. *)
Definition rvs_preflight (d : RejoinValidatorSet.extracted) : result jsstring :=
  rbind (template (RejoinValidatorSet.attester d)) (fun _ =>
  rbind (lengthOf (RejoinValidatorSet.merkleProof d)) (fun len =>
  rbind (template len) (fun _ =>
  rbind (publicInputsCount (RejoinValidatorSet.zkPassportData d)) (fun n =>
  rbind (template n) (fun _ =>
  callToLowerCase (RejoinValidatorSet.attester d)))))).

(** The same for the second revision. *)
Definition p000_preflight (d : Part000.extracted) : result jsstring :=
  rbind (template (Part000.attester d)) (fun _ =>
  callToLowerCase (Part000.attester d)).

Definition asked2 : list event := [Asked AskPrivateKey; Asked AskArgs].

(** The end of [main] once the data is extracted: the confirmation, the
    contract call, the success line. *)
Definition finish (h : host) (wallet : jsstring) (att : value)
    (lowered : jsstring) (theCall : M receipt) : M unit :=
  bind (asked2, Normal tt) (fun _ =>
  bind (confirmation h wallet att lowered) (fun _ =>
  bind theCall (fun r => emit (Log (MsgSuccess r))))).

(** The first revision's run gets as far as the address check: a key was
    typed, the wallet was built, the pasted text parsed, the data were
    extracted and logged. *)
Definition rvs_checked (JSON_parse : jsstring -> option value) (h : host)
    (w : jsstring) (args : value) (d : RejoinValidatorSet.extracted)
    (lowered : jsstring) : Prop :=
  trim (answer h AskPrivateKey) <> []
  /\ newWallet h (trim (answer h AskPrivateKey)) = inr w
  /\ trim (answer h AskArgs) <> []
  /\ RejoinValidatorSet.parseArgsData JSON_parse (trim (answer h AskArgs)) = Ok args
  /\ RejoinValidatorSet.extractDataFromArgs JSON_parse args = Ok d
  /\ rvs_preflight d = Ok lowered.

(** The same for the second revision, which does not test the pasted text
    for emptiness. *)
Definition p000_checked (JSON_parse : jsstring -> option value)
    (isAddress : jsstring -> bool) (h : host)
    (w : jsstring) (args : value) (d : Part000.extracted)
    (lowered : jsstring) : Prop :=
  trim (answer h AskPrivateKey) <> []
  /\ newWallet h (trim (answer h AskPrivateKey)) = inr w
  /\ Part000.parseArgsData JSON_parse (trim (answer h AskArgs)) = Ok args
  /\ Part000.extractDataFromArgs JSON_parse isAddress args = Ok d
  /\ p000_preflight d = Ok lowered.

(** A run that ends by reporting the error [e]: the failure line, the
    error's message and the troubleshooting hints close the trace, and
    [main] completes without raising. *)
Definition reported (e : error) (m : M unit) : Prop :=
  exists t,
    m = (t ++ [Log MsgFailed; Log (MsgErrorMessage e); Log MsgTroubleshooting],
         Normal tt).

(** Whether the confirmation block ends the run: the addresses differ and
    the trimmed answer does not lower to [y]. *)
Definition declined (h : host) (wallet lowered : jsstring) : bool :=
  negb (jsstring_eqb (toLowerCase wallet) lowered)
  && negb (jsstring_eqb (toLowerCase (trim (answer h AskProceed))) (str "y")).

(** *** The contract call

    The log lines [callAddValidator] prints before the gas estimate. *)
Definition rvs_call_pre (d : RejoinValidatorSet.extracted) : result unit :=
  rbind (template (RejoinValidatorSet.attester d)) (fun _ =>
  rbind (lengthOf (RejoinValidatorSet.merkleProof d)) (fun len =>
  template len)).

Definition p000_call_pre (d : Part000.extracted) : result unit :=
  rbind (template (Part000.attester d)) (fun _ =>
  rbind (lengthOf (Part000.merkleProof d)) (fun len =>
  rbind (template len) (fun _ =>
  Part000.objectKeys (Part000.zkPassportData d)))).

(** What the first revision's contract call does once its log lines are
    through.  With ethers 6 the estimate is requested and the call then
    raises, on the fallback when the estimate failed and on the buffer
    when it answered.  With ethers 5 no estimate is requested, and the
    submission goes out with the buffered fallback. *)
Definition rvs_callOutcome (ev : ethersVersion) (h : host) (ps : list value)
    : M receipt :=
  match ev with
  | EthersV6 =>
      (EstimateGasCall ps
       :: match estimateGas h ps with
          | inl e => [Log (MsgGasEstimationFailed e)]
          | inr _ => []
          end
       ++ [Log (MsgCallFailed TypeError)], Thrown TypeError)
  | EthersV5 =>
      match sendTransaction h ps 2400000 with
      | inl e =>
          ([Log (MsgGasEstimationFailed TypeError); AddValidatorCall ps 2400000;
            Log (MsgCallFailed e)], Thrown e)
      | inr tx =>
          match waitReceipt h tx with
          | inl e =>
              ([Log (MsgGasEstimationFailed TypeError); AddValidatorCall ps 2400000;
                WaitCall tx; Log (MsgCallFailed e)], Thrown e)
          | inr r =>
              ([Log (MsgGasEstimationFailed TypeError); AddValidatorCall ps 2400000;
                WaitCall tx], Normal r)
          end
      end
  end.

(** The gas limit of the second revision's submission. *)
Definition gasLimitOf (h : host) (ps : list value) : Z :=
  Z.quot (gasEstimateOr 2000000 (estimateGas h ps) * 120) 100.

(** The second revision's events up to and including the submission. *)
Definition callPrefix (h : host) (ps : list value) : list event :=
  EstimateGasCall ps
  :: match estimateGas h ps with
     | inl e => [Log (MsgGasEstimationFailed e)]
     | inr _ => []
     end
  ++ [AddValidatorCall ps (gasLimitOf h ps)].

(** What the second revision's contract call does once its log lines are
    through. *)
Definition callOutcome (h : host) (ps : list value) : M receipt :=
  match sendTransaction h ps (gasLimitOf h ps) with
  | inl e => (callPrefix h ps ++ [Log (MsgCallFailed e)], Thrown e)
  | inr tx =>
      match waitReceipt h tx with
      | inl e => (callPrefix h ps ++ [WaitCall tx; Log (MsgCallFailed e)], Thrown e)
      | inr r => (callPrefix h ps ++ [WaitCall tx], Normal r)
      end
  end.

(** The interactions with the RPC endpoint. *)
Definition isRpc (ev : event) : bool :=
  match ev with
  | EstimateGasCall _ | AddValidatorCall _ _ | WaitCall _ => true
  | _ => false
  end.

(** The questions put to the user. *)
Definition isAsked (ev : event) : bool :=
  match ev with
  | Asked _ => true
  | _ => false
  end.

(** *** States of the splitting loops *)

(** Peel the first stage off a chain of [rbind]s in hypothesis [H]. *)
Ltac rstep H :=
  match type of H with
  | rbind ?r _ = Ok _ =>
      let E := fresh "E" in
      destruct r eqn:E; simpl rbind in H; [|discriminate H]
  | (if ?b then _ else _) = Ok _ =>
      let E := fresh "E" in
      destruct b eqn:E; [try discriminate H|try discriminate H]
  end.

(** A state outside any string. *)
Definition rvs_outside ps cur d b : RejoinValidatorSet.scanner :=
  {| RejoinValidatorSet.parts := ps; RejoinValidatorSet.current := cur;
     RejoinValidatorSet.depth := d; RejoinValidatorSet.inString := false;
     RejoinValidatorSet.stringChar := None; RejoinValidatorSet.braceDepth := b |}.

(** A state inside a string opened by [q]. *)
Definition rvs_inside ps cur d b q : RejoinValidatorSet.scanner :=
  {| RejoinValidatorSet.parts := ps; RejoinValidatorSet.current := cur;
     RejoinValidatorSet.depth := d; RejoinValidatorSet.inString := true;
     RejoinValidatorSet.stringChar := Some q; RejoinValidatorSet.braceDepth := b |}.

(** The character before the position reached after [a]. *)
Definition prevAfter (prev : option N) (a : jsstring) : option N :=
  last (map Some a) prev.

(** The same two shapes for the second revision's loop. *)
Definition p000_outside ps cur d b k : Part000.scanner :=
  {| Part000.parts := ps; Part000.currentPart := cur; Part000.depth := d;
     Part000.braceDepth := b; Part000.bracketDepth := k;
     Part000.inString := false; Part000.stringChar := None |}.

Definition p000_inside ps cur d b k q : Part000.scanner :=
  {| Part000.parts := ps; Part000.currentPart := cur; Part000.depth := d;
     Part000.braceDepth := b; Part000.bracketDepth := k;
     Part000.inString := true; Part000.stringChar := Some q |}.

(** A state with another current part. *)
Definition p000_with_current (st : Part000.scanner) (cur : jsstring) : Part000.scanner :=
  {| Part000.parts := Part000.parts st; Part000.currentPart := cur;
     Part000.depth := Part000.depth st; Part000.braceDepth := Part000.braceDepth st;
     Part000.bracketDepth := Part000.bracketDepth st;
     Part000.inString := Part000.inString st;
     Part000.stringChar := Part000.stringChar st |}.

(** The quote a state remembers is no white space. *)
Definition p000_quoteOK (st : Part000.scanner) : Prop :=
  match Part000.stringChar st with
  | Some q => isWhiteSpace q = false
  | None => True
  end.

(** Two states that differ by white space in front of the current part. *)
Definition p000_padded (st1 st2 : Part000.scanner) : Prop :=
  exists w, forallb isWhiteSpace w = true
            /\ st1 = p000_with_current st2 (w ++ Part000.currentPart st2).

(** The parts once the loop is over: the push of a non-blank last part. *)
Definition p000_finish (st : Part000.scanner) : list jsstring :=
  match trim (Part000.currentPart st) with
  | [] => Part000.parts st
  | _ :: _ => Part000.parts st ++ [trim (Part000.currentPart st)]
  end.

(** Concrete text made of plain characters. *)
Ltac plain_run :=
  repeat (apply nested_plain;
          [reflexivity
          |let H := fresh in intros H; first [discriminate H|discriminate]
          |]);
  try apply nested_nil.

(** ** Sample data for the concrete runs *)

Module Samples.

(** JSON text written with single quotes in place of double quotes. *)
Definition dq (s : jsstring) : jsstring :=
  map (fun c => if (c =? c_squote)%N then c_dquote else c) s.

Definition attesterAddress : jsstring :=
  str "0x52908400098527886e0f7030069857d2e4169ee7".

Definition otherAddress : jsstring :=
  str "0x8617e340b3d01fa5f11f306f4090fd50e238070d".

(** An instance of [ethers.isAddress] for the concrete runs: [0x] and forty
    lower-case hexadecimal digits, the addresses that need no checksum. *)
Definition isLowerHexAddress (s : jsstring) : bool :=
  match s with
  | 48%N :: 120%N :: r =>
      (List.length r =? 40)%nat
      && forallb (fun c => ((48 <=? c) && (c <=? 57) || (97 <=? c) && (c <=? 102))%N) r
  | _ => false
  end.

Definition argsText : jsstring :=
  dq (str "args: ['0x52908400098527886e0f7030069857d2e4169ee7', [], {'vkeyHash': '0x01', 'publicInputs': ['0x02', '0x03'], 'devMode': false}, {'x': '1', 'y': '2'}, {'x0': '3', 'x1': '4', 'y0': '5', 'y1': '6'}, {'x': '7', 'y': '8'}]").

Definition arrayText : jsstring := skipn 6 argsText.

(** The six values [argsText] denotes. *)
Definition expectedParams : list value :=
  [VStr attesterAddress;
   VArr [];
   VObj [(str "vkeyHash", VStr (str "0x01"));
         (str "publicInputs", VArr [VStr (str "0x02"); VStr (str "0x03")]);
         (str "devMode", VBool false)];
   VObj [(str "x", VStr (str "1")); (str "y", VStr (str "2"))];
   VObj [(str "x0", VStr (str "3")); (str "x1", VStr (str "4"));
         (str "y0", VStr (str "5")); (str "y1", VStr (str "6"))];
   VObj [(str "x", VStr (str "7")); (str "y", VStr (str "8"))]].

Definition sampleReceipt : receipt :=
  {| blockNumber := 1234; gasUsed := 90000; transactionHash := str "0xfeed" |}.

(** A user whose key matches the attester, on a network that answers. *)
Definition hostMatching (text : jsstring) : host :=
  {| answer := fun p => match p with
                        | AskPrivateKey => str " 0xkey "
                        | AskArgs => text
                        | AskProceed => str "n"
                        end;
     newWallet := fun _ => inr attesterAddress;
     estimateGas := fun _ => inr 100001%Z;
     sendTransaction := fun _ _ => inr (str "0xfeed");
     waitReceipt := fun _ => inr sampleReceipt |}.

(** A user whose key belongs to another address and who answers [reply];
    the gas estimate fails. *)
Definition hostMismatch (text reply : jsstring) : host :=
  {| answer := fun p => match p with
                        | AskPrivateKey => str "0xkey"
                        | AskArgs => text
                        | AskProceed => reply
                        end;
     newWallet := fun _ => inr otherAddress;
     estimateGas := fun _ => inl (HostError (str "execution reverted"));
     sendTransaction := fun _ _ => inr (str "0xfeed");
     waitReceipt := fun _ => inr sampleReceipt |}.

(** The elements of [(0xabc,{a,b},'x,y')] and of [(0xabc,[1,2],'x\',y')]. *)
Definition elementsBraces : list jsstring :=
  [str "0xabc";
   c_lbrace :: str "a,b" ++ [c_rbrace];
   c_squote :: str "x,y" ++ [c_squote]].

Definition elementsBrackets : list jsstring :=
  [str "0xabc";
   c_lbracket :: str "1,2" ++ [c_rbracket];
   c_squote :: (str "x" ++ [c_backslash; c_squote] ++ str ",y") ++ [c_squote]].

(** A host whose wallet constructor rejects the key. *)
Definition hostBadKey : host :=
  {| answer := fun p => match p with
                        | AskPrivateKey => str "not-a-key"
                        | AskArgs => arrayText
                        | AskProceed => str "y"
                        end;
     newWallet := fun _ => inl (HostError (str "invalid private key"));
     estimateGas := fun _ => inr 100001%Z;
     sendTransaction := fun _ _ => inr (str "0xfeed");
     waitReceipt := fun _ => inr sampleReceipt |}.

(** A network on which the estimate and the submission both revert. *)
Definition hostReverting : host :=
  {| answer := fun p => match p with
                        | AskPrivateKey => str "0xkey"
                        | AskArgs => arrayText
                        | AskProceed => str "y"
                        end;
     newWallet := fun _ => inr attesterAddress;
     estimateGas := fun _ => inl (HostError (str "execution reverted"));
     sendTransaction := fun _ _ => inl (HostError (str "execution reverted"));
     waitReceipt := fun _ => inr sampleReceipt |}.

(** A user who types nothing but blanks for the key, and one who types a
    key and then pastes nothing. *)
Definition hostNoKey : host :=
  {| answer := fun p => match p with
                        | AskPrivateKey => str "   "
                        | _ => arrayText
                        end;
     newWallet := fun _ => inr attesterAddress;
     estimateGas := fun _ => inr 100001%Z;
     sendTransaction := fun _ _ => inr (str "0xfeed");
     waitReceipt := fun _ => inr sampleReceipt |}.

Definition hostNoArgs : host :=
  {| answer := fun p => match p with
                        | AskPrivateKey => str "0xkey"
                        | AskArgs => str "  "
                        | AskProceed => str "y"
                        end;
     newWallet := fun _ => inr attesterAddress;
     estimateGas := fun _ => inr 100001%Z;
     sendTransaction := fun _ _ => inr (str "0xfeed");
     waitReceipt := fun _ => inr sampleReceipt |}.

(** The array [arrayText] parses to, and the data extracted from it. *)
Definition sampleArgs : value := VArr expectedParams.

(** The same arguments with [null] in place of the merkle proof. *)
Definition sampleArgsNullProof : value :=
  VArr (firstn 1 expectedParams ++ VNull :: skipn 2 expectedParams).

Definition sampleExtractedRVS : RejoinValidatorSet.extracted :=
  {| RejoinValidatorSet.attester := nth 0 expectedParams VUndefined;
     RejoinValidatorSet.merkleProof := nth 1 expectedParams VUndefined;
     RejoinValidatorSet.zkPassportData := nth 2 expectedParams VUndefined;
     RejoinValidatorSet.publicKeyG1 := nth 3 expectedParams VUndefined;
     RejoinValidatorSet.publicKeyG2 := nth 4 expectedParams VUndefined;
     RejoinValidatorSet.signature := nth 5 expectedParams VUndefined |}.

Definition sampleExtractedP000 : Part000.extracted :=
  {| Part000.attester := nth 0 expectedParams VUndefined;
     Part000.merkleProof := nth 1 expectedParams VUndefined;
     Part000.zkPassportData := nth 2 expectedParams VUndefined;
     Part000.publicKeyG1 := nth 3 expectedParams VUndefined;
     Part000.publicKeyG2 := nth 4 expectedParams VUndefined;
     Part000.signature := nth 5 expectedParams VUndefined |}.

End Samples.

(* ===================================================================== *)
(** * Properties *)
(* ===================================================================== *)

Unset Implicit Arguments.

Lemma jsstring_eqb_eq a b : jsstring_eqb a b = true <-> a = b.
Proof.
  unfold jsstring_eqb. destruct (list_eq_dec N.eq_dec a b); split;
    intros; congruence.
Qed.

Lemma jsstring_eqb_refl a : jsstring_eqb a a = true.
Proof. apply jsstring_eqb_eq. reflexivity. Qed.

(** ** Traces *)

Lemma submissions_app t1 t2 :
  submissions (t1 ++ t2) = submissions t1 + submissions t2.
Proof. unfold submissions. rewrite filter_app, length_app. reflexivity. Qed.

Lemma trace_bind A B (m : M A) (f : A -> M B) :
  trace (bind m f) =
  trace m ++ match outcome m with Normal a => trace (f a) | _ => [] end.
Proof.
  destruct m as [t [a| |e]]; simpl; try (rewrite app_nil_r; reflexivity).
  destruct (f a); reflexivity.
Qed.

Lemma outcome_bind A B (m : M A) (f : A -> M B) :
  outcome (bind m f) =
  match outcome m with
  | Normal a => outcome (f a)
  | Returned => Returned
  | Thrown e => Thrown e
  end.
Proof.
  destruct m as [t [a| |e]]; simpl; try reflexivity.
  destruct (f a); reflexivity.
Qed.

Lemma M_eta A (m : M A) : m = (trace m, outcome m).
Proof. destruct m; reflexivity. Qed.

Lemma trace_tryCatch A (m : M A) (k : error -> M A) :
  trace (tryCatch m k) =
  trace m ++ match outcome m with Thrown e => trace (k e) | _ => [] end.
Proof.
  destruct m as [t [a| |e]]; simpl; try (rewrite app_nil_r; reflexivity).
  destruct (k e); reflexivity.
Qed.

Lemma outcome_tryCatch A (m : M A) (k : error -> M A) :
  outcome (tryCatch m k) =
  match outcome m with Thrown e => outcome (k e) | c => c end.
Proof.
  destruct m as [t [a| |e]]; simpl; try reflexivity.
  destruct (k e); reflexivity.
Qed.

Lemma trace_lift A (r : result A) : trace (lift r) = [].
Proof. destruct r; reflexivity. Qed.

Lemma trace_call A (r : error + A) : trace (call r) = [].
Proof. destruct r; reflexivity. Qed.

(** ** The contract call *)

(** The first revision's call as a decision tree over its log lines, the
    installed ethers and the answers of the endpoint. *)
Lemma rvs_call_eq ev h w d :
  RejoinValidatorSet.callAddValidator ev h w d =
  match rvs_call_pre d with
  | Err e => ([Log (MsgCallFailed e)], Thrown e)
  | Ok _ => rvs_callOutcome ev h (RejoinValidatorSet.callParams d)
  end.
Proof.
  unfold RejoinValidatorSet.callAddValidator, rvs_call_pre, rvs_callOutcome,
    RejoinValidatorSet.estimateGasOfAddValidator, RejoinValidatorSet.fallbackGas.
  destruct (template (RejoinValidatorSet.attester d)); [|reflexivity]. simpl.
  destruct (lengthOf (RejoinValidatorSet.merkleProof d)) as [len|]; [|reflexivity]. simpl.
  destruct (template len); [|reflexivity]. simpl.
  destruct ev; simpl.
  - change (Z.quot 240000000 100) with 2400000%Z.
    destruct (sendTransaction h (RejoinValidatorSet.callParams d) 2400000)
      as [e'|tx]; simpl; [reflexivity|].
    destruct (waitReceipt h tx); reflexivity.
  - destruct (estimateGas h (RejoinValidatorSet.callParams d)) as [e|g]; reflexivity.
Qed.

(** The second revision's call as a decision tree over its log lines and
    the three RPC answers. *)
Lemma p000_call_eq h w d :
  Part000.callAddValidator h w d =
  match p000_call_pre d with
  | Err e => ([Log (MsgCallFailed e)], Thrown e)
  | Ok _ => callOutcome h (Part000.callParams d)
  end.
Proof.
  unfold Part000.callAddValidator, p000_call_pre, callOutcome, callPrefix,
    gasLimitOf, Part000.gasLimitWithBuffer, Part000.fallbackGas.
  destruct (template (Part000.attester d)); [|reflexivity]. simpl.
  destruct (lengthOf (Part000.merkleProof d)) as [len|]; [|reflexivity]. simpl.
  destruct (template len); [|reflexivity]. simpl.
  destruct (Part000.objectKeys (Part000.zkPassportData d)); [|reflexivity]. simpl.
  destruct (estimateGas h (Part000.callParams d)) as [e|g]; simpl;
    match goal with
    | |- context [sendTransaction h ?ps ?g] =>
        destruct (sendTransaction h ps g) as [e'|tx]; simpl; try reflexivity;
        destruct (waitReceipt h tx); reflexivity
    end.
Qed.

(** A call is a failure of its log lines or the outcome on its six
    parameters. *)
Lemma call_cases_rvs ev h w d :
  (exists e, RejoinValidatorSet.callAddValidator ev h w d =
             ([Log (MsgCallFailed e)], Thrown e))
  \/ RejoinValidatorSet.callAddValidator ev h w d =
     rvs_callOutcome ev h (RejoinValidatorSet.callParams d).
Proof.
  rewrite rvs_call_eq. destruct (rvs_call_pre d) as [u|e]; eauto.
Qed.

Lemma call_cases_p000 h w d :
  (exists e, Part000.callAddValidator h w d = ([Log (MsgCallFailed e)], Thrown e))
  \/ Part000.callAddValidator h w d = callOutcome h (Part000.callParams d).
Proof.
  rewrite p000_call_eq. destruct (p000_call_pre d) as [u|e]; eauto.
Qed.


Lemma filter_submission_prefix h ps :
  filter isSubmission (callPrefix h ps) = [AddValidatorCall ps (gasLimitOf h ps)].
Proof.
  unfold callPrefix. destruct (estimateGas h ps); reflexivity.
Qed.


Lemma callOutcome_submissions h ps :
  filter isSubmission (trace (callOutcome h ps)) =
  [AddValidatorCall ps (gasLimitOf h ps)].
Proof.
  unfold callOutcome.
  destruct (sendTransaction h ps (gasLimitOf h ps)) as [e|tx].
  - unfold trace. cbn [fst]. rewrite filter_app, filter_submission_prefix. reflexivity.
  - destruct (waitReceipt h tx); unfold trace; cbn [fst];
      rewrite filter_app, filter_submission_prefix; reflexivity.
Qed.

Lemma callOutcome_estimates h ps :
  In (EstimateGasCall ps) (trace (callOutcome h ps)).
Proof.
  unfold callOutcome, callPrefix.
  destruct (sendTransaction h ps (gasLimitOf h ps)) as [e|tx];
    [|destruct (waitReceipt h tx)]; left; reflexivity.
Qed.

(** The RPC interactions of the first revision's outcome. *)
Lemma rvs_callOutcome_rpc ev h ps :
  filter isRpc (trace (rvs_callOutcome ev h ps)) =
  match ev with
  | EthersV6 => [EstimateGasCall ps]
  | EthersV5 =>
      AddValidatorCall ps 2400000
      :: match sendTransaction h ps 2400000 with
         | inr tx => [WaitCall tx]
         | inl _ => []
         end
  end.
Proof.
  unfold rvs_callOutcome. destruct ev.
  - destruct (sendTransaction h ps 2400000) as [e|tx]; [reflexivity|].
    destruct (waitReceipt h tx); reflexivity.
  - destruct (estimateGas h ps); reflexivity.
Qed.

Lemma rvs_callOutcome_submissions ev h ps :
  filter isSubmission (trace (rvs_callOutcome ev h ps)) =
  match ev with
  | EthersV6 => []
  | EthersV5 => [AddValidatorCall ps 2400000]
  end.
Proof.
  unfold rvs_callOutcome. destruct ev.
  - destruct (sendTransaction h ps 2400000) as [e|tx]; [reflexivity|].
    destruct (waitReceipt h tx); reflexivity.
  - destruct (estimateGas h ps); reflexivity.
Qed.

(** The first revision submits at most once, with ethers 5 only, and then
    with the buffered fallback. *)
Lemma rvs_call_submissions ev h w d :
  filter isSubmission (trace (RejoinValidatorSet.callAddValidator ev h w d)) = []
  \/ (ev = EthersV5
      /\ filter isSubmission (trace (RejoinValidatorSet.callAddValidator ev h w d)) =
         [AddValidatorCall (RejoinValidatorSet.callParams d) 2400000]).
Proof.
  destruct (call_cases_rvs ev h w d) as [[e ->]| ->]; [left; reflexivity|].
  rewrite rvs_callOutcome_submissions. destruct ev; auto.
Qed.

Lemma p000_call_submissions h w d :
  filter isSubmission (trace (Part000.callAddValidator h w d)) = []
  \/ filter isSubmission (trace (Part000.callAddValidator h w d)) =
     [AddValidatorCall (Part000.callParams d)
        (Z.quot (gasEstimateOr 2000000 (estimateGas h (Part000.callParams d)) * 120) 100)].
Proof.
  destruct (call_cases_p000 h w d) as [[e ->]| ->]; [left; reflexivity|].
  right. apply callOutcome_submissions.
Qed.

(** C6.  The second revision does what is asked of the gas limit: once its
    log lines are through, it asks for the estimate and hands the contract
    exactly one transaction, whatever the estimate answered, whose gas
    limit is the estimate times 120 quotient 100, the estimate being the
    answer of the read or 2,000,000 when the read raised; a failed read
    alone does not abort the call.  The first revision does not: it takes
    the estimate with the ethers 6 call and computes the limit with the
    ethers 5 [BigNumber] methods.  With ethers 6 it asks for the estimate
    and then raises a [TypeError] without submitting anything, whether the
    read answered or failed.  With ethers 5 it never asks for the estimate
    and always submits with gas limit 2,400,000. *)
Theorem callAddValidator_gas_limit :
  (forall h w d,
      p000_call_pre d = Ok tt ->
      In (EstimateGasCall (Part000.callParams d))
         (trace (Part000.callAddValidator h w d))
      /\ filter isSubmission (trace (Part000.callAddValidator h w d)) =
         [AddValidatorCall (Part000.callParams d)
            (Z.quot (gasEstimateOr 2000000
                       (estimateGas h (Part000.callParams d)) * 120) 100)]
      /\ (forall e, outcome (Part000.callAddValidator h w d) = Thrown e ->
            sendTransaction h (Part000.callParams d)
              (Z.quot (gasEstimateOr 2000000
                         (estimateGas h (Part000.callParams d)) * 120) 100) = inl e
            \/ exists tx,
                 sendTransaction h (Part000.callParams d)
                   (Z.quot (gasEstimateOr 2000000
                              (estimateGas h (Part000.callParams d)) * 120) 100) = inr tx
                 /\ waitReceipt h tx = inl e))
  /\
  (forall h w d,
      rvs_call_pre d = Ok tt ->
      In (EstimateGasCall (RejoinValidatorSet.callParams d))
         (trace (RejoinValidatorSet.callAddValidator EthersV6 h w d))
      /\ filter isSubmission
           (trace (RejoinValidatorSet.callAddValidator EthersV6 h w d)) = []
      /\ outcome (RejoinValidatorSet.callAddValidator EthersV6 h w d) =
         Thrown TypeError)
  /\
  (forall h w d,
      rvs_call_pre d = Ok tt ->
      (forall ps, ~ In (EstimateGasCall ps)
                       (trace (RejoinValidatorSet.callAddValidator EthersV5 h w d)))
      /\ filter isSubmission
           (trace (RejoinValidatorSet.callAddValidator EthersV5 h w d)) =
         [AddValidatorCall (RejoinValidatorSet.callParams d) 2400000]).
Proof.
  split; [|split].
  - intros h w d Hpre. rewrite p000_call_eq, Hpre.
    split; [apply callOutcome_estimates|].
    split; [apply callOutcome_submissions|].
    intros e. unfold callOutcome.
    change (Z.quot (gasEstimateOr 2000000
                      (estimateGas h (Part000.callParams d)) * 120) 100)
      with (gasLimitOf h (Part000.callParams d)).
    destruct (sendTransaction h (Part000.callParams d)
                (gasLimitOf h (Part000.callParams d))) as [e'|tx].
    + unfold outcome. cbn [snd]. intros H. injection H as ->. left. reflexivity.
    + destruct (waitReceipt h tx) as [e'|r] eqn:E; unfold outcome; cbn [snd];
        [|discriminate].
      intros H. injection H as ->. right. exists tx. auto.
  - intros h w d Hpre. rewrite rvs_call_eq, Hpre.
    split; [|split].
    + left. reflexivity.
    + apply (rvs_callOutcome_submissions EthersV6).
    + reflexivity.
  - intros h w d Hpre. rewrite rvs_call_eq, Hpre. split.
    + intros ps Hin.
      assert (Hf : In (EstimateGasCall ps)
                      (filter isRpc
                         (trace (rvs_callOutcome EthersV5 h
                                   (RejoinValidatorSet.callParams d))))).
      { apply filter_In. split; [exact Hin|reflexivity]. }
      rewrite rvs_callOutcome_rpc in Hf.
      destruct Hf as [Hf|Hf]; [discriminate|].
      destruct (sendTransaction h (RejoinValidatorSet.callParams d) 2400000);
        [destruct Hf|destruct Hf as [Hf|[]]; discriminate].
    + apply (rvs_callOutcome_submissions EthersV5).
Qed.

Lemma callAddValidator_gas_limit_witness :
  filter isSubmission
    (trace (Part000.callAddValidator
              (Samples.hostMatching Samples.arrayText)
              Samples.attesterAddress Samples.sampleExtractedP000)) =
    [AddValidatorCall (Part000.callParams Samples.sampleExtractedP000) 120001]
  /\
  filter isSubmission
    (trace (Part000.callAddValidator
              (Samples.hostMismatch Samples.arrayText (str "y"))
              Samples.otherAddress Samples.sampleExtractedP000)) =
    [AddValidatorCall (Part000.callParams Samples.sampleExtractedP000) 2400000]
  /\
  outcome (RejoinValidatorSet.callAddValidator EthersV6
             (Samples.hostMismatch Samples.arrayText (str "y"))
             Samples.otherAddress Samples.sampleExtractedRVS) = Thrown TypeError
  /\
  outcome (RejoinValidatorSet.callAddValidator EthersV6
             (Samples.hostMatching Samples.arrayText)
             Samples.attesterAddress Samples.sampleExtractedRVS) = Thrown TypeError
  /\
  filter isSubmission
    (trace (RejoinValidatorSet.callAddValidator EthersV5
              (Samples.hostMatching Samples.arrayText)
              Samples.attesterAddress Samples.sampleExtractedRVS)) =
    [AddValidatorCall (RejoinValidatorSet.callParams Samples.sampleExtractedRVS) 2400000].
Proof.
  split; [|split; [|split; [|split]]].
  - exact (proj1 (proj2 (proj1 callAddValidator_gas_limit
                           (Samples.hostMatching Samples.arrayText)
                           Samples.attesterAddress Samples.sampleExtractedP000
                           eq_refl))).
  - exact (proj1 (proj2 (proj1 callAddValidator_gas_limit
                           (Samples.hostMismatch Samples.arrayText (str "y"))
                           Samples.otherAddress Samples.sampleExtractedP000
                           eq_refl))).
  - exact (proj2 (proj2 (proj1 (proj2 callAddValidator_gas_limit)
                           (Samples.hostMismatch Samples.arrayText (str "y"))
                           Samples.otherAddress Samples.sampleExtractedRVS
                           eq_refl))).
  - exact (proj2 (proj2 (proj1 (proj2 callAddValidator_gas_limit)
                           (Samples.hostMatching Samples.arrayText)
                           Samples.attesterAddress Samples.sampleExtractedRVS
                           eq_refl))).
  - exact (proj2 (proj2 (proj2 callAddValidator_gas_limit)
                    (Samples.hostMatching Samples.arrayText)
                    Samples.attesterAddress Samples.sampleExtractedRVS
                    eq_refl)).
Defined.

(** ** The runs of [main], stage by stage *)

(** The first revision's [try] block as a decision tree over its stages. *)
Lemma rvs_mainBody_eq JSON_parse ev h :
  RejoinValidatorSet.mainBody JSON_parse ev h =
  let pk := trim (answer h AskPrivateKey) in
  let input := trim (answer h AskArgs) in
  if jsstring_eqb pk [] then ([Asked AskPrivateKey; Log MsgNoPrivateKey], Returned)
  else match newWallet h pk with
  | inl e => ([Asked AskPrivateKey], Thrown e)
  | inr w =>
    if jsstring_eqb input [] then (asked2 ++ [Log MsgNoArgs], Returned)
    else match RejoinValidatorSet.parseArgsData JSON_parse input with
    | Err e => (asked2, Thrown e)
    | Ok args =>
      match RejoinValidatorSet.extractDataFromArgs JSON_parse args with
      | Err e => (asked2, Thrown e)
      | Ok d =>
        match rvs_preflight d with
        | Err e => (asked2, Thrown e)
        | Ok lowered =>
          finish h w (RejoinValidatorSet.attester d) lowered
                 (RejoinValidatorSet.callAddValidator ev h w d)
        end
      end
    end
  end.
Proof.
  unfold RejoinValidatorSet.mainBody, RejoinValidatorSet.isEmpty, getUserInput,
    rvs_preflight, finish, confirmation, asked2.
  cbn zeta. simpl bind at 1.
  destruct (jsstring_eqb (trim (answer h AskPrivateKey)) []); [reflexivity|].
  destruct (newWallet h (trim (answer h AskPrivateKey))) as [e|w]; simpl.
  - reflexivity.
  - destruct (jsstring_eqb (trim (answer h AskArgs)) []); [reflexivity|].
    destruct (RejoinValidatorSet.parseArgsData JSON_parse (trim (answer h AskArgs)))
      as [args|e]; [|reflexivity]. simpl.
    destruct (RejoinValidatorSet.extractDataFromArgs JSON_parse args)
      as [d|e]; [|reflexivity]. simpl.
    destruct (template (RejoinValidatorSet.attester d)); [|reflexivity]. simpl.
    destruct (lengthOf (RejoinValidatorSet.merkleProof d)) as [len|]; [|reflexivity]. simpl.
    destruct (template len); [|reflexivity]. simpl.
    destruct (publicInputsCount (RejoinValidatorSet.zkPassportData d)) as [n|];
      [|reflexivity]. simpl.
    destruct (template n); [|reflexivity]. simpl.
    destruct (callToLowerCase (RejoinValidatorSet.attester d)) as [lowered|];
      [|reflexivity]. simpl.
    destruct (negb (jsstring_eqb (toLowerCase w) lowered)); simpl.
    + destruct (negb (jsstring_eqb (toLowerCase (trim (answer h AskProceed))) (str "y")));
        simpl; [reflexivity|].
      destruct (RejoinValidatorSet.callAddValidator ev h w d) as [t [r| |e]]; reflexivity.
    + destruct (RejoinValidatorSet.callAddValidator ev h w d) as [t [r| |e]]; reflexivity.
Qed.

(** The second revision's [try] block as a decision tree over its stages. *)
Lemma p000_mainBody_eq JSON_parse isAddress h :
  Part000.mainBody JSON_parse isAddress h =
  let pk := trim (answer h AskPrivateKey) in
  let input := trim (answer h AskArgs) in
  if jsstring_eqb pk [] then ([Asked AskPrivateKey; Log MsgNoPrivateKey], Returned)
  else match newWallet h pk with
  | inl e => ([Asked AskPrivateKey], Thrown (InvalidPrivateKey e))
  | inr w =>
    match Part000.parseArgsData JSON_parse input with
    | Err e => (asked2, Thrown e)
    | Ok args =>
      match Part000.extractDataFromArgs JSON_parse isAddress args with
      | Err e => (asked2, Thrown e)
      | Ok d =>
        match p000_preflight d with
        | Err e => (asked2, Thrown e)
        | Ok lowered =>
          finish h w (Part000.attester d) lowered
                 (Part000.callAddValidator h w d)
        end
      end
    end
  end.
Proof.
  unfold Part000.mainBody, Part000.isEmpty, getUserInput,
    p000_preflight, finish, confirmation, asked2.
  cbn zeta. simpl bind at 1.
  destruct (jsstring_eqb (trim (answer h AskPrivateKey)) []); [reflexivity|].
  destruct (newWallet h (trim (answer h AskPrivateKey))) as [e|w]; simpl.
  - reflexivity.
  - destruct (Part000.parseArgsData JSON_parse (trim (answer h AskArgs)))
      as [args|e]; [|reflexivity]. simpl.
    destruct (Part000.extractDataFromArgs JSON_parse isAddress args)
      as [d|e]; [|reflexivity]. simpl.
    destruct (template (Part000.attester d)); [|reflexivity]. simpl.
    destruct (callToLowerCase (Part000.attester d)) as [lowered|];
      [|reflexivity]. simpl.
    destruct (negb (jsstring_eqb (toLowerCase w) lowered)); simpl.
    + destruct (negb (jsstring_eqb (toLowerCase (trim (answer h AskProceed))) (str "y")));
        simpl; [reflexivity|].
      destruct (Part000.callAddValidator h w d) as [t [r| |e]]; reflexivity.
    + destruct (Part000.callAddValidator h w d) as [t [r| |e]]; reflexivity.
Qed.

(** The confirmation block never submits; it lets the run go on only when
    the addresses agree or the answer lowers to [y]. *)
Lemma confirmation_trace h w att lowered :
  filter isSubmission (trace (confirmation h w att lowered)) = [].
Proof.
  unfold confirmation, getUserInput.
  destruct (negb (jsstring_eqb (toLowerCase w) lowered)); simpl; [|reflexivity].
  destruct (negb (jsstring_eqb (toLowerCase (trim (answer h AskProceed))) (str "y")));
    reflexivity.
Qed.

Lemma confirmation_outcome h w att lowered :
  outcome (confirmation h w att lowered) =
  if negb (jsstring_eqb (toLowerCase w) lowered)
     && negb (jsstring_eqb (toLowerCase (trim (answer h AskProceed))) (str "y"))
  then Returned else Normal tt.
Proof.
  unfold confirmation, getUserInput.
  destruct (negb (jsstring_eqb (toLowerCase w) lowered)); simpl; [|reflexivity].
  destruct (negb (jsstring_eqb (toLowerCase (trim (answer h AskProceed))) (str "y")));
    reflexivity.
Qed.

Lemma confirmation_cancelled h w att lowered :
  jsstring_eqb (toLowerCase w) lowered = false ->
  jsstring_eqb (toLowerCase (trim (answer h AskProceed))) (str "y") = false ->
  confirmation h w att lowered =
  ([Log (MsgMismatchWarning w att); Asked AskProceed; Log MsgCancelled], Returned).
Proof.
  intros H1 H2. unfold confirmation, getUserInput. rewrite H1. simpl.
  rewrite H2. reflexivity.
Qed.

Lemma finish_trace h w att lowered c :
  trace (finish h w att lowered c) =
  asked2 ++ trace (confirmation h w att lowered)
  ++ (if declined h w lowered then []
      else trace c ++ match outcome c with
                      | Normal r => [Log (MsgSuccess r)]
                      | _ => []
                      end).
Proof.
  unfold finish. rewrite trace_bind. simpl. f_equal. f_equal.
  rewrite trace_bind, confirmation_outcome. unfold declined.
  f_equal.
  destruct (negb (jsstring_eqb (toLowerCase w) lowered)
            && negb (jsstring_eqb (toLowerCase (trim (answer h AskProceed))) (str "y")));
    [reflexivity|].
  rewrite trace_bind. destruct (outcome c); reflexivity.
Qed.

Lemma finish_outcome h w att lowered c :
  outcome (finish h w att lowered c) =
  if declined h w lowered then Returned
  else match outcome c with
       | Normal _ => Normal tt
       | Returned => Returned
       | Thrown e => Thrown e
       end.
Proof.
  unfold finish. rewrite outcome_bind. simpl.
  rewrite outcome_bind, confirmation_outcome. unfold declined.
  destruct (negb (jsstring_eqb (toLowerCase w) lowered)
            && negb (jsstring_eqb (toLowerCase (trim (answer h AskProceed))) (str "y")));
    [reflexivity|].
  rewrite outcome_bind. destruct (outcome c); reflexivity.
Qed.

Lemma filter_submission_asked2 : filter isSubmission asked2 = [].
Proof. reflexivity. Qed.

Lemma finish_submissions h w att lowered c :
  filter isSubmission (trace (finish h w att lowered c)) =
  if declined h w lowered then [] else filter isSubmission (trace c).
Proof.
  rewrite finish_trace, !filter_app, confirmation_trace. simpl.
  destruct (declined h w lowered); [reflexivity|].
  rewrite filter_app. destruct (outcome c); simpl; rewrite ?app_nil_r; reflexivity.
Qed.

Lemma jsstring_eqb_false a b : jsstring_eqb a b = false <-> a <> b.
Proof.
  unfold jsstring_eqb. destruct (list_eq_dec N.eq_dec a b); split;
    intros; congruence.
Qed.

Lemma rvs_main_filter JSON_parse ev h :
  filter isSubmission (trace (RejoinValidatorSet.main JSON_parse ev h)) =
  filter isSubmission (trace (RejoinValidatorSet.mainBody JSON_parse ev h)).
Proof.
  unfold RejoinValidatorSet.main. rewrite trace_tryCatch, filter_app.
  destruct (outcome (RejoinValidatorSet.mainBody JSON_parse ev h));
    simpl; rewrite app_nil_r; reflexivity.
Qed.

Lemma p000_main_filter JSON_parse isAddress h :
  filter isSubmission (trace (Part000.main JSON_parse isAddress h)) =
  filter isSubmission (trace (Part000.mainBody JSON_parse isAddress h)).
Proof.
  unfold Part000.main. rewrite trace_tryCatch, filter_app.
  destruct (outcome (Part000.mainBody JSON_parse isAddress h));
    simpl; rewrite app_nil_r; reflexivity.
Qed.

(** What the submissions of a run are, and what a run that submits has
    gone through. *)
Lemma rvs_main_submissions JSON_parse ev h :
  filter isSubmission (trace (RejoinValidatorSet.main JSON_parse ev h)) = []
  \/ exists w args d lowered,
       rvs_checked JSON_parse h w args d lowered
       /\ declined h w lowered = false
       /\ filter isSubmission (trace (RejoinValidatorSet.main JSON_parse ev h)) =
          [AddValidatorCall (RejoinValidatorSet.callParams d) 2400000]
       /\ ev = EthersV5.
Proof.
  rewrite rvs_main_filter, rvs_mainBody_eq. cbv zeta.
  destruct (jsstring_eqb (trim (answer h AskPrivateKey)) []) eqn:Epk; [left; reflexivity|].
  destruct (newWallet h (trim (answer h AskPrivateKey))) as [e|w] eqn:Ew; [left; reflexivity|].
  destruct (jsstring_eqb (trim (answer h AskArgs)) []) eqn:Ein; [left; reflexivity|].
  destruct (RejoinValidatorSet.parseArgsData JSON_parse (trim (answer h AskArgs)))
    as [args|e] eqn:Ep; [|left; reflexivity].
  destruct (RejoinValidatorSet.extractDataFromArgs JSON_parse args)
    as [d|e] eqn:Ex; [|left; reflexivity].
  destruct (rvs_preflight d) as [lowered|e] eqn:Epre; [|left; reflexivity].
  rewrite finish_submissions.
  destruct (declined h w lowered) eqn:Ed; [left; reflexivity|].
  destruct (rvs_call_submissions ev h w d) as [H|[Hev H]]; [left; exact H|].
  right. exists w, args, d, lowered.
  apply jsstring_eqb_false in Epk. apply jsstring_eqb_false in Ein.
  unfold rvs_checked. auto 10.
Qed.

Lemma p000_main_submissions JSON_parse isAddress h :
  filter isSubmission (trace (Part000.main JSON_parse isAddress h)) = []
  \/ exists w args d lowered,
       p000_checked JSON_parse isAddress h w args d lowered
       /\ declined h w lowered = false
       /\ filter isSubmission (trace (Part000.main JSON_parse isAddress h)) =
          [AddValidatorCall (Part000.callParams d)
             (Z.quot (gasEstimateOr 2000000
                        (estimateGas h (Part000.callParams d)) * 120) 100)].
Proof.
  rewrite p000_main_filter, p000_mainBody_eq. cbv zeta.
  destruct (jsstring_eqb (trim (answer h AskPrivateKey)) []) eqn:Epk; [left; reflexivity|].
  destruct (newWallet h (trim (answer h AskPrivateKey))) as [e|w] eqn:Ew; [left; reflexivity|].
  destruct (Part000.parseArgsData JSON_parse (trim (answer h AskArgs)))
    as [args|e] eqn:Ep; [|left; reflexivity].
  destruct (Part000.extractDataFromArgs JSON_parse isAddress args)
    as [d|e] eqn:Ex; [|left; reflexivity].
  destruct (p000_preflight d) as [lowered|e] eqn:Epre; [|left; reflexivity].
  rewrite finish_submissions.
  destruct (declined h w lowered) eqn:Ed; [left; reflexivity|].
  destruct (p000_call_submissions h w d) as [H|H]; [left; exact H|].
  right. exists w, args, d, lowered.
  apply jsstring_eqb_false in Epk.
  unfold p000_checked. auto 10.
Qed.

Lemma in_submission_filter ps g t :
  In (AddValidatorCall ps g) t -> In (AddValidatorCall ps g) (filter isSubmission t).
Proof. intros H. apply filter_In. split; [exact H|reflexivity]. Qed.


(** ** Submission discipline of [main] *)

(** C7.  A run of [main] hands the contract at most one transaction, and a
    run that does has the text the user pasted parsed by [parseArgsData]
    and the parsed arguments extracted by [extractDataFromArgs], both
    without error. *)
Theorem main_submits_at_most_once_after_extraction :
  (forall JSON_parse ev h,
      submissions (trace (RejoinValidatorSet.main JSON_parse ev h)) <= 1
      /\ (forall ps g,
            In (AddValidatorCall ps g) (trace (RejoinValidatorSet.main JSON_parse ev h)) ->
            exists args d,
              RejoinValidatorSet.parseArgsData JSON_parse (trim (answer h AskArgs)) = Ok args
              /\ RejoinValidatorSet.extractDataFromArgs JSON_parse args = Ok d))
  /\
  (forall JSON_parse isAddress h,
      submissions (trace (Part000.main JSON_parse isAddress h)) <= 1
      /\ (forall ps g,
            In (AddValidatorCall ps g) (trace (Part000.main JSON_parse isAddress h)) ->
            exists args d,
              Part000.parseArgsData JSON_parse (trim (answer h AskArgs)) = Ok args
              /\ Part000.extractDataFromArgs JSON_parse isAddress args = Ok d)).
Proof.
  split.
  - intros JSON_parse ev h. unfold submissions.
    destruct (rvs_main_submissions JSON_parse ev h)
      as [H|(w & args & d & lowered & Hc & _ & H & _)]; rewrite H; simpl;
      (split; [lia|]); intros ps g Hin; apply in_submission_filter in Hin;
      rewrite H in Hin.
    + contradiction.
    + exists args, d. destruct Hc as (_ & _ & _ & Hp & Hx & _). auto.
  - intros JSON_parse isAddress h. unfold submissions.
    destruct (p000_main_submissions JSON_parse isAddress h)
      as [H|(w & args & d & lowered & Hc & _ & H)]; rewrite H; simpl;
      (split; [lia|]); intros ps g Hin; apply in_submission_filter in Hin;
      rewrite H in Hin.
    + contradiction.
    + exists args, d. destruct Hc as (_ & _ & Hp & Hx & _). auto.
Qed.

Lemma main_submits_at_most_once_after_extraction_witness :
  (exists args d,
      RejoinValidatorSet.parseArgsData JSON.parse
        (trim (answer (Samples.hostMatching Samples.argsText) AskArgs)) = Ok args
      /\ RejoinValidatorSet.extractDataFromArgs JSON.parse args = Ok d)
  /\
  (exists args d,
      Part000.parseArgsData JSON.parse
        (trim (answer (Samples.hostMatching Samples.arrayText) AskArgs)) = Ok args
      /\ Part000.extractDataFromArgs JSON.parse Samples.isLowerHexAddress args = Ok d).
Proof.
  split.
  - eapply (proj2 (proj1 main_submits_at_most_once_after_extraction
                     JSON.parse EthersV5 (Samples.hostMatching Samples.argsText))).
    cbv. do 3 right. left. reflexivity.
  - eapply (proj2 (proj2 main_submits_at_most_once_after_extraction
                     JSON.parse Samples.isLowerHexAddress
                     (Samples.hostMatching Samples.arrayText))).
    cbv. do 3 right. left. reflexivity.
Defined.

(** ** Extraction *)

Lemma getIndex_ok o i v : getIndex o i = Ok v -> v = elementAt o i.
Proof. destruct o; unfold getIndex; congruence. Qed.

(** What the first revision's extraction returns, field by field, and the
    log lines it has got through. *)
Lemma rvs_extract_ok JSON_parse args d :
  RejoinValidatorSet.extractDataFromArgs JSON_parse args = Ok d ->
  RejoinValidatorSet.callParams d =
    [elementAt args 0;
     or_else (elementAt args 1) (VArr []);
     RejoinValidatorSet.parseIfString JSON_parse (elementAt args 2);
     elementAt args 3; elementAt args 4; elementAt args 5]
  /\ template (RejoinValidatorSet.attester d) = Ok tt
  /\ (exists len, lengthOf (RejoinValidatorSet.merkleProof d) = Ok len
                  /\ template len = Ok tt)
  /\ (exists n, publicInputsCount (RejoinValidatorSet.zkPassportData d) = Ok n
                /\ template n = Ok tt)
  /\ truthy (RejoinValidatorSet.zkPassportData d) = true
  /\ typeof (RejoinValidatorSet.zkPassportData d) = TObject.
Proof.
  unfold RejoinValidatorSet.extractDataFromArgs. intros H.
  rstep H. rstep H. rstep H. rstep H. rstep H. rstep H. rstep H. rstep H.
  rstep H. rstep H. rstep H. rstep H. rstep H.
  injection H as <-. unfold RejoinValidatorSet.callParams. simpl.
  repeat match goal with
         | E : getIndex _ _ = Ok _ |- _ => apply getIndex_ok in E; subst
         | u : unit |- _ => destruct u
         end.
  apply orb_false_iff in E6. destruct E6 as [Ht Hty].
  apply negb_false_iff in Ht. apply negb_false_iff in Hty.
  repeat split; eauto.
  destruct (typeof (RejoinValidatorSet.parseIfString JSON_parse (elementAt args 2)));
    simpl in Hty; congruence.
Qed.

Lemma throwWith_not_ok A v e (a : A) : Part000.throwWith v e <> Ok a.
Proof. unfold Part000.throwWith. destruct (template v); simpl; discriminate. Qed.

(** What the second revision's extraction returns, and what it has checked
    on the way. *)
Lemma p000_extract_ok JSON_parse isAddress args d :
  Part000.extractDataFromArgs JSON_parse isAddress args = Ok d ->
  Part000.callParams d =
    [elementAt args 0;
     or_else (elementAt args 1) (VArr []);
     Part000.parseIfString JSON_parse (elementAt args 2);
     elementAt args 3; elementAt args 4; elementAt args 5]
  /\ (exists l, args = VArr l /\ 6 <= List.length l)
  /\ (exists a, Part000.attester d = VStr a /\ isAddress a = true)
  /\ isArray (Part000.merkleProof d) = true
  /\ truthy (Part000.zkPassportData d) = true
  /\ typeof (Part000.zkPassportData d) = TObject
  /\ truthy (Part000.publicKeyG1 d) = true
  /\ truthy (Part000.publicKeyG2 d) = true
  /\ truthy (Part000.signature d) = true.
Proof.
  unfold Part000.extractDataFromArgs. intros H.
  destruct args as [ | |b|x|s|l|props]; try (exfalso; exact (throwWith_not_ok _ _ _ _ H)).
  destruct (List.length l <? 6)%nat eqn:Elen;
    [exfalso; exact (throwWith_not_ok _ _ _ _ H)|].
  destruct (negb (Part000.isAddressString isAddress (nth 0 l VUndefined))) eqn:Ea;
    [exfalso; exact (throwWith_not_ok _ _ _ _ H)|].
  destruct (negb (isArray (or_else (nth 1 l VUndefined) (VArr [])))) eqn:Em;
    [exfalso; exact (throwWith_not_ok _ _ _ _ H)|].
  rstep H. rstep H. rstep H. rstep H.
  injection H as <-. unfold Part000.callParams. simpl.
  apply Nat.ltb_ge in Elen.
  apply negb_false_iff in Ea, Em.
  apply orb_false_iff in E. destruct E as [Ht Hty].
  apply negb_false_iff in Ht. apply negb_false_iff in Hty.
  apply orb_false_iff in E2. destruct E2 as [E2 Hs].
  apply orb_false_iff in E2. destruct E2 as [Hg1 Hg2].
  apply negb_false_iff in Hs, Hg1, Hg2.
  repeat split; eauto.
  - unfold Part000.isAddressString in Ea.
    destruct (nth 0 l VUndefined); try discriminate. eauto.
  - destruct (typeof (Part000.parseIfString JSON_parse (nth 2 l VUndefined)));
      simpl in Hty; congruence.
Qed.

(** ** The confirmation prompt *)

Lemma lowerUnit_y c : lowerUnit c = 121%N <-> c = 121%N \/ c = 89%N.
Proof.
  unfold lowerUnit.
  destruct ((65 <=? c)%N && (c <=? 90)%N) eqn:E.
  - apply andb_true_iff in E. destruct E as [E1 E2].
    apply N.leb_le in E1, E2. lia.
  - apply andb_false_iff in E. destruct E as [E|E]; apply N.leb_gt in E; lia.
Qed.

(** The answers that lower to [y] are [y] and [Y]. *)
Lemma toLowerCase_y s :
  toLowerCase s = str "y" <-> s = str "y" \/ s = str "Y".
Proof.
  change (str "y") with [121%N]. change (str "Y") with [89%N].
  destruct s as [|c [|c' s]]; simpl.
  - split; [discriminate|intros [H|H]; discriminate].
  - split.
    + intros H. injection H as H. apply lowerUnit_y in H.
      destruct H; subst; auto.
    + intros [H|H]; injection H as ->; reflexivity.
  - split; [discriminate|intros [H|H]; discriminate].
Qed.

Lemma rvs_preflight_ok JSON_parse args d a :
  RejoinValidatorSet.extractDataFromArgs JSON_parse args = Ok d ->
  RejoinValidatorSet.attester d = VStr a ->
  rvs_preflight d = Ok (toLowerCase a).
Proof.
  intros Hx Ha.
  destruct (rvs_extract_ok _ _ _ Hx)
    as (_ & Ht & (len & Hl & Htl) & (n & Hn & Htn) & _).
  unfold rvs_preflight. rewrite Ht. simpl. rewrite Hl. simpl. rewrite Htl. simpl.
  rewrite Hn. simpl. rewrite Htn. simpl. rewrite Ha. reflexivity.
Qed.

Lemma p000_preflight_ok d a :
  Part000.attester d = VStr a ->
  p000_preflight d = Ok (toLowerCase a).
Proof. intros Ha. unfold p000_preflight. rewrite Ha. reflexivity. Qed.

Lemma declined_false_mismatch h w lowered :
  declined h w lowered = false ->
  toLowerCase w <> lowered ->
  trim (answer h AskProceed) = str "y" \/ trim (answer h AskProceed) = str "Y".
Proof.
  unfold declined. intros Hd Hne.
  apply jsstring_eqb_false in Hne. rewrite Hne in Hd. simpl in Hd.
  apply negb_false_iff, jsstring_eqb_eq in Hd.
  apply toLowerCase_y. exact Hd.
Qed.

Lemma declined_true h w lowered :
  toLowerCase w <> lowered ->
  trim (answer h AskProceed) <> str "y" ->
  trim (answer h AskProceed) <> str "Y" ->
  jsstring_eqb (toLowerCase w) lowered = false
  /\ jsstring_eqb (toLowerCase (trim (answer h AskProceed))) (str "y") = false.
Proof.
  intros Hne Hy HY. split; apply jsstring_eqb_false; [exact Hne|].
  intros H. apply toLowerCase_y in H. tauto.
Qed.

Lemma finish_cancelled h w att lowered c :
  jsstring_eqb (toLowerCase w) lowered = false ->
  jsstring_eqb (toLowerCase (trim (answer h AskProceed))) (str "y") = false ->
  finish h w att lowered c =
  (asked2 ++ [Log (MsgMismatchWarning w att); Asked AskProceed; Log MsgCancelled],
   Returned).
Proof.
  intros H1 H2. unfold finish. rewrite (confirmation_cancelled h w att lowered H1 H2).
  reflexivity.
Qed.

(** ** The parameters of the contract call *)








(** C9.  In a run whose wallet address and extracted attester address
    differ after lowering, a transaction is submitted only if the answer
    to the confirmation prompt, as [getUserInput] returns it, is [y] or
    [Y]; on any other answer the run prints the cancellation line and
    returns without a submission. *)
Theorem main_mismatch_needs_confirmation :
  (forall JSON_parse ev h w args d a,
      trim (answer h AskPrivateKey) <> [] ->
      newWallet h (trim (answer h AskPrivateKey)) = inr w ->
      trim (answer h AskArgs) <> [] ->
      RejoinValidatorSet.parseArgsData JSON_parse (trim (answer h AskArgs)) = Ok args ->
      RejoinValidatorSet.extractDataFromArgs JSON_parse args = Ok d ->
      RejoinValidatorSet.attester d = VStr a ->
      toLowerCase w <> toLowerCase a ->
      (forall ps g,
          In (AddValidatorCall ps g) (trace (RejoinValidatorSet.main JSON_parse ev h)) ->
          trim (answer h AskProceed) = str "y" \/ trim (answer h AskProceed) = str "Y")
      /\ (trim (answer h AskProceed) <> str "y" ->
          trim (answer h AskProceed) <> str "Y" ->
          RejoinValidatorSet.main JSON_parse ev h =
            (asked2 ++ [Log (MsgMismatchWarning w (VStr a)); Asked AskProceed;
                        Log MsgCancelled], Returned)
          /\ submissions (trace (RejoinValidatorSet.main JSON_parse ev h)) = 0))
  /\
  (forall JSON_parse isAddress h w args d a,
      trim (answer h AskPrivateKey) <> [] ->
      newWallet h (trim (answer h AskPrivateKey)) = inr w ->
      Part000.parseArgsData JSON_parse (trim (answer h AskArgs)) = Ok args ->
      Part000.extractDataFromArgs JSON_parse isAddress args = Ok d ->
      Part000.attester d = VStr a ->
      toLowerCase w <> toLowerCase a ->
      (forall ps g,
          In (AddValidatorCall ps g) (trace (Part000.main JSON_parse isAddress h)) ->
          trim (answer h AskProceed) = str "y" \/ trim (answer h AskProceed) = str "Y")
      /\ (trim (answer h AskProceed) <> str "y" ->
          trim (answer h AskProceed) <> str "Y" ->
          Part000.main JSON_parse isAddress h =
            (asked2 ++ [Log (MsgMismatchWarning w (VStr a)); Asked AskProceed;
                        Log MsgCancelled], Returned)
          /\ submissions (trace (Part000.main JSON_parse isAddress h)) = 0)).
Proof.
  split.
  - intros JSON_parse ev h w args d a Hpk Hw Hin Hp Hx Ha Hne.
    pose proof (rvs_preflight_ok _ _ _ _ Hx Ha) as Hpre.
    apply jsstring_eqb_false in Hpk. apply jsstring_eqb_false in Hin.
    split.
    + intros ps g Hsub. apply in_submission_filter in Hsub.
      rewrite rvs_main_filter, rvs_mainBody_eq in Hsub. cbv zeta in Hsub.
      rewrite Hpk, Hw, Hin, Hp, Hx, Hpre, finish_submissions in Hsub.
      destruct (declined h w (toLowerCase a)) eqn:Ed; [contradiction|].
      exact (declined_false_mismatch _ _ _ Ed Hne).
    + intros Hy HY. destruct (declined_true h _ _ Hne Hy HY) as [H1 H2].
      assert (Hmain : RejoinValidatorSet.main JSON_parse ev h =
                (asked2 ++ [Log (MsgMismatchWarning w (VStr a)); Asked AskProceed;
                            Log MsgCancelled], Returned)).
      { unfold RejoinValidatorSet.main. rewrite rvs_mainBody_eq. cbv zeta.
        rewrite Hpk, Hw, Hin, Hp, Hx, Hpre, Ha.
        rewrite (finish_cancelled h w (VStr a) _ _ H1 H2). reflexivity. }
      split; [exact Hmain|]. rewrite Hmain. reflexivity.
  - intros JSON_parse isAddress h w args d a Hpk Hw Hp Hx Ha Hne.
    pose proof (p000_preflight_ok d a Ha) as Hpre.
    apply jsstring_eqb_false in Hpk.
    split.
    + intros ps g Hsub. apply in_submission_filter in Hsub.
      rewrite p000_main_filter, p000_mainBody_eq in Hsub. cbv zeta in Hsub.
      rewrite Hpk, Hw, Hp, Hx, Hpre, finish_submissions in Hsub.
      destruct (declined h w (toLowerCase a)) eqn:Ed; [contradiction|].
      exact (declined_false_mismatch _ _ _ Ed Hne).
    + intros Hy HY. destruct (declined_true h _ _ Hne Hy HY) as [H1 H2].
      assert (Hmain : Part000.main JSON_parse isAddress h =
                (asked2 ++ [Log (MsgMismatchWarning w (VStr a)); Asked AskProceed;
                            Log MsgCancelled], Returned)).
      { unfold Part000.main. rewrite p000_mainBody_eq. cbv zeta.
        rewrite Hpk, Hw, Hp, Hx, Hpre, Ha.
        rewrite (finish_cancelled h w (VStr a) _ _ H1 H2). reflexivity. }
      split; [exact Hmain|]. rewrite Hmain. reflexivity.
Qed.

Lemma main_mismatch_needs_confirmation_witness :
  (RejoinValidatorSet.main JSON.parse EthersV5 (Samples.hostMismatch Samples.arrayText (str "no")) =
     (asked2 ++ [Log (MsgMismatchWarning Samples.otherAddress (VStr Samples.attesterAddress));
                 Asked AskProceed; Log MsgCancelled], Returned)
   /\ submissions
        (trace (RejoinValidatorSet.main JSON.parse EthersV5
                  (Samples.hostMismatch Samples.arrayText (str "no")))) = 0)
  /\
  (Part000.main JSON.parse Samples.isLowerHexAddress
     (Samples.hostMismatch Samples.arrayText (str "no")) =
     (asked2 ++ [Log (MsgMismatchWarning Samples.otherAddress (VStr Samples.attesterAddress));
                 Asked AskProceed; Log MsgCancelled], Returned)
   /\ submissions
        (trace (Part000.main JSON.parse Samples.isLowerHexAddress
                  (Samples.hostMismatch Samples.arrayText (str "no")))) = 0).
Proof.
  split.
  - refine (proj2 (proj1 main_mismatch_needs_confirmation JSON.parse EthersV5
                     (Samples.hostMismatch Samples.arrayText (str "no"))
                     Samples.otherAddress Samples.sampleArgs Samples.sampleExtractedRVS
                     Samples.attesterAddress _ _ _ _ _ _ _) _ _);
      try (vm_compute; reflexivity); vm_compute; discriminate.
  - refine (proj2 (proj2 main_mismatch_needs_confirmation JSON.parse
                     Samples.isLowerHexAddress
                     (Samples.hostMismatch Samples.arrayText (str "no"))
                     Samples.otherAddress Samples.sampleArgs Samples.sampleExtractedP000
                     Samples.attesterAddress _ _ _ _ _ _) _ _);
      try (vm_compute; reflexivity); vm_compute; discriminate.
Defined.

(** ** Error reporting *)

Lemma tryCatch_thrown (m : M unit) (k : error -> M unit) e :
  outcome m = Thrown e ->
  tryCatch m k = (trace m ++ trace (k e), outcome (k e)).
Proof.
  destruct m as [t c]. simpl. intros ->. destruct (k e). reflexivity.
Qed.

Lemma rvs_reported JSON_parse ev h e :
  outcome (RejoinValidatorSet.mainBody JSON_parse ev h) = Thrown e ->
  reported e (RejoinValidatorSet.main JSON_parse ev h).
Proof.
  intros H. exists (trace (RejoinValidatorSet.mainBody JSON_parse ev h)).
  unfold RejoinValidatorSet.main. rewrite (tryCatch_thrown _ _ _ H). reflexivity.
Qed.

Lemma p000_reported JSON_parse isAddress h e :
  outcome (Part000.mainBody JSON_parse isAddress h) = Thrown e ->
  reported e (Part000.main JSON_parse isAddress h).
Proof.
  intros H. exists (trace (Part000.mainBody JSON_parse isAddress h)).
  unfold Part000.main. rewrite (tryCatch_thrown _ _ _ H). reflexivity.
Qed.

Lemma rvs_main_never_rejects JSON_parse ev h e :
  outcome (RejoinValidatorSet.main JSON_parse ev h) <> Thrown e.
Proof.
  unfold RejoinValidatorSet.main. rewrite outcome_tryCatch.
  destruct (outcome (RejoinValidatorSet.mainBody JSON_parse ev h)); simpl; discriminate.
Qed.

Lemma p000_main_never_rejects JSON_parse isAddress h e :
  outcome (Part000.main JSON_parse isAddress h) <> Thrown e.
Proof.
  unfold Part000.main. rewrite outcome_tryCatch.
  destruct (outcome (Part000.mainBody JSON_parse isAddress h)); simpl; discriminate.
Qed.

Lemma rvs_run_exit JSON_parse ev h : snd (RejoinValidatorSet.run JSON_parse ev h) = 0%Z.
Proof.
  unfold RejoinValidatorSet.run.
  destruct (RejoinValidatorSet.main JSON_parse ev h) as [t [[]| |e]]; reflexivity.
Qed.

Lemma p000_run_exit JSON_parse isAddress h :
  snd (Part000.run JSON_parse isAddress h) = 0%Z.
Proof.
  unfold Part000.run.
  pose proof (p000_main_never_rejects JSON_parse isAddress h) as H.
  destruct (Part000.main JSON_parse isAddress h) as [t [[]| |e]]; try reflexivity.
  exfalso. exact (H e eq_refl).
Qed.

(** C8.  Whatever error the wallet constructor, [parseArgsData],
    [extractDataFromArgs] or [callAddValidator] raises in a run of [main]
    is caught there: the run ends with the failure line, that error's
    message and the troubleshooting hints, and [main] completes without
    raising (the second revision wraps the wallet constructor's error in
    an invalid-private-key error first).  The script's exit code is
    therefore zero in every run; the entry point of the second revision
    sets a non-zero code exactly for a rejection of [main], that of the
    first never does. *)
Theorem main_reports_every_error :
  (forall JSON_parse ev h,
      (forall e,
          trim (answer h AskPrivateKey) <> [] ->
          newWallet h (trim (answer h AskPrivateKey)) = inl e ->
          reported e (RejoinValidatorSet.main JSON_parse ev h))
      /\ (forall w e,
          trim (answer h AskPrivateKey) <> [] ->
          newWallet h (trim (answer h AskPrivateKey)) = inr w ->
          trim (answer h AskArgs) <> [] ->
          RejoinValidatorSet.parseArgsData JSON_parse (trim (answer h AskArgs)) = Err e ->
          reported e (RejoinValidatorSet.main JSON_parse ev h))
      /\ (forall w args e,
          trim (answer h AskPrivateKey) <> [] ->
          newWallet h (trim (answer h AskPrivateKey)) = inr w ->
          trim (answer h AskArgs) <> [] ->
          RejoinValidatorSet.parseArgsData JSON_parse (trim (answer h AskArgs)) = Ok args ->
          RejoinValidatorSet.extractDataFromArgs JSON_parse args = Err e ->
          reported e (RejoinValidatorSet.main JSON_parse ev h))
      /\ (forall w args d lowered e,
          rvs_checked JSON_parse h w args d lowered ->
          declined h w lowered = false ->
          outcome (RejoinValidatorSet.callAddValidator ev h w d) = Thrown e ->
          reported e (RejoinValidatorSet.main JSON_parse ev h))
      /\ (forall e, outcome (RejoinValidatorSet.main JSON_parse ev h) <> Thrown e)
      /\ snd (RejoinValidatorSet.run JSON_parse ev h) = 0%Z
      /\ (forall c, RejoinValidatorSet.entryExitCode c = 0%Z))
  /\
  (forall JSON_parse isAddress h,
      (forall e,
          trim (answer h AskPrivateKey) <> [] ->
          newWallet h (trim (answer h AskPrivateKey)) = inl e ->
          reported (InvalidPrivateKey e) (Part000.main JSON_parse isAddress h))
      /\ (forall w e,
          trim (answer h AskPrivateKey) <> [] ->
          newWallet h (trim (answer h AskPrivateKey)) = inr w ->
          Part000.parseArgsData JSON_parse (trim (answer h AskArgs)) = Err e ->
          reported e (Part000.main JSON_parse isAddress h))
      /\ (forall w args e,
          trim (answer h AskPrivateKey) <> [] ->
          newWallet h (trim (answer h AskPrivateKey)) = inr w ->
          Part000.parseArgsData JSON_parse (trim (answer h AskArgs)) = Ok args ->
          Part000.extractDataFromArgs JSON_parse isAddress args = Err e ->
          reported e (Part000.main JSON_parse isAddress h))
      /\ (forall w args d lowered e,
          p000_checked JSON_parse isAddress h w args d lowered ->
          declined h w lowered = false ->
          outcome (Part000.callAddValidator h w d) = Thrown e ->
          reported e (Part000.main JSON_parse isAddress h))
      /\ (forall e, outcome (Part000.main JSON_parse isAddress h) <> Thrown e)
      /\ snd (Part000.run JSON_parse isAddress h) = 0%Z
      /\ (forall c, Part000.entryExitCode c <> 0%Z <-> exists e, c = Thrown e)).
Proof.
  split.
  - intros JSON_parse ev h.
    split; [|split; [|split; [|split; [|split; [|split]]]]].
    + intros e Hpk Hw. apply jsstring_eqb_false in Hpk.
      apply rvs_reported. rewrite rvs_mainBody_eq. cbv zeta.
      rewrite Hpk, Hw. reflexivity.
    + intros w e Hpk Hw Hin Hp.
      apply jsstring_eqb_false in Hpk. apply jsstring_eqb_false in Hin.
      apply rvs_reported. rewrite rvs_mainBody_eq. cbv zeta.
      rewrite Hpk, Hw, Hin, Hp. reflexivity.
    + intros w args e Hpk Hw Hin Hp Hx.
      apply jsstring_eqb_false in Hpk. apply jsstring_eqb_false in Hin.
      apply rvs_reported. rewrite rvs_mainBody_eq. cbv zeta.
      rewrite Hpk, Hw, Hin, Hp, Hx. reflexivity.
    + intros w args d lowered e (Hpk & Hw & Hin & Hp & Hx & Hpre) Hd Hc.
      apply jsstring_eqb_false in Hpk. apply jsstring_eqb_false in Hin.
      apply rvs_reported. rewrite rvs_mainBody_eq. cbv zeta.
      rewrite Hpk, Hw, Hin, Hp, Hx, Hpre, finish_outcome, Hd, Hc. reflexivity.
    + apply rvs_main_never_rejects.
    + apply rvs_run_exit.
    + reflexivity.
  - intros JSON_parse isAddress h.
    split; [|split; [|split; [|split; [|split; [|split]]]]].
    + intros e Hpk Hw. apply jsstring_eqb_false in Hpk.
      apply p000_reported. rewrite p000_mainBody_eq. cbv zeta.
      rewrite Hpk, Hw. reflexivity.
    + intros w e Hpk Hw Hp. apply jsstring_eqb_false in Hpk.
      apply p000_reported. rewrite p000_mainBody_eq. cbv zeta.
      rewrite Hpk, Hw, Hp. reflexivity.
    + intros w args e Hpk Hw Hp Hx. apply jsstring_eqb_false in Hpk.
      apply p000_reported. rewrite p000_mainBody_eq. cbv zeta.
      rewrite Hpk, Hw, Hp, Hx. reflexivity.
    + intros w args d lowered e (Hpk & Hw & Hp & Hx & Hpre) Hd Hc.
      apply jsstring_eqb_false in Hpk.
      apply p000_reported. rewrite p000_mainBody_eq. cbv zeta.
      rewrite Hpk, Hw, Hp, Hx, Hpre, finish_outcome, Hd, Hc. reflexivity.
    + apply p000_main_never_rejects.
    + apply p000_run_exit.
    + intros c. split.
      * intros H. destruct c as [[]| |e]; simpl in H;
          try (exfalso; apply H; reflexivity).
        exists e. reflexivity.
      * intros [e ->]. simpl. discriminate.
Qed.

Lemma main_reports_every_error_witness :
  reported (HostError (str "invalid private key"))
    (RejoinValidatorSet.main JSON.parse EthersV5 Samples.hostBadKey)
  /\ reported (InvalidPrivateKey (HostError (str "invalid private key")))
       (Part000.main JSON.parse Samples.isLowerHexAddress Samples.hostBadKey)
  /\ reported (InvalidInputFormatReceived (firstn 150 (skipn 4 Samples.argsText)))
       (Part000.main JSON.parse Samples.isLowerHexAddress
          (Samples.hostMatching Samples.argsText)).
Proof.
  split; [|split].
  - refine (proj1 (proj1 main_reports_every_error JSON.parse EthersV5 Samples.hostBadKey) _ _ _).
    + vm_compute. discriminate.
    + reflexivity.
  - refine (proj1 (proj2 main_reports_every_error JSON.parse Samples.isLowerHexAddress
                     Samples.hostBadKey) _ _ _).
    + vm_compute. discriminate.
    + reflexivity.
  - refine (proj1 (proj2 (proj2 main_reports_every_error JSON.parse
                            Samples.isLowerHexAddress
                            (Samples.hostMatching Samples.argsText)))
              Samples.attesterAddress _ _ _ _).
    + vm_compute. discriminate.
    + reflexivity.
    + vm_compute. reflexivity.
Defined.

(** ** What [extractDataFromArgs] rejects *)

Lemma isObject_spec v :
  isObject v = true <-> truthy v = true /\ typeof v = TObject.
Proof.
  destruct v; simpl; split; try tauto; try (intros [? ?]; discriminate);
    try discriminate.
Qed.

Lemma missing_falsy v : missing v = true -> truthy v = false.
Proof. destruct v; simpl; congruence. Qed.

Lemma callParams_rvs_inv d a b c x y z :
  RejoinValidatorSet.callParams d = [a; b; c; x; y; z] ->
  RejoinValidatorSet.attester d = a /\ RejoinValidatorSet.merkleProof d = b
  /\ RejoinValidatorSet.zkPassportData d = c /\ RejoinValidatorSet.publicKeyG1 d = x
  /\ RejoinValidatorSet.publicKeyG2 d = y /\ RejoinValidatorSet.signature d = z.
Proof.
  unfold RejoinValidatorSet.callParams. intros H. injection H. auto 10.
Qed.

Lemma callParams_p000_inv d a b c x y z :
  Part000.callParams d = [a; b; c; x; y; z] ->
  Part000.attester d = a /\ Part000.merkleProof d = b
  /\ Part000.zkPassportData d = c /\ Part000.publicKeyG1 d = x
  /\ Part000.publicKeyG2 d = y /\ Part000.signature d = z.
Proof.
  unfold Part000.callParams. intros H. injection H. auto 10.
Qed.

(** The second revision returns only on six or more elements, a first
    element the address test accepts, an object in third place, and truthy
    values in the last three places. *)
Lemma p000_extract_requires JSON_parse isAddress args d :
  Part000.extractDataFromArgs JSON_parse isAddress args = Ok d ->
  exists l, args = VArr l
    /\ 6 <= List.length l
    /\ Part000.isAddressString isAddress (nth 0 l VUndefined) = true
    /\ isArray (or_else (nth 1 l VUndefined) (VArr [])) = true
    /\ isObject (Part000.parseIfString JSON_parse (nth 2 l VUndefined)) = true
    /\ truthy (nth 3 l VUndefined) = true
    /\ truthy (nth 4 l VUndefined) = true
    /\ truthy (nth 5 l VUndefined) = true.
Proof.
  intros H.
  destruct (p000_extract_ok _ _ _ _ H)
    as (Hps & (l & -> & Hlen) & (a & Ha & Haddr) & Hm & Ht & Hty & H3 & H4 & H5).
  apply callParams_p000_inv in Hps. simpl in Hps.
  destruct Hps as (E0 & E1 & E2 & E3 & E4 & E5).
  exists l. rewrite <- E0, <- E1, <- E2, <- E3, <- E4, <- E5.
  repeat split; auto.
  - rewrite Ha. exact Haddr.
  - apply isObject_spec. auto.
Qed.

Lemma rvs_extract_requires JSON_parse args d :
  RejoinValidatorSet.extractDataFromArgs JSON_parse args = Ok d ->
  isObject (RejoinValidatorSet.parseIfString JSON_parse (elementAt args 2)) = true.
Proof.
  intros H.
  destruct (rvs_extract_ok _ _ _ H) as (Hps & _ & _ & _ & Ht & Hty).
  apply callParams_rvs_inv in Hps. destruct Hps as (_ & _ & E2 & _).
  rewrite <- E2. apply isObject_spec. auto.
Qed.

(** C2, as the code has it.  The second revision raises an error whenever
    the argument array has fewer than six elements, or its first element
    is not a string the address test accepts, or its third element is not
    an object and not a string that parses to one, or one of the elements
    3, 4 and 5 is missing.  The first revision raises an error whenever the
    third element is not an object and not a string that parses to one; it
    has no other check on the arguments. *)
Theorem extractDataFromArgs_rejects :
  (forall JSON_parse isAddress l,
      (List.length l < 6
       \/ Part000.isAddressString isAddress (nth 0 l VUndefined) = false
       \/ isObject (Part000.parseIfString JSON_parse (nth 2 l VUndefined)) = false
       \/ missing (nth 3 l VUndefined) = true
       \/ missing (nth 4 l VUndefined) = true
       \/ missing (nth 5 l VUndefined) = true) ->
      exists e, Part000.extractDataFromArgs JSON_parse isAddress (VArr l) = Err e)
  /\
  (forall JSON_parse args,
      isObject (RejoinValidatorSet.parseIfString JSON_parse (elementAt args 2)) = false ->
      exists e, RejoinValidatorSet.extractDataFromArgs JSON_parse args = Err e).
Proof.
  split.
  - intros JSON_parse isAddress l Hbad.
    destruct (Part000.extractDataFromArgs JSON_parse isAddress (VArr l)) as [d|e] eqn:E;
      [|exists e; reflexivity].
    exfalso.
    destruct (p000_extract_requires _ _ _ _ E)
      as (l' & Hl & Hlen & Ha & _ & Ho & H3 & H4 & H5).
    injection Hl as <-.
    destruct Hbad as [H|[H|[H|[H|[H|H]]]]];
      try (apply missing_falsy in H); try congruence; lia.
  - intros JSON_parse args Hbad.
    destruct (RejoinValidatorSet.extractDataFromArgs JSON_parse args) as [d|e] eqn:E;
      [|exists e; reflexivity].
    exfalso. pose proof (rvs_extract_requires _ _ _ E). congruence.
Qed.

Lemma extractDataFromArgs_rejects_witness :
  (exists e,
      Part000.extractDataFromArgs JSON.parse Samples.isLowerHexAddress
        (VArr [VStr Samples.attesterAddress; VArr []; VObj []]) = Err e)
  /\
  (exists e,
      RejoinValidatorSet.extractDataFromArgs JSON.parse
        (VArr [VStr Samples.attesterAddress; VArr []; VStr (str "5");
               VObj []; VObj []; VObj []]) = Err e).
Proof.
  split.
  - apply (proj1 extractDataFromArgs_rejects JSON.parse Samples.isLowerHexAddress
             [VStr Samples.attesterAddress; VArr []; VObj []]).
    left. simpl. lia.
  - apply (proj2 extractDataFromArgs_rejects JSON.parse
             (VArr [VStr Samples.attesterAddress; VArr []; VStr (str "5");
                    VObj []; VObj []; VObj []])).
    vm_compute. reflexivity.
Defined.

(** The first revision returns on an array of three elements whose first
    element is no address: it checks neither the number of arguments, nor
    the address, nor the presence of the keys and the signature. *)
Lemma extractDataFromArgs_rejects_counterexample :
  List.length [VStr (str "nobody"); VArr []; VObj []] < 6
  /\ RejoinValidatorSet.extractDataFromArgs JSON.parse
       (VArr [VStr (str "nobody"); VArr []; VObj []]) =
     Ok {| RejoinValidatorSet.attester := VStr (str "nobody");
           RejoinValidatorSet.merkleProof := VArr [];
           RejoinValidatorSet.zkPassportData := VObj [];
           RejoinValidatorSet.publicKeyG1 := VUndefined;
           RejoinValidatorSet.publicKeyG2 := VUndefined;
           RejoinValidatorSet.signature := VUndefined |}.
Proof. split; [simpl; lia|vm_compute; reflexivity]. Qed.

(** ** The merkle proof *)

(** C10, as the code has it.  Both revisions put the empty array in place
    of a second argument that is missing or falsy.  The second revision
    returns only when the merkle proof is then an array; the first
    returns a truthy second argument as it is. *)
Theorem extractDataFromArgs_merkleProof :
  (forall JSON_parse isAddress args d,
      Part000.extractDataFromArgs JSON_parse isAddress args = Ok d ->
      isArray (Part000.merkleProof d) = true
      /\ (truthy (elementAt args 1) = false -> Part000.merkleProof d = VArr []))
  /\
  (forall JSON_parse args d,
      RejoinValidatorSet.extractDataFromArgs JSON_parse args = Ok d ->
      (truthy (elementAt args 1) = false -> RejoinValidatorSet.merkleProof d = VArr [])
      /\ (truthy (elementAt args 1) = true ->
          RejoinValidatorSet.merkleProof d = elementAt args 1)).
Proof.
  split.
  - intros JSON_parse isAddress args d H.
    destruct (p000_extract_ok _ _ _ _ H) as (Hps & _ & _ & Hm & _).
    apply callParams_p000_inv in Hps. destruct Hps as (_ & E1 & _).
    split; [exact Hm|]. intros Hf. rewrite E1. unfold or_else. rewrite Hf. reflexivity.
  - intros JSON_parse args d H.
    destruct (rvs_extract_ok _ _ _ H) as (Hps & _).
    apply callParams_rvs_inv in Hps. destruct Hps as (_ & E1 & _).
    split; intros Hf; rewrite E1; unfold or_else; rewrite Hf; reflexivity.
Qed.

Lemma extractDataFromArgs_merkleProof_witness :
  (isArray (Part000.merkleProof Samples.sampleExtractedP000) = true
   /\ Part000.merkleProof Samples.sampleExtractedP000 = VArr [])
  /\ RejoinValidatorSet.merkleProof Samples.sampleExtractedRVS = VArr []
  /\ RejoinValidatorSet.merkleProof Samples.sampleExtractedRVS =
     elementAt Samples.sampleArgs 1.
Proof.
  split; [split|split].
  - apply (proj1 (proj1 extractDataFromArgs_merkleProof JSON.parse
                    Samples.isLowerHexAddress Samples.sampleArgs
                    Samples.sampleExtractedP000 eq_refl)).
  - apply (proj2 (proj1 extractDataFromArgs_merkleProof JSON.parse
                    Samples.isLowerHexAddress Samples.sampleArgsNullProof
                    Samples.sampleExtractedP000 eq_refl)).
    reflexivity.
  - apply (proj1 (proj2 extractDataFromArgs_merkleProof JSON.parse
                    Samples.sampleArgsNullProof
                    Samples.sampleExtractedRVS eq_refl)).
    reflexivity.
  - apply (proj2 (proj2 extractDataFromArgs_merkleProof JSON.parse
                    Samples.sampleArgs
                    Samples.sampleExtractedRVS eq_refl)).
    reflexivity.
Defined.

(** The first revision returns a string as the merkle proof when the
    second argument is a non-empty string. *)
Lemma extractDataFromArgs_merkleProof_counterexample :
  exists d,
    RejoinValidatorSet.extractDataFromArgs JSON.parse
      (VArr [VStr Samples.attesterAddress; VStr (str "0xabc"); VObj [];
             VObj []; VObj []; VObj []]) = Ok d
    /\ RejoinValidatorSet.merkleProof d = VStr (str "0xabc")
    /\ isArray (RejoinValidatorSet.merkleProof d) = false.
Proof.
  eexists. split; [vm_compute; reflexivity|]. split; reflexivity.
Qed.

(** ** Trimming *)

Lemma trimStart_nonws c r : isWhiteSpace c = false -> trimStart (c :: r) = c :: r.
Proof. intros H. simpl. rewrite H. reflexivity. Qed.

Lemma trimStart_app_nonws x c y :
  isWhiteSpace c = false -> trimStart (x ++ c :: y) = trimStart x ++ c :: y.
Proof.
  intros H. induction x as [|a x IH]; simpl.
  - rewrite H. reflexivity.
  - destruct (isWhiteSpace a); [exact IH|reflexivity].
Qed.

Lemma trimStart_blank ws s :
  forallb isWhiteSpace ws = true -> trimStart (ws ++ s) = trimStart s.
Proof.
  induction ws as [|a ws IH]; simpl; [reflexivity|].
  intros H. apply andb_true_iff in H. destruct H as [Ha Hws].
  rewrite Ha. exact (IH Hws).
Qed.

Lemma trimStart_idem s : trimStart (trimStart s) = trimStart s.
Proof.
  induction s as [|a s IH]; simpl; [reflexivity|].
  destruct (isWhiteSpace a) eqn:E; [exact IH|]. simpl. rewrite E. reflexivity.
Qed.

Lemma trimEnd_cons_nonws c r :
  isWhiteSpace c = false -> trimEnd (c :: r) = c :: trimEnd r.
Proof.
  intros H. unfold trimEnd. simpl.
  rewrite (trimStart_app_nonws (rev r) c [] H), rev_app_distr. reflexivity.
Qed.

Lemma trimEnd_snoc_nonws x c :
  isWhiteSpace c = false -> trimEnd (x ++ [c]) = x ++ [c].
Proof.
  intros H. unfold trimEnd. rewrite rev_app_distr. simpl. rewrite H.
  simpl. rewrite rev_involutive. reflexivity.
Qed.

Lemma trim_cons_nonws c r :
  isWhiteSpace c = false -> trim (c :: r) = c :: trimEnd r.
Proof.
  intros H. unfold trim. rewrite (trimStart_nonws c r H).
  apply trimEnd_cons_nonws. exact H.
Qed.

(** A text between two characters that are not white space is its own
    trimming. *)
Lemma trim_enclosed a x b :
  isWhiteSpace a = false -> isWhiteSpace b = false ->
  trim (a :: x ++ [b]) = a :: x ++ [b].
Proof.
  intros Ha Hb. rewrite (trim_cons_nonws a _ Ha).
  rewrite (trimEnd_snoc_nonws x b Hb). reflexivity.
Qed.

Lemma trim_nil_inv s : s = [] -> trim s = [].
Proof. intros ->. reflexivity. Qed.

(** ** The two input formats *)

Lemma startsWith_cons c s :
  startsWith [c] s = true -> exists r, s = c :: r.
Proof.
  destruct s as [|a r]; simpl; [discriminate|].
  rewrite andb_true_r. intros H. apply N.eqb_eq in H. subst. eauto.
Qed.

Lemma rvs_forms_exclusive c :
  RejoinValidatorSet.isJsonArrayForm c = true -> RejoinValidatorSet.isTupleForm c = false.
Proof.
  unfold RejoinValidatorSet.isJsonArrayForm, RejoinValidatorSet.isTupleForm.
  intros H. apply andb_true_iff in H. destruct H as [H _].
  apply startsWith_cons in H. destruct H as [r ->]. reflexivity.
Qed.

Lemma p000_forms_exclusive c :
  Part000.isJsonArrayForm c = true -> Part000.isTupleForm c = false.
Proof.
  unfold Part000.isJsonArrayForm, Part000.isTupleForm.
  intros H. apply andb_true_iff in H. destruct H as [H _].
  apply startsWith_cons in H. destruct H as [r ->]. reflexivity.
Qed.

(** C3, as the code has it.  After prefix removal and trimming, a text
    that starts with an opening and ends with a closing square bracket is
    handed to [JSON.parse] and its result returned; when the parser
    raises, the first revision raises the parser's error and the second an
    invalid-input-format error.  A text in parenthesised tuple form gives
    an array.  Any other text raises an invalid-input-format error, except
    that the second revision raises a no-input-data error on the empty
    input. *)
Theorem parseArgsData_formats :
  (forall JSON_parse input,
      (RejoinValidatorSet.isJsonArrayForm (RejoinValidatorSet.cleanInput input) = true ->
       RejoinValidatorSet.parseArgsData JSON_parse input =
         match JSON_parse (RejoinValidatorSet.cleanInput input) with
         | Some v => Ok v
         | None => Err SyntaxError
         end)
      /\ (RejoinValidatorSet.isTupleForm (RejoinValidatorSet.cleanInput input) = true ->
          exists l, RejoinValidatorSet.parseArgsData JSON_parse input = Ok (VArr l))
      /\ (RejoinValidatorSet.isJsonArrayForm (RejoinValidatorSet.cleanInput input) = false ->
          RejoinValidatorSet.isTupleForm (RejoinValidatorSet.cleanInput input) = false ->
          RejoinValidatorSet.parseArgsData JSON_parse input = Err InvalidInputFormat))
  /\
  (forall JSON_parse input,
      (input = [] -> Part000.parseArgsData JSON_parse input = Err NoInputData)
      /\ (input <> [] ->
          Part000.isJsonArrayForm (Part000.cleanInput input) = true ->
          Part000.parseArgsData JSON_parse input =
            match JSON_parse (Part000.cleanInput input) with
            | Some v => Ok v
            | None => Err (InvalidInputFormatReceived
                             (substring 0 150 (Part000.cleanInput input)))
            end)
      /\ (input <> [] ->
          Part000.isTupleForm (Part000.cleanInput input) = true ->
          exists l, Part000.parseArgsData JSON_parse input = Ok (VArr l))
      /\ (input <> [] ->
          Part000.isJsonArrayForm (Part000.cleanInput input) = false ->
          Part000.isTupleForm (Part000.cleanInput input) = false ->
          Part000.parseArgsData JSON_parse input =
            Err (InvalidInputFormatReceived
                   (substring 0 150 (Part000.cleanInput input))))).
Proof.
  split.
  - intros JSON_parse input. unfold RejoinValidatorSet.parseArgsData. cbv zeta.
    split; [|split].
    + intros H. rewrite H. reflexivity.
    + intros H.
      destruct (RejoinValidatorSet.isJsonArrayForm (RejoinValidatorSet.cleanInput input))
        eqn:E.
      * apply rvs_forms_exclusive in E. congruence.
      * rewrite H. eauto.
    + intros H1 H2. rewrite H1, H2. reflexivity.
  - intros JSON_parse input. split; [|split; [|split]].
    + intros ->. reflexivity.
    + intros Hne H. destruct input as [|c r]; [contradiction|].
      unfold Part000.parseArgsData. cbv zeta. rewrite H.
      destruct (JSON_parse (Part000.cleanInput (c :: r))); [reflexivity|].
      rewrite (p000_forms_exclusive _ H). reflexivity.
    + intros Hne H. destruct input as [|c r]; [contradiction|].
      unfold Part000.parseArgsData. cbv zeta.
      destruct (Part000.isJsonArrayForm (Part000.cleanInput (c :: r))) eqn:E.
      * apply p000_forms_exclusive in E. congruence.
      * rewrite H. eauto.
    + intros Hne H1 H2. destruct input as [|c r]; [contradiction|].
      unfold Part000.parseArgsData. cbv zeta. rewrite H1, H2. reflexivity.
Qed.

Lemma parseArgsData_formats_witness :
  RejoinValidatorSet.parseArgsData JSON.parse (str "args: [[], {}]") =
    Ok (VArr [VArr []; VObj []])
  /\ RejoinValidatorSet.parseArgsData JSON.parse (str "0x01, 0x02") =
       Err InvalidInputFormat
  /\ Part000.parseArgsData JSON.parse (str "[[], {}]") = Ok (VArr [VArr []; VObj []])
  /\ Part000.parseArgsData JSON.parse (str "[[], {}") =
       Err (InvalidInputFormatReceived (str "[[], {}"))
  /\ Part000.parseArgsData JSON.parse (str "[[], {]") =
       Err (InvalidInputFormatReceived (str "[[], {]")).
Proof.
  split; [|split; [|split; [|split]]].
  - apply (proj1 (proj1 parseArgsData_formats JSON.parse (str "args: [[], {}]"))).
    reflexivity.
  - apply (proj2 (proj2 (proj1 parseArgsData_formats JSON.parse (str "0x01, 0x02"))));
      reflexivity.
  - apply (proj1 (proj2 (proj2 parseArgsData_formats JSON.parse (str "[[], {}]"))));
      [discriminate|reflexivity].
  - apply (proj2 (proj2 (proj2 (proj2 parseArgsData_formats JSON.parse
                                  (str "[[], {}")))));
      [discriminate|reflexivity|reflexivity].
  - apply (proj1 (proj2 (proj2 parseArgsData_formats JSON.parse (str "[[], {]"))));
      [discriminate|reflexivity].
Defined.

(** The second revision answers the empty input, which is in neither
    format, with an error that does not report an invalid input format. *)
Lemma parseArgsData_formats_counterexample :
  Part000.isJsonArrayForm (Part000.cleanInput []) = false
  /\ Part000.isTupleForm (Part000.cleanInput []) = false
  /\ Part000.parseArgsData JSON.parse [] = Err NoInputData
  /\ isInvalidFormat NoInputData = false.
Proof. repeat split. Qed.

(** ** The [args:] prefix *)

Lemma startsWith_app p s : startsWith p (p ++ s) = true.
Proof.
  induction p as [|a p IH]; simpl; [reflexivity|].
  rewrite N.eqb_refl. exact IH.
Qed.

(** The first revision removes the prefix and the white space after it:
    a prefixed text is parsed as the text that follows. *)
Lemma rvs_args_prefix_removed JSON_parse ws body :
  forallb isWhiteSpace ws = true ->
  startsWith (str "args:") body = false ->
  RejoinValidatorSet.parseArgsData JSON_parse (str "args:" ++ ws ++ body) =
  RejoinValidatorSet.parseArgsData JSON_parse body.
Proof.
  intros Hws Hbody.
  assert (Hc : RejoinValidatorSet.cleanInput (str "args:" ++ ws ++ body) =
               RejoinValidatorSet.cleanInput body).
  { unfold RejoinValidatorSet.cleanInput, RejoinValidatorSet.removePrefix.
    rewrite startsWith_app, Hbody.
    change (skipn 5 (str "args:" ++ ws ++ body)) with (ws ++ body).
    unfold trim. rewrite (trimStart_blank ws body Hws), trimStart_idem. reflexivity. }
  unfold RejoinValidatorSet.parseArgsData. rewrite Hc. reflexivity.
Qed.

(** C4 on the second revision.  A text that, once trimmed, starts with
    [args:] keeps the colon after the prefix removal, which cuts four
    characters where the prefix has five; the text is then in neither
    format and the call raises an invalid-input-format error, whatever
    follows the prefix. *)
Theorem part000_args_prefix_keeps_colon :
  forall JSON_parse input rest,
    trim input = str "args:" ++ rest ->
    Part000.cleanInput input = 58%N :: trimEnd rest
    /\ Part000.parseArgsData JSON_parse input =
       Err (InvalidInputFormatReceived (substring 0 150 (58%N :: trimEnd rest))).
Proof.
  intros JSON_parse input rest Ht.
  assert (Hc : Part000.cleanInput input = 58%N :: trimEnd rest).
  { unfold Part000.cleanInput. cbv zeta. rewrite Ht, startsWith_app.
    change (substringFrom 4 (str "args:" ++ rest)) with (58%N :: rest).
    apply trim_cons_nonws. reflexivity. }
  split; [exact Hc|].
  destruct input as [|c r]; [discriminate Ht|].
  unfold Part000.parseArgsData. cbv zeta. rewrite Hc. reflexivity.
Qed.

Lemma part000_args_prefix_keeps_colon_witness :
  (Part000.cleanInput (str "args: [[], {}]") = 58%N :: trimEnd (str " [[], {}]")
   /\ Part000.parseArgsData JSON.parse (str "args: [[], {}]") =
      Err (InvalidInputFormatReceived (str ": [[], {}]")))
  /\ Part000.parseArgsData JSON.parse (str "[[], {}]") = Ok (VArr [VArr []; VObj []])
  /\ RejoinValidatorSet.parseArgsData JSON.parse (str "args: [[], {}]") =
     Ok (VArr [VArr []; VObj []]).
Proof.
  split; [|split; reflexivity].
  apply (part000_args_prefix_keeps_colon JSON.parse (str "args: [[], {}]")
           (str " [[], {}]")).
  reflexivity.
Defined.

(** ** Splitting a tuple, first revision *)

Lemma rvs_scan_app st a b :
  RejoinValidatorSet.scan st (a ++ b) =
  RejoinValidatorSet.scan (RejoinValidatorSet.scan st a) b.
Proof. unfold RejoinValidatorSet.scan. apply fold_left_app. Qed.

Lemma rvs_scan_cons st c s :
  RejoinValidatorSet.scan st (c :: s) =
  RejoinValidatorSet.scan (RejoinValidatorSet.step st c) s.
Proof. reflexivity. Qed.

Lemma rvs_special_false c :
  rvs_special c = false ->
  (c =? c_dquote)%N = false /\ (c =? c_squote)%N = false
  /\ (c =? c_lbrace)%N = false /\ (c =? c_rbrace)%N = false
  /\ (c =? c_lparen)%N = false /\ (c =? c_rparen)%N = false.
Proof.
  unfold rvs_special, isQuote. intros H.
  repeat (apply orb_false_iff in H; destruct H as [H ?]). auto 10.
Qed.

(** Inside a string, the body and the closing quote are appended and the
    string is left. *)
Lemma rvs_scan_body q b ps cur d k :
  rvs_body q b = true ->
  RejoinValidatorSet.scan (rvs_inside ps cur d k q) (b ++ [q]) =
  rvs_outside ps (cur ++ b ++ [q]) d k.
Proof.
  unfold rvs_body. revert cur.
  induction b as [|c b IH]; intros cur H.
  - simpl. unfold RejoinValidatorSet.step, RejoinValidatorSet.isStringChar. simpl.
    rewrite N.eqb_refl. reflexivity.
  - simpl in H. apply negb_true_iff, orb_false_iff in H. destruct H as [Hc Hb].
    simpl app. rewrite rvs_scan_cons.
    assert (Hs : RejoinValidatorSet.step (rvs_inside ps cur d k q) c =
                 rvs_inside ps (cur ++ [c]) d k q).
    { unfold RejoinValidatorSet.step, RejoinValidatorSet.isStringChar. simpl.
      rewrite N.eqb_sym, Hc. reflexivity. }
    rewrite Hs, IH by (apply negb_true_iff; exact Hb).
    rewrite <- app_assoc. reflexivity.
Qed.

Lemma rvs_step_plain ps cur d k c top :
  rvs_special c = false ->
  (top = true -> c <> c_comma) ->
  (0 <= d)%Z -> (0 <= k)%Z ->
  (if top then d = 0%Z /\ k = 0%Z else (0 < d + k)%Z) ->
  RejoinValidatorSet.step (rvs_outside ps cur d k) c = rvs_outside ps (cur ++ [c]) d k.
Proof.
  intros Hsp Htop Hd Hk Hlev.
  destruct (rvs_special_false c Hsp) as (H1 & H2 & H3 & H4 & H5 & H6).
  unfold RejoinValidatorSet.step, rvs_outside. simpl.
  rewrite H1, H2, H3, H4, H5, H6. simpl.
  destruct (c =? c_comma)%N eqn:Ec; [|reflexivity].
  apply N.eqb_eq in Ec. destruct top.
  - exfalso. exact (Htop eq_refl Ec).
  - simpl. destruct (d =? 0)%Z eqn:Ed; [|reflexivity].
    destruct (k =? 0)%Z eqn:Ek; [|reflexivity].
    apply Z.eqb_eq in Ed, Ek. lia.
Qed.

Lemma rvs_step_quote ps cur d k q :
  isQuote q = true ->
  RejoinValidatorSet.step (rvs_outside ps cur d k) q = rvs_inside ps (cur ++ [q]) d k q.
Proof.
  intros H. unfold RejoinValidatorSet.step, rvs_outside, rvs_inside. simpl.
  unfold isQuote in H. rewrite H. reflexivity.
Qed.

Lemma rvs_pair_cases o c :
  rvs_pair o c = true ->
  (o = c_lparen /\ c = c_rparen) \/ (o = c_lbrace /\ c = c_rbrace).
Proof.
  unfold rvs_pair. intros H. apply orb_true_iff in H.
  destruct H as [H|H]; apply andb_true_iff in H; destruct H as [H1 H2];
    apply N.eqb_eq in H1, H2; auto.
Qed.

(** Well-nested text is appended to the current part as it is, and leaves
    the counters where they were: no comma in it ends a part. *)
Lemma rvs_scan_nested top s :
  nested rvs_special rvs_pair rvs_body top s ->
  forall ps cur d k,
    (0 <= d)%Z -> (0 <= k)%Z ->
    (if top then d = 0%Z /\ k = 0%Z else (0 < d + k)%Z) ->
    RejoinValidatorSet.scan (rvs_outside ps cur d k) s = rvs_outside ps (cur ++ s) d k.
Proof.
  induction 1 as [top|top c s Hsp Htop Hs IH|top q b s Hq Hb Hs IH
                  |top o c inner s Hp Hin IHin Hs IH];
    intros ps cur d k Hd Hk Hlev.
  - simpl. rewrite app_nil_r. reflexivity.
  - rewrite rvs_scan_cons, (rvs_step_plain ps cur d k c top Hsp Htop Hd Hk Hlev).
    rewrite (IH _ _ _ _ Hd Hk Hlev), <- app_assoc. reflexivity.
  - rewrite rvs_scan_cons, (rvs_step_quote ps cur d k q Hq).
    change (b ++ q :: s) with (b ++ [q] ++ s). rewrite app_assoc, rvs_scan_app.
    rewrite (rvs_scan_body q b ps (cur ++ [q]) d k Hb).
    rewrite (IH _ _ _ _ Hd Hk Hlev). f_equal.
    rewrite <- !app_assoc. reflexivity.
  - rewrite rvs_scan_cons.
    change (inner ++ c :: s) with (inner ++ [c] ++ s).
    rewrite app_assoc, rvs_scan_app, rvs_scan_app.
    destruct (rvs_pair_cases o c Hp) as [[-> ->]|[-> ->]].
    + change (RejoinValidatorSet.step (rvs_outside ps cur d k) c_lparen)
        with (rvs_outside ps (cur ++ [c_lparen]) (d + 1) k).
      rewrite (IHin ps (cur ++ [c_lparen]) (d + 1)%Z k) by lia.
      change (RejoinValidatorSet.scan
                (rvs_outside ps ((cur ++ [c_lparen]) ++ inner) (d + 1) k) [c_rparen])
        with (rvs_outside ps (((cur ++ [c_lparen]) ++ inner) ++ [c_rparen]) (d + 1 - 1) k).
      replace (d + 1 - 1)%Z with d by lia.
      rewrite (IH _ _ _ _ Hd Hk Hlev). f_equal.
      rewrite <- !app_assoc. reflexivity.
    + change (RejoinValidatorSet.step (rvs_outside ps cur d k) c_lbrace)
        with (rvs_outside ps (cur ++ [c_lbrace]) d (k + 1)).
      rewrite (IHin ps (cur ++ [c_lbrace]) d (k + 1)%Z) by lia.
      change (RejoinValidatorSet.scan
                (rvs_outside ps ((cur ++ [c_lbrace]) ++ inner) d (k + 1)) [c_rbrace])
        with (rvs_outside ps (((cur ++ [c_lbrace]) ++ inner) ++ [c_rbrace]) d (k + 1 - 1)).
      replace (k + 1 - 1)%Z with k by lia.
      rewrite (IH _ _ _ _ Hd Hk Hlev). f_equal.
      rewrite <- !app_assoc. reflexivity.
Qed.

Lemma rvs_step_comma ps cur :
  RejoinValidatorSet.step (rvs_outside ps cur 0 0) c_comma =
  rvs_outside (ps ++ [trim cur]) [] 0 0.
Proof. reflexivity. Qed.

(** Elements separated by commas: every separator ends a part, and the
    last element is left in the current part. *)
Lemma rvs_scan_join es :
  forall e ps cur,
    Forall rvs_element (e :: es) ->
    RejoinValidatorSet.scan (rvs_outside ps cur 0 0)
      (e ++ flat_map (fun x => c_comma :: x) es) =
    rvs_outside (ps ++ map trim (removelast ((cur ++ e) :: es)))
                (last ((cur ++ e) :: es) []) 0 0.
Proof.
  induction es as [|e2 es IH]; intros e ps cur Hall.
  - simpl. rewrite !app_nil_r.
    apply rvs_scan_nested with (top := true); [|lia|lia|split; reflexivity].
    inversion Hall; assumption.
  - inversion Hall as [|? ? He Hrest]; subst.
    simpl flat_map. rewrite rvs_scan_app.
    rewrite (rvs_scan_nested true e He ps cur 0%Z 0%Z)
      by (try lia; split; reflexivity).
    rewrite rvs_scan_cons, rvs_step_comma.
    rewrite (IH e2 _ [] Hrest). simpl app.
    f_equal. rewrite <- app_assoc. reflexivity.
Qed.

Lemma map_trim_kept cur parts_ es :
  es <> [] ->
  parts_ = map trim (removelast es) ->
  cur = last es [] ->
  match trim cur with
  | [] => parts_
  | _ :: _ => parts_ ++ [trim cur]
  end = map trim (kept es).
Proof.
  intros Hne -> ->. unfold kept, isBlank.
  destruct (trim (last es [])) eqn:E; [reflexivity|].
  rewrite <- E.
  rewrite (app_removelast_last [] Hne) at 3.
  rewrite map_app. reflexivity.
Qed.

Lemma rvs_splitParts_join es :
  Forall rvs_element es ->
  RejoinValidatorSet.splitParts (join es) = map trim (kept es).
Proof.
  intros Hall. destruct es as [|e es]; [reflexivity|].
  unfold RejoinValidatorSet.splitParts, join. cbv zeta.
  change RejoinValidatorSet.scanner0 with (rvs_outside [] [] 0 0).
  rewrite (rvs_scan_join es e [] [] Hall). simpl RejoinValidatorSet.current.
  simpl RejoinValidatorSet.parts.
  apply map_trim_kept; [discriminate|reflexivity|reflexivity].
Qed.

Lemma endsWith_snoc c x : endsWith [c] (x ++ [c]) = true.
Proof.
  unfold endsWith. rewrite rev_app_distr. simpl.
  rewrite N.eqb_refl. reflexivity.
Qed.

Lemma length_kept es :
  List.length (kept es) =
  if isBlank (last es []) then List.length es - 1 else List.length es.
Proof.
  unfold kept. destruct (isBlank (last es [])); [|reflexivity].
  induction es as [|a [|b es] IH]; simpl in *; try reflexivity.
  rewrite IH. lia.
Qed.

Lemma rvs_parse_tuple JSON_parse input es :
  Forall rvs_element es ->
  RejoinValidatorSet.cleanInput input = tuple es ->
  RejoinValidatorSet.parseArgsData JSON_parse input =
  Ok (VArr (map (RejoinValidatorSet.parsePart JSON_parse) (map trim (kept es)))).
Proof.
  intros Hall Hc. unfold RejoinValidatorSet.parseArgsData. cbv zeta. rewrite Hc.
  assert (Hj : RejoinValidatorSet.isJsonArrayForm (tuple es) = false) by reflexivity.
  assert (Ht : RejoinValidatorSet.isTupleForm (tuple es) = true).
  { unfold RejoinValidatorSet.isTupleForm, tuple.
    change (c_lparen :: join es ++ [c_rparen])
      with ((c_lparen :: join es) ++ [c_rparen]) at 2.
    rewrite endsWith_snoc. simpl. reflexivity. }
  rewrite Hj, Ht.
  assert (Hs : slice_1_m1 (tuple es) = join es).
  { unfold slice_1_m1, tuple. simpl tl. apply removelast_last. }
  rewrite Hs, (rvs_splitParts_join es Hall). reflexivity.
Qed.

(** ** Splitting a tuple, second revision *)

Lemma prevAfter_cons prev c a : prevAfter prev (c :: a) = prevAfter (Some c) a.
Proof.
  unfold prevAfter. revert prev c.
  induction a as [|n a IH]; intros prev c; [reflexivity|].
  change (last (map Some (c :: n :: a)) prev) with (last (map Some (n :: a)) prev).
  rewrite (IH prev n), (IH (Some c) n). reflexivity.
Qed.

Lemma p000_scan_app a :
  forall prev st b,
    Part000.scan prev st (a ++ b) =
    Part000.scan (prevAfter prev a) (Part000.scan prev st a) b.
Proof.
  induction a as [|c a IH]; intros prev st b; [reflexivity|].
  simpl. rewrite IH, prevAfter_cons. reflexivity.
Qed.

Lemma p000_special_false c :
  p000_special c = false ->
  (c =? c_dquote)%N = false /\ (c =? c_squote)%N = false
  /\ (c =? c_lparen)%N = false /\ (c =? c_rparen)%N = false
  /\ (c =? c_lbrace)%N = false /\ (c =? c_rbrace)%N = false
  /\ (c =? c_lbracket)%N = false /\ (c =? c_rbracket)%N = false.
Proof.
  unfold p000_special, isQuote. intros H.
  repeat (apply orb_false_iff in H; destruct H as [H ?]). auto 10.
Qed.

Lemma isQuote_not_backslash q : isQuote q = true -> (q =? c_backslash)%N = false.
Proof.
  unfold isQuote. intros H. apply orb_true_iff in H.
  destruct H as [H|H]; apply N.eqb_eq in H; subst; reflexivity.
Qed.

(** Inside a string, the body and the closing quote are appended and the
    string is left: no quote of the body closes it, the last one does. *)
Lemma p000_scan_body q b :
  forall p ps cur d r k,
    closesAfter q p b = true ->
    Part000.scan (Some p) (p000_inside ps cur d r k q) (b ++ [q]) =
    p000_outside ps (cur ++ b ++ [q]) d r k.
Proof.
  induction b as [|c b IH]; intros p ps cur d r k H.
  - simpl in H. apply negb_true_iff in H.
    simpl. unfold Part000.step, Part000.isStringChar, Part000.afterBackslash. simpl.
    rewrite N.eqb_refl, H. reflexivity.
  - simpl in H. apply andb_true_iff in H. destruct H as [Hc Hb].
    simpl app. simpl Part000.scan.
    assert (Hs : Part000.step (Some p) (p000_inside ps cur d r k q) c =
                 p000_inside ps (cur ++ [c]) d r k q).
    { unfold Part000.step, Part000.isStringChar, Part000.afterBackslash. simpl.
      destruct (c =? q)%N; [|reflexivity].
      simpl in Hc. rewrite Hc. reflexivity. }
    rewrite Hs, (IH c ps (cur ++ [c]) d r k Hb).
    rewrite <- app_assoc. reflexivity.
Qed.

Lemma p000_step_plain prev ps cur d r k c top :
  p000_special c = false ->
  (top = true -> c <> c_comma) ->
  (0 <= d)%Z -> (0 <= r)%Z -> (0 <= k)%Z ->
  (if top then d = 0%Z /\ r = 0%Z /\ k = 0%Z else (0 < d + r + k)%Z) ->
  Part000.step prev (p000_outside ps cur d r k) c = p000_outside ps (cur ++ [c]) d r k.
Proof.
  intros Hsp Htop Hd Hr Hk Hlev.
  destruct (p000_special_false c Hsp) as (H1 & H2 & H3 & H4 & H5 & H6 & H7 & H8).
  unfold Part000.step, p000_outside. simpl.
  rewrite H1, H2, H3, H4, H5, H6, H7, H8. simpl.
  destruct (c =? c_comma)%N eqn:Ec; [|reflexivity].
  apply N.eqb_eq in Ec. destruct top.
  - exfalso. exact (Htop eq_refl Ec).
  - simpl. destruct (d =? 0)%Z eqn:Ed; [|reflexivity].
    destruct (r =? 0)%Z eqn:Er; [|reflexivity].
    destruct (k =? 0)%Z eqn:Ek; [|reflexivity].
    apply Z.eqb_eq in Ed, Er, Ek. lia.
Qed.

Lemma p000_step_quote prev ps cur d r k q :
  isQuote q = true ->
  Part000.step prev (p000_outside ps cur d r k) q = p000_inside ps (cur ++ [q]) d r k q.
Proof.
  intros H. unfold Part000.step, p000_outside, p000_inside. simpl.
  unfold isQuote in H. rewrite H. reflexivity.
Qed.

Lemma p000_pair_cases o c :
  p000_pair o c = true ->
  (o = c_lparen /\ c = c_rparen) \/ (o = c_lbrace /\ c = c_rbrace)
  \/ (o = c_lbracket /\ c = c_rbracket).
Proof.
  unfold p000_pair. intros H. apply orb_true_iff in H.
  destruct H as [H|H]; [apply orb_true_iff in H; destruct H as [H|H]|];
    apply andb_true_iff in H; destruct H as [H1 H2];
    apply N.eqb_eq in H1, H2; auto.
Qed.

(** Well-nested text is appended to the current part as it is, and leaves
    the counters where they were: no comma in it ends a part. *)
Lemma p000_scan_nested top s :
  nested p000_special p000_pair p000_body top s ->
  forall prev ps cur d r k,
    (0 <= d)%Z -> (0 <= r)%Z -> (0 <= k)%Z ->
    (if top then d = 0%Z /\ r = 0%Z /\ k = 0%Z else (0 < d + r + k)%Z) ->
    Part000.scan prev (p000_outside ps cur d r k) s = p000_outside ps (cur ++ s) d r k.
Proof.
  induction 1 as [top|top c s Hsp Htop Hs IH|top q b s Hq Hb Hs IH
                  |top o c inner s Hp Hin IHin Hs IH];
    intros prev ps cur d r k Hd Hr Hk Hlev.
  - simpl. rewrite app_nil_r. reflexivity.
  - simpl Part000.scan.
    rewrite (p000_step_plain prev ps cur d r k c top Hsp Htop Hd Hr Hk Hlev).
    rewrite (IH _ _ _ _ _ _ Hd Hr Hk Hlev), <- app_assoc. reflexivity.
  - simpl Part000.scan. rewrite (p000_step_quote prev ps cur d r k q Hq).
    change (b ++ q :: s) with (b ++ [q] ++ s). rewrite app_assoc, p000_scan_app.
    rewrite (p000_scan_body q b q ps (cur ++ [q]) d r k Hb).
    rewrite (IH _ _ _ _ _ _ Hd Hr Hk Hlev). f_equal.
    rewrite <- !app_assoc. reflexivity.
  - simpl Part000.scan.
    change (inner ++ c :: s) with (inner ++ [c] ++ s).
    rewrite app_assoc, p000_scan_app, p000_scan_app.
    destruct (p000_pair_cases o c Hp) as [[-> ->]|[[-> ->]|[-> ->]]].
    + change (Part000.step prev (p000_outside ps cur d r k) c_lparen)
        with (p000_outside ps (cur ++ [c_lparen]) (d + 1) r k).
      rewrite (IHin _ ps (cur ++ [c_lparen]) (d + 1)%Z r k) by lia.
      change (Part000.scan (prevAfter (Some c_lparen) inner)
                (p000_outside ps ((cur ++ [c_lparen]) ++ inner) (d + 1) r k) [c_rparen])
        with (p000_outside ps (((cur ++ [c_lparen]) ++ inner) ++ [c_rparen]) (d + 1 - 1) r k).
      replace (d + 1 - 1)%Z with d by lia.
      rewrite (IH _ _ _ _ _ _ Hd Hr Hk Hlev). f_equal.
      rewrite <- !app_assoc. reflexivity.
    + change (Part000.step prev (p000_outside ps cur d r k) c_lbrace)
        with (p000_outside ps (cur ++ [c_lbrace]) d (r + 1) k).
      rewrite (IHin _ ps (cur ++ [c_lbrace]) d (r + 1)%Z k) by lia.
      change (Part000.scan (prevAfter (Some c_lbrace) inner)
                (p000_outside ps ((cur ++ [c_lbrace]) ++ inner) d (r + 1) k) [c_rbrace])
        with (p000_outside ps (((cur ++ [c_lbrace]) ++ inner) ++ [c_rbrace]) d (r + 1 - 1) k).
      replace (r + 1 - 1)%Z with r by lia.
      rewrite (IH _ _ _ _ _ _ Hd Hr Hk Hlev). f_equal.
      rewrite <- !app_assoc. reflexivity.
    + change (Part000.step prev (p000_outside ps cur d r k) c_lbracket)
        with (p000_outside ps (cur ++ [c_lbracket]) d r (k + 1)).
      rewrite (IHin _ ps (cur ++ [c_lbracket]) d r (k + 1)%Z) by lia.
      change (Part000.scan (prevAfter (Some c_lbracket) inner)
                (p000_outside ps ((cur ++ [c_lbracket]) ++ inner) d r (k + 1)) [c_rbracket])
        with (p000_outside ps (((cur ++ [c_lbracket]) ++ inner) ++ [c_rbracket]) d r (k + 1 - 1)).
      replace (k + 1 - 1)%Z with k by lia.
      rewrite (IH _ _ _ _ _ _ Hd Hr Hk Hlev). f_equal.
      rewrite <- !app_assoc. reflexivity.
Qed.

Lemma p000_step_comma prev ps cur :
  Part000.step prev (p000_outside ps cur 0 0 0) c_comma =
  p000_outside (ps ++ [trim cur]) [] 0 0 0.
Proof. reflexivity. Qed.

Lemma p000_scan_join es :
  forall e prev ps cur,
    Forall p000_element (e :: es) ->
    Part000.scan prev (p000_outside ps cur 0 0 0)
      (e ++ flat_map (fun x => c_comma :: x) es) =
    p000_outside (ps ++ map trim (removelast ((cur ++ e) :: es)))
                 (last ((cur ++ e) :: es) []) 0 0 0.
Proof.
  induction es as [|e2 es IH]; intros e prev ps cur Hall.
  - simpl. rewrite !app_nil_r.
    apply p000_scan_nested with (top := true); [|lia|lia|lia|repeat split].
    inversion Hall; assumption.
  - inversion Hall as [|? ? He Hrest]; subst.
    simpl flat_map. rewrite p000_scan_app.
    rewrite (p000_scan_nested true e He prev ps cur 0%Z 0%Z 0%Z)
      by (try lia; repeat split).
    simpl Part000.scan. rewrite p000_step_comma.
    rewrite (IH e2 _ _ [] Hrest). simpl app.
    f_equal. rewrite <- app_assoc. reflexivity.
Qed.

Lemma p000_splitParts_join es :
  Forall p000_element es ->
  Part000.splitParts (join es) = map trim (kept es).
Proof.
  intros Hall. destruct es as [|e es]; [reflexivity|].
  unfold Part000.splitParts, join. cbv zeta.
  change Part000.scanner0 with (p000_outside [] [] 0 0 0).
  rewrite (p000_scan_join es e None [] [] Hall). simpl Part000.currentPart.
  simpl Part000.parts.
  apply map_trim_kept; [discriminate|reflexivity|reflexivity].
Qed.

(** *** White space around the inner text *)

Lemma trimStart_all_blank w : forallb isWhiteSpace w = true -> trimStart w = [].
Proof.
  intros H. rewrite <- (app_nil_r w). rewrite (trimStart_blank w [] H). reflexivity.
Qed.

Lemma forallb_rev (f : N -> bool) l : forallb f (rev l) = forallb f l.
Proof.
  induction l as [|a l IH]; [reflexivity|].
  simpl. rewrite forallb_app, IH. simpl. rewrite andb_true_r. apply andb_comm.
Qed.

Lemma trimEnd_blank_suffix x w :
  forallb isWhiteSpace w = true -> trimEnd (x ++ w) = trimEnd x.
Proof.
  intros H. unfold trimEnd. rewrite rev_app_distr.
  rewrite trimStart_blank; [reflexivity|]. rewrite forallb_rev. exact H.
Qed.

Lemma trimStart_decompose s :
  exists w, forallb isWhiteSpace w = true /\ s = w ++ trimStart s.
Proof.
  induction s as [|a s (w & Hw & Hs)]; [exists []; split; reflexivity|].
  simpl. destruct (isWhiteSpace a) eqn:E.
  - exists (a :: w). simpl. rewrite E, Hw. split; [reflexivity|]. f_equal. exact Hs.
  - exists []. split; reflexivity.
Qed.

Lemma trimEnd_decompose s :
  exists w, forallb isWhiteSpace w = true /\ s = trimEnd s ++ w.
Proof.
  destruct (trimStart_decompose (rev s)) as (w & Hw & Hs).
  exists (rev w). rewrite forallb_rev. split; [exact Hw|].
  unfold trimEnd. rewrite <- rev_app_distr, <- Hs, rev_involutive. reflexivity.
Qed.

Lemma trim_decompose s :
  exists w1 w2,
    forallb isWhiteSpace w1 = true /\ forallb isWhiteSpace w2 = true
    /\ s = w1 ++ trim s ++ w2.
Proof.
  destruct (trimStart_decompose s) as (w1 & H1 & Hs).
  destruct (trimEnd_decompose (trimStart s)) as (w2 & H2 & Ht).
  exists w1, w2. unfold trim. rewrite <- Ht. auto.
Qed.

Lemma trim_blank_prefix w x : forallb isWhiteSpace w = true -> trim (w ++ x) = trim x.
Proof. intros H. unfold trim. rewrite (trimStart_blank w x H). reflexivity. Qed.

Lemma trimStart_app_blank x w :
  forallb isWhiteSpace w = true ->
  trimStart (x ++ w) = if forallb isWhiteSpace x then [] else trimStart x ++ w.
Proof.
  intros H. induction x as [|a x IH]; simpl.
  - apply trimStart_all_blank. exact H.
  - destruct (isWhiteSpace a); simpl; [exact IH|reflexivity].
Qed.

Lemma trim_blank_suffix x w : forallb isWhiteSpace w = true -> trim (x ++ w) = trim x.
Proof.
  intros H. unfold trim. rewrite (trimStart_app_blank x w H).
  destruct (forallb isWhiteSpace x) eqn:E.
  - rewrite (trimStart_all_blank x E). reflexivity.
  - apply trimEnd_blank_suffix. exact H.
Qed.

Lemma blank_not_special c :
  isWhiteSpace c = true ->
  p000_special c = false /\ (c =? c_comma)%N = false.
Proof.
  intros H. unfold p000_special, isQuote.
  assert (K : forall k, isWhiteSpace k = false -> (c =? k)%N = false).
  { intros k Hk. destruct (c =? k)%N eqn:E; [|reflexivity].
    apply N.eqb_eq in E. subst. congruence. }
  rewrite !K by reflexivity. split; reflexivity.
Qed.

Lemma p000_step_blank prev st c :
  isWhiteSpace c = true -> p000_quoteOK st ->
  Part000.step prev st c = p000_with_current st (Part000.currentPart st ++ [c]).
Proof.
  intros Hc Hq. destruct (blank_not_special c Hc) as [Hsp Hcomma].
  destruct (p000_special_false c Hsp) as (H1 & H2 & H3 & H4 & H5 & H6 & H7 & H8).
  destruct st as [ps cur d r k ins q].
  unfold Part000.step, Part000.isStringChar, p000_with_current, p000_quoteOK in *.
  simpl in *. destruct ins.
  - destruct q as [q|]; [|reflexivity].
    destruct (c =? q)%N eqn:E; [|reflexivity].
    apply N.eqb_eq in E. subst. congruence.
  - rewrite H1, H2, H3, H4, H5, H6, H7, H8, Hcomma. reflexivity.
Qed.

Lemma p000_quoteOK_step prev st c :
  p000_quoteOK st -> p000_quoteOK (Part000.step prev st c).
Proof.
  destruct st as [ps cur d r k ins q].
  unfold Part000.step, Part000.isStringChar, p000_quoteOK,
    Part000.setString, Part000.setCounters. simpl. intros Hq.
  destruct ins.
  - destruct q as [q|]; simpl; [|exact I].
    destruct (c =? q)%N; simpl; [|exact Hq].
    destruct (Part000.afterBackslash prev); simpl; [exact Hq|exact I].
  - destruct ((c =? c_dquote) || (c =? c_squote))%N eqn:E; simpl.
    + apply orb_true_iff in E. destruct E as [E|E]; apply N.eqb_eq in E; subst; reflexivity.
    + repeat match goal with
             | |- context [if ?b then _ else _] => destruct b; simpl
             end; exact Hq.
Qed.

Lemma p000_quoteOK_scan s :
  forall prev st, p000_quoteOK st -> p000_quoteOK (Part000.scan prev st s).
Proof.
  induction s as [|c s IH]; intros prev st H; [exact H|].
  simpl. apply IH. apply p000_quoteOK_step. exact H.
Qed.

(** White space is appended to the current part in any state. *)
Lemma p000_scan_blank w :
  forall prev st,
    forallb isWhiteSpace w = true -> p000_quoteOK st ->
    Part000.scan prev st w = p000_with_current st (Part000.currentPart st ++ w).
Proof.
  induction w as [|c w IH]; intros prev st Hw Hq.
  - simpl. rewrite app_nil_r. destruct st; reflexivity.
  - simpl in Hw. apply andb_true_iff in Hw. destruct Hw as [Hc Hw].
    simpl. rewrite (p000_step_blank prev st c Hc Hq).
    rewrite IH; [|exact Hw|exact Hq].
    unfold p000_with_current. simpl. rewrite <- app_assoc. reflexivity.
Qed.

Lemma p000_padded_step prev st1 st2 c :
  p000_padded st1 st2 ->
  p000_padded (Part000.step prev st1 c) (Part000.step prev st2 c).
Proof.
  intros (w & Hw & ->). destruct st2 as [ps cur d r k ins q].
  unfold p000_padded, Part000.step, Part000.isStringChar, p000_with_current,
    Part000.setString, Part000.setCounters. simpl.
  repeat match goal with
         | |- context [if ?b then _ else _] => destruct b; simpl
         end;
    try (exists w; split; [exact Hw|rewrite app_assoc; reflexivity]).
  exists []. split; [reflexivity|].
  rewrite (trim_blank_prefix w cur Hw). reflexivity.
Qed.

Lemma p000_padded_scan s :
  forall prev st1 st2,
    p000_padded st1 st2 ->
    p000_padded (Part000.scan prev st1 s) (Part000.scan prev st2 s).
Proof.
  induction s as [|c s IH]; intros prev st1 st2 H; [exact H|].
  simpl. apply IH. apply p000_padded_step. exact H.
Qed.

Lemma p000_scan_cons prev st c s :
  Part000.scan prev st (c :: s) = Part000.scan (Some c) (Part000.step prev st c) s.
Proof. reflexivity. Qed.

Lemma p000_step_prev_outside p1 p2 st c :
  Part000.inString st = false -> Part000.step p1 st c = Part000.step p2 st c.
Proof. intros H. unfold Part000.step. rewrite H. reflexivity. Qed.

Lemma p000_padded_finish st1 st2 :
  p000_padded st1 st2 -> p000_finish st1 = p000_finish st2.
Proof.
  intros (w & Hw & ->). unfold p000_finish, p000_with_current. simpl.
  rewrite (trim_blank_prefix w _ Hw). reflexivity.
Qed.

Lemma p000_splitParts_blank_prefix w s :
  forallb isWhiteSpace w = true ->
  Part000.splitParts (w ++ s) = Part000.splitParts s.
Proof.
  intros Hw.
  change (Part000.splitParts (w ++ s))
    with (p000_finish (Part000.scan None Part000.scanner0 (w ++ s))).
  change (Part000.splitParts s)
    with (p000_finish (Part000.scan None Part000.scanner0 s)).
  apply p000_padded_finish.
  rewrite p000_scan_app, (p000_scan_blank w None Part000.scanner0 Hw I).
  assert (Hp : p000_padded
                 (p000_with_current Part000.scanner0
                    (Part000.currentPart Part000.scanner0 ++ w))
                 Part000.scanner0).
  { exists w. split; [exact Hw|]. simpl. rewrite app_nil_r. reflexivity. }
  destruct s as [|c s]; [exact Hp|].
  rewrite !p000_scan_cons.
  rewrite (p000_step_prev_outside (prevAfter None w) None _ c) by reflexivity.
  apply p000_padded_scan, p000_padded_step. exact Hp.
Qed.

Lemma p000_splitParts_blank_suffix s w :
  forallb isWhiteSpace w = true ->
  Part000.splitParts (s ++ w) = Part000.splitParts s.
Proof.
  intros Hw.
  change (Part000.splitParts (s ++ w))
    with (p000_finish (Part000.scan None Part000.scanner0 (s ++ w))).
  change (Part000.splitParts s)
    with (p000_finish (Part000.scan None Part000.scanner0 s)).
  rewrite p000_scan_app.
  rewrite (p000_scan_blank w _ _ Hw (p000_quoteOK_scan s None Part000.scanner0 I)).
  unfold p000_finish, p000_with_current. simpl.
  rewrite (trim_blank_suffix _ w Hw). reflexivity.
Qed.

(** Trimming the inner text first does not change the parts. *)
Lemma p000_splitParts_trim s :
  Part000.splitParts (trim s) = Part000.splitParts s.
Proof.
  destruct (trim_decompose s) as (w1 & w2 & H1 & H2 & Hs).
  rewrite Hs at 2.
  rewrite (p000_splitParts_blank_prefix w1 _ H1).
  rewrite (p000_splitParts_blank_suffix _ w2 H2). reflexivity.
Qed.

Lemma substring_tuple es :
  substring 1 (List.length (tuple es) - 1) (tuple es) = join es.
Proof.
  unfold substring, tuple. simpl List.length. rewrite length_app. simpl List.length.
  replace (S (List.length (join es) + 1) - 1) with (S (List.length (join es))) by lia.
  rewrite Nat.max_r, Nat.min_l by lia. simpl skipn.
  replace (S (List.length (join es)) - 1) with (List.length (join es) + 0) by lia.
  rewrite firstn_app_2. simpl. apply app_nil_r.
Qed.

Lemma p000_parse_tuple JSON_parse input es :
  Forall p000_element es ->
  Part000.cleanInput input = tuple es ->
  Part000.parseArgsData JSON_parse input =
  Ok (VArr (map (Part000.parsePart JSON_parse) (map trim (kept es)))).
Proof.
  intros Hall Hc. destruct input as [|c0 r0]; [discriminate Hc|].
  unfold Part000.parseArgsData. cbv zeta. rewrite Hc.
  assert (Hj : Part000.isJsonArrayForm (tuple es) = false) by reflexivity.
  assert (Ht : Part000.isTupleForm (tuple es) = true).
  { unfold Part000.isTupleForm, tuple.
    change (c_lparen :: join es ++ [c_rparen])
      with ((c_lparen :: join es) ++ [c_rparen]) at 2.
    rewrite endsWith_snoc. simpl. reflexivity. }
  rewrite Hj, Ht, substring_tuple, p000_splitParts_trim.
  rewrite (p000_splitParts_join es Hall). reflexivity.
Qed.

Lemma trim_idem x : trim (trim x) = trim x.
Proof.
  destruct (trim_decompose x) as (w1 & w2 & H1 & H2 & Hs).
  symmetry. transitivity (trim (w1 ++ trim x ++ w2)); [f_equal; exact Hs|].
  rewrite (trim_blank_prefix w1 _ H1), (trim_blank_suffix _ w2 H2). reflexivity.
Qed.

Lemma rvs_parsePart_trim JSON_parse x :
  RejoinValidatorSet.parsePart JSON_parse (trim x) =
  RejoinValidatorSet.parsePart JSON_parse x.
Proof. unfold RejoinValidatorSet.parsePart. rewrite trim_idem. reflexivity. Qed.

Lemma p000_parsePart_trim JSON_parse x :
  Part000.parsePart JSON_parse (trim x) = Part000.parsePart JSON_parse x.
Proof. unfold Part000.parsePart. rewrite trim_idem. reflexivity. Qed.

(** ** The elements of a tuple *)

(** C1, as the code has it.  When the text left after prefix removal and
    trimming is the rendering of a tuple of well-nested elements, the
    array [parseArgsData] returns holds the elements in order, each
    trimmed and converted, except that a last element that is empty or
    white space is left out: N elements give N values when the last one is
    not blank and N - 1 when it is.  No comma inside a closed quoted
    string, inside parentheses or inside curly braces ends an element; in
    the second revision the same holds inside square brackets, and a
    quote that follows a backslash does not close a string. *)
Theorem parseArgsData_tuple_elements :
  (forall JSON_parse input es,
      Forall rvs_element es ->
      RejoinValidatorSet.cleanInput input = tuple es ->
      exists l,
        RejoinValidatorSet.parseArgsData JSON_parse input = Ok (VArr l)
        /\ l = map (RejoinValidatorSet.parsePart JSON_parse) (kept es)
        /\ List.length l =
           if isBlank (last es []) then List.length es - 1 else List.length es)
  /\
  (forall JSON_parse input es,
      Forall p000_element es ->
      Part000.cleanInput input = tuple es ->
      exists l,
        Part000.parseArgsData JSON_parse input = Ok (VArr l)
        /\ l = map (Part000.parsePart JSON_parse) (kept es)
        /\ List.length l =
           if isBlank (last es []) then List.length es - 1 else List.length es).
Proof.
  split; intros JSON_parse input es Hall Hc.
  - exists (map (RejoinValidatorSet.parsePart JSON_parse) (kept es)).
    split; [|split].
    + rewrite (rvs_parse_tuple JSON_parse input es Hall Hc), map_map.
      do 2 f_equal. apply map_ext. intros x. apply rvs_parsePart_trim.
    + reflexivity.
    + rewrite length_map. apply length_kept.
  - exists (map (Part000.parsePart JSON_parse) (kept es)).
    split; [|split].
    + rewrite (p000_parse_tuple JSON_parse input es Hall Hc), map_map.
      do 2 f_equal. apply map_ext. intros x. apply p000_parsePart_trim.
    + reflexivity.
    + rewrite length_map. apply length_kept.
Qed.

Lemma parseArgsData_tuple_elements_witness :
  (exists l,
      RejoinValidatorSet.parseArgsData JSON.parse
        (str "args: " ++ tuple Samples.elementsBraces) = Ok (VArr l)
      /\ l = map (RejoinValidatorSet.parsePart JSON.parse) (kept Samples.elementsBraces)
      /\ List.length l = 3)
  /\
  (exists l,
      Part000.parseArgsData JSON.parse (tuple Samples.elementsBrackets) = Ok (VArr l)
      /\ l = map (Part000.parsePart JSON.parse) (kept Samples.elementsBrackets)
      /\ List.length l = 3).
Proof.
  split.
  - apply (proj1 parseArgsData_tuple_elements JSON.parse
             (str "args: " ++ tuple Samples.elementsBraces) Samples.elementsBraces);
      [|reflexivity].
    unfold Samples.elementsBraces, rvs_element.
    repeat apply Forall_cons; try apply Forall_nil.
    + cbn. plain_run.
    + apply nested_group; [reflexivity|cbn; plain_run|apply nested_nil].
    + apply nested_string; [reflexivity|reflexivity|apply nested_nil].
  - apply (proj2 parseArgsData_tuple_elements JSON.parse
             (tuple Samples.elementsBrackets) Samples.elementsBrackets);
      [|reflexivity].
    unfold Samples.elementsBrackets, p000_element.
    repeat apply Forall_cons; try apply Forall_nil.
    + cbn. plain_run.
    + apply nested_group; [reflexivity|cbn; plain_run|apply nested_nil].
    + apply nested_string; [reflexivity|reflexivity|apply nested_nil].
Defined.

(** Two elements, the second one empty: both revisions return one value. *)
Lemma parseArgsData_tuple_elements_counterexample :
  Forall rvs_element [str "a"; []]
  /\ Forall p000_element [str "a"; []]
  /\ tuple [str "a"; []] = str "(a,)"
  /\ RejoinValidatorSet.parseArgsData JSON.parse (str "(a,)") = Ok (VArr [VStr (str "a")])
  /\ Part000.parseArgsData JSON.parse (str "(a,)") = Ok (VArr [VStr (str "a")]).
Proof.
  split; [|split; [|split; [|split]]]; try reflexivity.
  - repeat apply Forall_cons; try apply Forall_nil; cbn; unfold rvs_element; plain_run.
  - repeat apply Forall_cons; try apply Forall_nil; cbn; unfold p000_element; plain_run.
Qed.

(** ** Supporting facts *)

(** The first revision counts no square brackets: a comma between them
    ends a part.  The second revision keeps the array whole. *)
Example rvs_square_brackets_split :
  RejoinValidatorSet.parseArgsData JSON.parse (str "([1,2],x)") =
    Ok (VArr [VStr (str "[1"); VStr (str "2]"); VStr (str "x")])
  /\ exists one two,
       Part000.parseArgsData JSON.parse (str "([1,2],x)") =
         Ok (VArr [VArr [VNum one; VNum two]; VStr (str "x")]).
Proof. split; [reflexivity|]. eexists. eexists. vm_compute. reflexivity. Qed.

(** The second revision takes a quote after a backslash for an escaped
    quote even when the backslash is itself escaped: the string stays
    open and the comma after it ends no part. *)
Example p000_escaped_backslash_keeps_string_open :
  Part000.parseArgsData JSON.parse
    (c_lparen :: c_squote :: str "a" ++ [c_backslash; c_backslash; c_squote]
     ++ str ", b" ++ [c_rparen]) =
  Ok (VArr [VStr (c_squote :: str "a" ++ [c_backslash; c_backslash; c_squote]
                  ++ str ", b")]).
Proof. reflexivity. Qed.

(* ===================================================================== *)
(** * Further properties of the script *)
(* ===================================================================== *)

(** ** The splitting loops on arbitrary text *)

Lemma join_snoc l x : l <> [] -> join (l ++ [x]) = join l ++ c_comma :: x.
Proof.
  destruct l as [|e r]; [contradiction|]. intros _. simpl.
  rewrite flat_map_app. simpl. rewrite app_nil_r, app_assoc. reflexivity.
Qed.

Lemma join_snoc_char raws cur c :
  join (raws ++ [cur ++ [c]]) = join (raws ++ [cur]) ++ [c].
Proof.
  destruct raws as [|e r].
  - simpl. rewrite !app_nil_r. reflexivity.
  - rewrite !join_snoc by discriminate.
    rewrite <- !app_assoc. reflexivity.
Qed.

Lemma join_snoc_new raws cur :
  join ((raws ++ [cur]) ++ [[]]) = join (raws ++ [cur]) ++ [c_comma].
Proof. apply join_snoc. destruct raws; discriminate. Qed.

(** One iteration either appends the character to the current part or,
    on a comma, ends the part. *)
Lemma rvs_step_cases st c :
  (RejoinValidatorSet.parts (RejoinValidatorSet.step st c) = RejoinValidatorSet.parts st
   /\ RejoinValidatorSet.current (RejoinValidatorSet.step st c) =
      RejoinValidatorSet.current st ++ [c])
  \/ (c = c_comma
      /\ RejoinValidatorSet.parts (RejoinValidatorSet.step st c) =
         RejoinValidatorSet.parts st ++ [trim (RejoinValidatorSet.current st)]
      /\ RejoinValidatorSet.current (RejoinValidatorSet.step st c) = []).
Proof.
  unfold RejoinValidatorSet.step.
  repeat match goal with
         | |- context [if ?b then _ else _] => destruct b eqn:?; simpl
         end; auto.
  right. split; [|auto].
  repeat match goal with
         | H : (_ && _)%bool = true |- _ => apply andb_true_iff in H; destruct H
         end.
  apply N.eqb_eq. assumption.
Qed.

Lemma p000_step_cases prev st c :
  (Part000.parts (Part000.step prev st c) = Part000.parts st
   /\ Part000.currentPart (Part000.step prev st c) = Part000.currentPart st ++ [c])
  \/ (c = c_comma
      /\ Part000.parts (Part000.step prev st c) =
         Part000.parts st ++ [trim (Part000.currentPart st)]
      /\ Part000.currentPart (Part000.step prev st c) = []).
Proof.
  unfold Part000.step, Part000.setString, Part000.setCounters.
  repeat match goal with
         | |- context [if ?b then _ else _] => destruct b eqn:?; simpl
         end; auto.
  right. split; [|auto].
  repeat match goal with
         | H : (_ && _)%bool = true |- _ => apply andb_true_iff in H; destruct H
         end.
  apply N.eqb_eq. assumption.
Qed.

(** The parts are the trimmings of pieces of the scanned text, and the
    pieces joined by commas, with the current part last, are that text. *)
Lemma rvs_scan_pieces s :
  forall st raws scanned,
    RejoinValidatorSet.parts st = map trim raws ->
    scanned = join (raws ++ [RejoinValidatorSet.current st]) ->
    exists raws',
      RejoinValidatorSet.parts (RejoinValidatorSet.scan st s) = map trim raws'
      /\ scanned ++ s =
         join (raws' ++ [RejoinValidatorSet.current (RejoinValidatorSet.scan st s)]).
Proof.
  induction s as [|c s IH]; intros st raws scanned Hp Hs.
  - exists raws. simpl. rewrite app_nil_r. auto.
  - rewrite rvs_scan_cons.
    change (scanned ++ c :: s) with (scanned ++ [c] ++ s). rewrite app_assoc.
    destruct (rvs_step_cases st c) as [[Hp' Hc']|(-> & Hp' & Hc')].
    + apply (IH _ raws); [congruence|].
      rewrite Hc', join_snoc_char, Hs. reflexivity.
    + apply (IH _ (raws ++ [RejoinValidatorSet.current st])).
      * rewrite Hp', Hp, map_app. reflexivity.
      * rewrite Hc', join_snoc_new, Hs. reflexivity.
Qed.

Lemma p000_scan_pieces s :
  forall prev st raws scanned,
    Part000.parts st = map trim raws ->
    scanned = join (raws ++ [Part000.currentPart st]) ->
    exists raws',
      Part000.parts (Part000.scan prev st s) = map trim raws'
      /\ scanned ++ s =
         join (raws' ++ [Part000.currentPart (Part000.scan prev st s)]).
Proof.
  induction s as [|c s IH]; intros prev st raws scanned Hp Hs.
  - exists raws. simpl. rewrite app_nil_r. auto.
  - rewrite p000_scan_cons.
    change (scanned ++ c :: s) with (scanned ++ [c] ++ s). rewrite app_assoc.
    destruct (p000_step_cases prev st c) as [[Hp' Hc']|(-> & Hp' & Hc')].
    + apply (IH _ _ raws); [congruence|].
      rewrite Hc', join_snoc_char, Hs. reflexivity.
    + apply (IH _ _ (raws ++ [Part000.currentPart st])).
      * rewrite Hp', Hp, map_app. reflexivity.
      * rewrite Hc', join_snoc_new, Hs. reflexivity.
Qed.

Lemma removelast_snoc (A : Type) (l : list A) x : removelast (l ++ [x]) = l.
Proof. apply removelast_last. Qed.

Lemma last_snoc (A : Type) (l : list A) x d : last (l ++ [x]) d = x.
Proof. apply last_last. Qed.

Lemma rvs_splitParts_pieces s :
  exists es, join es = s /\ RejoinValidatorSet.splitParts s = map trim (kept es).
Proof.
  destruct (rvs_scan_pieces s RejoinValidatorSet.scanner0 [] [] eq_refl eq_refl)
    as (raws & Hp & Hs).
  exists (raws ++ [RejoinValidatorSet.current
                     (RejoinValidatorSet.scan RejoinValidatorSet.scanner0 s)]).
  split; [symmetry; exact Hs|].
  unfold RejoinValidatorSet.splitParts. cbv zeta.
  apply map_trim_kept.
  - destruct raws; discriminate.
  - rewrite removelast_snoc. exact Hp.
  - rewrite last_snoc. reflexivity.
Qed.

Lemma p000_splitParts_pieces s :
  exists es, join es = s /\ Part000.splitParts s = map trim (kept es).
Proof.
  destruct (p000_scan_pieces s None Part000.scanner0 [] [] eq_refl eq_refl)
    as (raws & Hp & Hs).
  exists (raws ++ [Part000.currentPart (Part000.scan None Part000.scanner0 s)]).
  split; [symmetry; exact Hs|].
  unfold Part000.splitParts. cbv zeta.
  apply map_trim_kept.
  - destruct raws; discriminate.
  - rewrite removelast_snoc. exact Hp.
  - rewrite last_snoc. reflexivity.
Qed.

Lemma endsWith_snoc_eq c x a : endsWith [c] (x ++ [a]) = (c =? a)%N.
Proof.
  unfold endsWith. rewrite rev_app_distr. cbn [rev app startsWith].
  apply andb_true_r.
Qed.

(** A text in tuple form is its inner text between the parentheses. *)
Lemma tuple_form_inv clean :
  startsWith [c_lparen] clean && endsWith [c_rparen] clean = true ->
  exists inner, clean = tuple [inner].
Proof.
  intros H. apply andb_true_iff in H. destruct H as [Hs He].
  apply startsWith_cons in Hs. destruct Hs as [r ->].
  destruct r as [|a r'] using rev_ind.
  - discriminate He.
  - clear IHr'.
    change (c_lparen :: r' ++ [a]) with ((c_lparen :: r') ++ [a]) in He.
    rewrite endsWith_snoc_eq in He. apply N.eqb_eq in He. subst a.
    exists r'. unfold tuple, join. simpl. rewrite app_nil_r. reflexivity.
Qed.

Lemma tuple_singleton inner es : join es = inner -> tuple es = tuple [inner].
Proof. intros <-. unfold tuple. simpl. rewrite app_nil_r. reflexivity. Qed.

Lemma slice_tuple es : slice_1_m1 (tuple es) = join es.
Proof. unfold slice_1_m1, tuple. simpl tl. apply removelast_last. Qed.

Lemma count_flat_map_commas (r : list jsstring) :
  List.length r <=
  count_occ N.eq_dec (flat_map (fun x => c_comma :: x) r) c_comma.
Proof.
  induction r as [|x r IH]; [apply Nat.le_refl|].
  simpl flat_map. rewrite count_occ_cons_eq by reflexivity.
  rewrite count_occ_app. simpl List.length. lia.
Qed.

Lemma count_join es :
  List.length es <= S (count_occ N.eq_dec (join es) c_comma).
Proof.
  destruct es as [|e r]; [simpl; lia|].
  unfold join. rewrite count_occ_app. simpl List.length.
  pose proof (count_flat_map_commas r). lia.
Qed.

Lemma count_tuple es :
  count_occ N.eq_dec (tuple es) c_comma = count_occ N.eq_dec (join es) c_comma.
Proof.
  unfold tuple. rewrite count_occ_cons_neq by discriminate.
  rewrite count_occ_app. simpl. lia.
Qed.

Lemma length_kept_le es : List.length (kept es) <= List.length es.
Proof. rewrite length_kept. destruct (isBlank (last es [])); lia. Qed.

(** X1.  Whatever the text between the parentheses, well nested or not,
    the array returned for a tuple is obtained by cutting that text at
    some of its commas, dropping a blank last piece, and converting each
    piece: no character is lost, duplicated or moved, and no cut falls
    anywhere but on a comma. *)
Theorem parseArgsData_cuts_at_commas :
  (forall JSON_parse input,
      RejoinValidatorSet.isTupleForm (RejoinValidatorSet.cleanInput input) = true ->
      exists es,
        tuple es = RejoinValidatorSet.cleanInput input
        /\ RejoinValidatorSet.parseArgsData JSON_parse input =
           Ok (VArr (map (RejoinValidatorSet.parsePart JSON_parse) (kept es))))
  /\
  (forall JSON_parse input,
      input <> [] ->
      Part000.isTupleForm (Part000.cleanInput input) = true ->
      exists es,
        tuple es = Part000.cleanInput input
        /\ Part000.parseArgsData JSON_parse input =
           Ok (VArr (map (Part000.parsePart JSON_parse) (kept es)))).
Proof.
  split.
  - intros JSON_parse input Ht.
    destruct (tuple_form_inv _ Ht) as [inner Hc].
    destruct (rvs_splitParts_pieces inner) as (es & Hj & Hs).
    exists es. split; [rewrite Hc; apply tuple_singleton; exact Hj|].
    unfold RejoinValidatorSet.parseArgsData. cbv zeta.
    rewrite Ht. rewrite Hc.
    change (RejoinValidatorSet.isJsonArrayForm (tuple [inner])) with false.
    cbv iota. rewrite slice_tuple.
    change (join [inner]) with (inner ++ []). rewrite app_nil_r, Hs, map_map.
    do 2 f_equal. apply map_ext. intros x. apply rvs_parsePart_trim.
  - intros JSON_parse input Hne Ht.
    destruct (tuple_form_inv _ Ht) as [inner Hc].
    destruct (p000_splitParts_pieces inner) as (es & Hj & Hs).
    exists es. split; [rewrite Hc; apply tuple_singleton; exact Hj|].
    destruct input as [|c0 r0]; [contradiction|].
    unfold Part000.parseArgsData. cbv zeta.
    rewrite Ht. rewrite Hc.
    change (Part000.isJsonArrayForm (tuple [inner])) with false.
    cbv iota. rewrite substring_tuple, p000_splitParts_trim.
    change (join [inner]) with (inner ++ []). rewrite app_nil_r, Hs, map_map.
    do 2 f_equal. apply map_ext. intros x. apply p000_parsePart_trim.
Qed.

Lemma parseArgsData_cuts_at_commas_witness :
  (exists es,
      tuple es = RejoinValidatorSet.cleanInput (str "args: (a), b, 'c, d)")
      /\ RejoinValidatorSet.parseArgsData JSON.parse (str "args: (a), b, 'c, d)") =
         Ok (VArr (map (RejoinValidatorSet.parsePart JSON.parse) (kept es))))
  /\
  (exists es,
      tuple es = Part000.cleanInput (str " ([a, b], c], d, ) ")
      /\ Part000.parseArgsData JSON.parse (str " ([a, b], c], d, ) ") =
         Ok (VArr (map (Part000.parsePart JSON.parse) (kept es)))).
Proof.
  split.
  - apply (proj1 parseArgsData_cuts_at_commas JSON.parse (str "args: (a), b, 'c, d)")).
    reflexivity.
  - apply (proj2 parseArgsData_cuts_at_commas JSON.parse (str " ([a, b], c], d, ) ")).
    + discriminate.
    + reflexivity.
Defined.

(** X2.  The array returned for a tuple has at most one element more than
    the cleaned text has commas. *)
Theorem parseArgsData_element_bound :
  (forall JSON_parse input l,
      RejoinValidatorSet.isTupleForm (RejoinValidatorSet.cleanInput input) = true ->
      RejoinValidatorSet.parseArgsData JSON_parse input = Ok (VArr l) ->
      List.length l <=
      S (count_occ N.eq_dec (RejoinValidatorSet.cleanInput input) c_comma))
  /\
  (forall JSON_parse input l,
      Part000.isTupleForm (Part000.cleanInput input) = true ->
      Part000.parseArgsData JSON_parse input = Ok (VArr l) ->
      List.length l <=
      S (count_occ N.eq_dec (Part000.cleanInput input) c_comma)).
Proof.
  split.
  - intros JSON_parse input l Ht Hp.
    destruct (tuple_form_inv _ Ht) as [inner Hc].
    destruct (rvs_splitParts_pieces inner) as (es & Hj & Hs).
    unfold RejoinValidatorSet.parseArgsData in Hp. cbv zeta in Hp.
    rewrite Ht, Hc in Hp.
    change (RejoinValidatorSet.isJsonArrayForm (tuple [inner])) with false in Hp.
    cbv iota in Hp. rewrite slice_tuple in Hp.
    change (join [inner]) with (inner ++ []) in Hp.
    rewrite app_nil_r, Hs in Hp. injection Hp as <-.
    rewrite Hc.
    rewrite <- (tuple_singleton inner es Hj), count_tuple, !length_map.
    pose proof (length_kept_le es). pose proof (count_join es). lia.
  - intros JSON_parse input l Ht Hp.
    destruct (tuple_form_inv _ Ht) as [inner Hc].
    destruct (p000_splitParts_pieces inner) as (es & Hj & Hs).
    destruct input as [|c0 r0]; [discriminate Hp|].
    unfold Part000.parseArgsData in Hp. cbv zeta in Hp.
    rewrite Ht, Hc in Hp.
    change (Part000.isJsonArrayForm (tuple [inner])) with false in Hp.
    cbv iota in Hp. rewrite substring_tuple, p000_splitParts_trim in Hp.
    change (join [inner]) with (inner ++ []) in Hp.
    rewrite app_nil_r, Hs in Hp. injection Hp as <-.
    rewrite Hc.
    rewrite <- (tuple_singleton inner es Hj), count_tuple, !length_map.
    pose proof (length_kept_le es). pose proof (count_join es). lia.
Qed.

Lemma parseArgsData_element_bound_witness :
  List.length [VStr (str "a"); VStr (str "b"); VStr (str "{c,d")] <=
    S (count_occ N.eq_dec (RejoinValidatorSet.cleanInput (str "(a, b,{c,d)")) c_comma)
  /\ List.length [VStr (str "a"); VStr (str "'[b,c]'")] <=
       S (count_occ N.eq_dec (Part000.cleanInput (str "(a,'[b,c]',)")) c_comma).
Proof.
  split.
  - apply (proj1 parseArgsData_element_bound JSON.parse (str "(a, b,{c,d)")); reflexivity.
  - apply (proj2 parseArgsData_element_bound JSON.parse (str "(a,'[b,c]',)")); reflexivity.
Defined.

(** ** Prefixes and surrounding white space *)

Lemma startsWith_inv p s : startsWith p s = true -> exists r, s = p ++ r.
Proof.
  revert s. induction p as [|a p IH]; intros s H; [exists s; reflexivity|].
  destruct s as [|b s]; [discriminate H|].
  simpl in H. apply andb_true_iff in H. destruct H as [Hab Hp].
  apply N.eqb_eq in Hab. subst b.
  destruct (IH s Hp) as [r ->]. exists r. reflexivity.
Qed.

Lemma blank_head_not c w :
  isWhiteSpace c = false -> isWhiteSpace w = true -> (c =? w)%N = false.
Proof.
  intros Hc Hw. destruct (c =? w)%N eqn:E; [|reflexivity].
  apply N.eqb_eq in E. subst. congruence.
Qed.

(** X3.  The first revision removes the [args:] prefix together with the
    white space after it: a prefixed text gives what the text after the
    prefix gives, provided that text does not itself start with the
    prefix. *)
Theorem rvs_parseArgsData_prefix_removed :
  forall JSON_parse ws body,
    forallb isWhiteSpace ws = true ->
    startsWith (str "args:") body = false ->
    RejoinValidatorSet.parseArgsData JSON_parse (str "args:" ++ ws ++ body) =
    RejoinValidatorSet.parseArgsData JSON_parse body.
Proof.
  intros JSON_parse ws body Hws Hbody.
  assert (Hc : RejoinValidatorSet.cleanInput (str "args:" ++ ws ++ body) =
               RejoinValidatorSet.cleanInput body).
  { unfold RejoinValidatorSet.cleanInput, RejoinValidatorSet.removePrefix.
    rewrite startsWith_app, Hbody.
    change (skipn 5 (str "args:" ++ ws ++ body)) with (ws ++ body).
    unfold trim. rewrite (trimStart_blank ws body Hws), trimStart_idem. reflexivity. }
  unfold RejoinValidatorSet.parseArgsData. rewrite Hc. reflexivity.
Qed.

Lemma rvs_parseArgsData_prefix_removed_witness :
  RejoinValidatorSet.parseArgsData JSON.parse
    (str "args:" ++ str "  " ++ str "(0xabc, [], {})") =
  RejoinValidatorSet.parseArgsData JSON.parse (str "(0xabc, [], {})").
Proof.
  apply (rvs_parseArgsData_prefix_removed JSON.parse (str "  ") (str "(0xabc, [], {})"));
    reflexivity.
Defined.

(** X4.  The first revision looks for the prefix before it trims: white
    space in front of [args:] keeps the prefix in place, and the text is
    refused as being in neither format. *)
Theorem rvs_parseArgsData_padded_prefix :
  forall JSON_parse ws rest,
    forallb isWhiteSpace ws = true ->
    ws <> [] ->
    RejoinValidatorSet.parseArgsData JSON_parse (ws ++ str "args:" ++ rest) =
    Err InvalidInputFormat.
Proof.
  intros JSON_parse ws rest Hws Hne.
  assert (Hp : RejoinValidatorSet.removePrefix (ws ++ str "args:" ++ rest) =
               ws ++ str "args:" ++ rest).
  { unfold RejoinValidatorSet.removePrefix.
    destruct ws as [|w ws']; [contradiction|].
    simpl in Hws. apply andb_true_iff in Hws. destruct Hws as [Hw _].
    change (startsWith (str "args:") ((w :: ws') ++ str "args:" ++ rest))
      with ((97 =? w)%N && startsWith (str "rgs:") (ws' ++ str "args:" ++ rest)).
    rewrite (blank_head_not 97 w eq_refl Hw). reflexivity. }
  unfold RejoinValidatorSet.parseArgsData, RejoinValidatorSet.cleanInput. cbv zeta.
  rewrite Hp, (trim_blank_prefix ws _ Hws).
  change (str "args:" ++ rest) with (97%N :: (str "rgs:" ++ rest)).
  rewrite (trim_cons_nonws 97 _ eq_refl). reflexivity.
Qed.

Lemma rvs_parseArgsData_padded_prefix_witness :
  RejoinValidatorSet.parseArgsData JSON.parse (str " " ++ str "args:" ++ str " [[], {}]") =
    Err InvalidInputFormat.
Proof.
  apply (rvs_parseArgsData_padded_prefix JSON.parse (str " ") (str " [[], {}]"));
    [reflexivity|discriminate].
Defined.

(** X5.  The second revision trims before anything else: white space
    around a text that is not blank changes nothing, and a text of white
    space only is refused as being in neither format, with nothing
    received. *)
Theorem p000_parseArgsData_ignores_padding :
  forall JSON_parse input,
    input <> [] ->
    (trim input <> [] ->
     Part000.parseArgsData JSON_parse input =
     Part000.parseArgsData JSON_parse (trim input))
    /\ (trim input = [] ->
        Part000.parseArgsData JSON_parse input = Err (InvalidInputFormatReceived [])).
Proof.
  intros JSON_parse input Hne.
  destruct input as [|c0 r0]; [contradiction|].
  split.
  - intros Ht.
    assert (Hc : Part000.cleanInput (trim (c0 :: r0)) = Part000.cleanInput (c0 :: r0)).
    { unfold Part000.cleanInput. cbv zeta. rewrite trim_idem. reflexivity. }
    destruct (trim (c0 :: r0)) as [|c1 r1] eqn:E; [contradiction|].
    unfold Part000.parseArgsData. cbv zeta. rewrite Hc. reflexivity.
  - intros Ht. unfold Part000.parseArgsData, Part000.cleanInput. cbv zeta.
    rewrite Ht. reflexivity.
Qed.

Lemma p000_parseArgsData_ignores_padding_witness :
  Part000.parseArgsData JSON.parse (str "  [[], {}] ") =
    Part000.parseArgsData JSON.parse (trim (str "  [[], {}] "))
  /\ Part000.parseArgsData JSON.parse (str "   ") = Err (InvalidInputFormatReceived []).
Proof.
  split.
  - apply (proj1 (p000_parseArgsData_ignores_padding JSON.parse (str "  [[], {}] ")
                    ltac:(discriminate))).
    vm_compute. discriminate.
  - apply (proj2 (p000_parseArgsData_ignores_padding JSON.parse (str "   ")
                    ltac:(discriminate))).
    reflexivity.
Defined.

(** ** The two revisions on JSON arrays *)

Lemma trimEnd_args_prefix r :
  trimEnd (str "args:" ++ r) = str "args:" ++ trimEnd r.
Proof.
  change (str "args:" ++ r) with (97%N :: 114%N :: 103%N :: 115%N :: 58%N :: r).
  rewrite !trimEnd_cons_nonws by reflexivity. reflexivity.
Qed.

(** A cleaned text of the second revision that starts with a square
    bracket is the trimmed input: no prefix was found, and the first
    revision cleans the input to the same text. *)
Lemma cleanInput_json_agree input :
  Part000.isJsonArrayForm (Part000.cleanInput input) = true ->
  Part000.cleanInput input = trim input
  /\ RejoinValidatorSet.cleanInput input = trim input.
Proof.
  unfold Part000.isJsonArrayForm, Part000.cleanInput. cbv zeta. intros H.
  apply andb_true_iff in H. destruct H as [H _].
  destruct (startsWith (str "args:") (trim input)) eqn:E1.
  { exfalso. apply startsWith_inv in E1. destruct E1 as [r Hr]. rewrite Hr in H.
    change (substringFrom 4 (str "args:" ++ r)) with (58%N :: r) in H.
    rewrite (trim_cons_nonws 58 r eq_refl) in H. discriminate H. }
  destruct (startsWith (str "args :") (trim input)) eqn:E2.
  { exfalso. apply startsWith_inv in E2. destruct E2 as [r Hr]. rewrite Hr in H.
    change (substringFrom 5 (str "args :" ++ r)) with (58%N :: r) in H.
    rewrite (trim_cons_nonws 58 r eq_refl) in H. discriminate H. }
  split; [reflexivity|].
  unfold RejoinValidatorSet.cleanInput, RejoinValidatorSet.removePrefix.
  destruct (startsWith (str "args:") input) eqn:E3; [|reflexivity].
  exfalso. apply startsWith_inv in E3. destruct E3 as [r ->].
  unfold trim in E1.
  change (trimStart (str "args:" ++ r)) with (str "args:" ++ r) in E1.
  rewrite trimEnd_args_prefix, startsWith_app in E1. discriminate E1.
Qed.

(** X6.  Whenever the second revision returns the value of a text in
    JSON-array form, the first revision returns the same value for the
    same input. *)
Theorem parseArgsData_json_agree :
  forall JSON_parse input v,
    Part000.isJsonArrayForm (Part000.cleanInput input) = true ->
    Part000.parseArgsData JSON_parse input = Ok v ->
    RejoinValidatorSet.parseArgsData JSON_parse input = Ok v.
Proof.
  intros JSON_parse input v Hj Hp.
  destruct (cleanInput_json_agree input Hj) as [H2 H1].
  destruct input as [|c0 r0]; [discriminate Hp|].
  unfold Part000.parseArgsData in Hp. cbv zeta in Hp. rewrite Hj in Hp.
  unfold RejoinValidatorSet.parseArgsData. cbv zeta. rewrite H1, <- H2.
  change (RejoinValidatorSet.isJsonArrayForm (Part000.cleanInput (c0 :: r0)))
    with (Part000.isJsonArrayForm (Part000.cleanInput (c0 :: r0))).
  rewrite Hj.
  destruct (JSON_parse (Part000.cleanInput (c0 :: r0))) as [v'|]; [exact Hp|].
  rewrite (p000_forms_exclusive _ Hj) in Hp. discriminate Hp.
Qed.

Lemma parseArgsData_json_agree_witness :
  RejoinValidatorSet.parseArgsData JSON.parse Samples.arrayText =
    Ok Samples.sampleArgs.
Proof.
  apply (parseArgsData_json_agree JSON.parse Samples.arrayText Samples.sampleArgs).
  - reflexivity.
  - vm_compute. reflexivity.
Defined.

(** ** More on [extractDataFromArgs] *)

Lemma p000_extract_count JSON_parse isAddress args d :
  Part000.extractDataFromArgs JSON_parse isAddress args = Ok d ->
  exists n, publicInputsCount (Part000.zkPassportData d) = Ok n
            /\ toStringThrows n = false.
Proof.
  unfold Part000.extractDataFromArgs. intros H.
  destruct args as [ | |b|x|s|l|props]; try (exfalso; exact (throwWith_not_ok _ _ _ _ H)).
  destruct (List.length l <? 6)%nat;
    [exfalso; exact (throwWith_not_ok _ _ _ _ H)|].
  destruct (negb (Part000.isAddressString isAddress (nth 0 l VUndefined)));
    [exfalso; exact (throwWith_not_ok _ _ _ _ H)|].
  destruct (negb (isArray (or_else (nth 1 l VUndefined) (VArr []))));
    [exfalso; exact (throwWith_not_ok _ _ _ _ H)|].
  rstep H. rstep H. rstep H. rstep H.
  injection H as <-. simpl.
  match goal with
  | E : publicInputsCount _ = Ok ?n |- _ => exists n; split; [exact E|]
  end.
  match goal with
  | E : template ?n = Ok _ |- _ =>
      unfold template in E; destruct (toStringThrows n); [discriminate E|reflexivity]
  end.
Qed.

Lemma template_ok v : toStringThrows v = false -> template v = Ok tt.
Proof. intros H. unfold template. rewrite H. reflexivity. Qed.

Lemma truthy_or_else_array a : truthy (or_else a (VArr [])) = true.
Proof. unfold or_else. destruct (truthy a) eqn:E; [exact E|reflexivity]. Qed.

Lemma or_else_truthy a b : truthy a = true -> or_else a b = a.
Proof. intros H. unfold or_else. rewrite H. reflexivity. Qed.

Lemma isObject_not_string JSON_parse v :
  isObject v = true ->
  RejoinValidatorSet.parseIfString JSON_parse v = v
  /\ Part000.parseIfString JSON_parse v = v
  /\ truthy v = true /\ typeof v = TObject /\ v <> VUndefined.
Proof.
  destruct v; simpl; try discriminate; intros _; repeat split; discriminate.
Qed.

Lemma number_no_throw n : toStringThrows (number_of_nat n) = false.
Proof. reflexivity. Qed.

(** X7.  No revision looks beyond the sixth argument: further elements of
    the array change nothing. *)
Theorem extractDataFromArgs_ignores_further_arguments :
  (forall JSON_parse l more,
      6 <= List.length l ->
      RejoinValidatorSet.extractDataFromArgs JSON_parse (VArr (l ++ more)) =
      RejoinValidatorSet.extractDataFromArgs JSON_parse (VArr l))
  /\
  (forall JSON_parse isAddress l more,
      6 <= List.length l ->
      Part000.extractDataFromArgs JSON_parse isAddress (VArr (l ++ more)) =
      Part000.extractDataFromArgs JSON_parse isAddress (VArr l)).
Proof.
  assert (Hn : forall (l more : list value) i,
             6 <= List.length l -> i < 6 ->
             nth i (l ++ more) VUndefined = nth i l VUndefined).
  { intros l more i Hl Hi. apply app_nth1. lia. }
  split.
  - intros JSON_parse l more Hl.
    unfold RejoinValidatorSet.extractDataFromArgs, getIndex, elementAt.
    rewrite !Hn by lia. reflexivity.
  - intros JSON_parse isAddress l more Hl.
    unfold Part000.extractDataFromArgs.
    rewrite !Hn by lia.
    assert (H1 : (List.length (l ++ more) <? 6)%nat = false).
    { apply Nat.ltb_ge. rewrite length_app. lia. }
    assert (H2 : (List.length l <? 6)%nat = false) by (apply Nat.ltb_ge; lia).
    rewrite H1, H2. reflexivity.
Qed.

Lemma extractDataFromArgs_ignores_further_arguments_witness :
  RejoinValidatorSet.extractDataFromArgs JSON.parse
    (VArr (Samples.expectedParams ++ [VStr (str "more")])) =
    RejoinValidatorSet.extractDataFromArgs JSON.parse (VArr Samples.expectedParams)
  /\ Part000.extractDataFromArgs JSON.parse Samples.isLowerHexAddress
       (VArr (Samples.expectedParams ++ [VStr (str "more")])) =
     Part000.extractDataFromArgs JSON.parse Samples.isLowerHexAddress
       (VArr Samples.expectedParams).
Proof.
  split.
  - apply (proj1 extractDataFromArgs_ignores_further_arguments JSON.parse
             Samples.expectedParams [VStr (str "more")]).
    simpl. lia.
  - apply (proj2 extractDataFromArgs_ignores_further_arguments JSON.parse
             Samples.isLowerHexAddress Samples.expectedParams [VStr (str "more")]).
    simpl. lia.
Defined.

Lemma rvs_extract_fields JSON_parse a m z g1 g2 s len n :
  template a = Ok tt ->
  truthy m = true ->
  lengthOf m = Ok len -> template len = Ok tt ->
  isObject z = true ->
  publicInputsCount z = Ok n -> template n = Ok tt ->
  RejoinValidatorSet.extractDataFromArgs JSON_parse (VArr [a; m; z; g1; g2; s]) =
  Ok {| RejoinValidatorSet.attester := a; RejoinValidatorSet.merkleProof := m;
        RejoinValidatorSet.zkPassportData := z; RejoinValidatorSet.publicKeyG1 := g1;
        RejoinValidatorSet.publicKeyG2 := g2; RejoinValidatorSet.signature := s |}.
Proof.
  intros Ha Hm Hl Htl Hz Hn Htn.
  destruct (isObject_not_string JSON_parse z Hz) as (Hp & _ & Ht & Hty & Hu).
  unfold RejoinValidatorSet.extractDataFromArgs, getIndex, elementAt. simpl nth.
  simpl rbind at 1. rewrite Ha. simpl rbind at 1. simpl rbind at 1.
  rewrite (or_else_truthy m (VArr []) Hm), Hl. simpl rbind at 1.
  rewrite Htl. simpl rbind at 1. simpl rbind at 1.
  assert (Hs : RejoinValidatorSet.stringifyPreview z = Ok tt).
  { destruct z; try reflexivity. contradiction. }
  rewrite Hs. simpl rbind at 1. rewrite Hp, Ht, Hty. simpl.
  rewrite Hn. simpl. rewrite Htn. reflexivity.
Qed.

Lemma p000_extract_fields JSON_parse isAddress a m z g1 g2 s n :
  isAddress a = true ->
  isArray m = true ->
  isObject z = true ->
  publicInputsCount z = Ok n -> toStringThrows n = false ->
  truthy g1 = true -> truthy g2 = true -> truthy s = true ->
  Part000.extractDataFromArgs JSON_parse isAddress (VArr [VStr a; m; z; g1; g2; s]) =
  Ok {| Part000.attester := VStr a; Part000.merkleProof := m;
        Part000.zkPassportData := z; Part000.publicKeyG1 := g1;
        Part000.publicKeyG2 := g2; Part000.signature := s |}.
Proof.
  intros Ha Hm Hz Hn Htn H1 H2 H3.
  destruct (isObject_not_string JSON_parse z Hz) as (_ & Hp & Ht & Hty & _).
  assert (Hmt : truthy m = true) by (destruct m; try discriminate Hm; reflexivity).
  unfold Part000.extractDataFromArgs. simpl List.length. simpl nth.
  change (6 <? 6)%nat with false. cbv iota.
  unfold Part000.isAddressString. rewrite Ha. simpl negb. cbv iota.
  rewrite (or_else_truthy m (VArr []) Hmt), Hm. simpl negb. cbv iota.
  rewrite Hp, Ht, Hty. simpl. rewrite Hn. simpl.
  rewrite (template_ok n Htn). simpl. rewrite H1, H2, H3. reflexivity.
Qed.

(** X8.  Extraction is stable: extracting again from the six values it
    returned gives the same data, without error. *)
Theorem extractDataFromArgs_stable :
  (forall JSON_parse args d,
      RejoinValidatorSet.extractDataFromArgs JSON_parse args = Ok d ->
      RejoinValidatorSet.extractDataFromArgs JSON_parse
        (VArr (RejoinValidatorSet.callParams d)) = Ok d)
  /\
  (forall JSON_parse isAddress args d,
      Part000.extractDataFromArgs JSON_parse isAddress args = Ok d ->
      Part000.extractDataFromArgs JSON_parse isAddress
        (VArr (Part000.callParams d)) = Ok d).
Proof.
  split.
  - intros JSON_parse args d H.
    destruct (rvs_extract_ok _ _ _ H)
      as (Hps & Ha & (len & Hl & Htl) & (n & Hn & Htn) & Ht & Hty).
    apply callParams_rvs_inv in Hps. destruct Hps as (_ & Hm & _).
    assert (Hmt : truthy (RejoinValidatorSet.merkleProof d) = true).
    { rewrite Hm. apply truthy_or_else_array. }
    assert (Hz : isObject (RejoinValidatorSet.zkPassportData d) = true).
    { apply isObject_spec. auto. }
    destruct d as [a m z g1 g2 s]. unfold RejoinValidatorSet.callParams.
    simpl in *. exact (rvs_extract_fields JSON_parse a m z g1 g2 s len n
                         Ha Hmt Hl Htl Hz Hn Htn).
  - intros JSON_parse isAddress args d H.
    destruct (p000_extract_ok _ _ _ _ H)
      as (_ & _ & (a & Ha & Haddr) & Hm & Ht & Hty & H3 & H4 & H5).
    destruct (p000_extract_count _ _ _ _ H) as (n & Hn & Htn).
    assert (Hz : isObject (Part000.zkPassportData d) = true).
    { apply isObject_spec. auto. }
    destruct d as [a0 m z g1 g2 s]. unfold Part000.callParams.
    simpl in *. subst a0.
    exact (p000_extract_fields JSON_parse isAddress a m z g1 g2 s n
             Haddr Hm Hz Hn Htn H3 H4 H5).
Qed.

Lemma extractDataFromArgs_stable_witness :
  RejoinValidatorSet.extractDataFromArgs JSON.parse
    (VArr (RejoinValidatorSet.callParams Samples.sampleExtractedRVS)) =
    Ok Samples.sampleExtractedRVS
  /\ Part000.extractDataFromArgs JSON.parse Samples.isLowerHexAddress
       (VArr (Part000.callParams Samples.sampleExtractedP000)) =
     Ok Samples.sampleExtractedP000.
Proof.
  split.
  - apply (proj1 extractDataFromArgs_stable JSON.parse Samples.sampleArgsNullProof).
    reflexivity.
  - apply (proj2 extractDataFromArgs_stable JSON.parse Samples.isLowerHexAddress
             Samples.sampleArgsNullProof).
    reflexivity.
Defined.

(** X9.  The second revision is the stricter one: whatever arguments it
    accepts, the first revision accepts too, and both hand the same six
    values to the contract call. *)
Theorem extractDataFromArgs_second_stricter :
  forall JSON_parse isAddress args d,
    Part000.extractDataFromArgs JSON_parse isAddress args = Ok d ->
    exists d',
      RejoinValidatorSet.extractDataFromArgs JSON_parse args = Ok d'
      /\ RejoinValidatorSet.callParams d' = Part000.callParams d.
Proof.
  intros JSON_parse isAddress args d H.
  destruct (p000_extract_ok _ _ _ _ H)
    as (Hps & (l & -> & Hlen) & (a & Ha & Haddr) & Hm & Ht & Hty & _).
  destruct (p000_extract_count _ _ _ _ H) as (n & Hn & Htn).
  pose proof (callParams_p000_inv _ _ _ _ _ _ _ Hps) as (E0 & E1 & E2 & E3 & E4 & E5).
  simpl elementAt in *.
  assert (Hz : isObject (Part000.zkPassportData d) = true).
  { apply isObject_spec. auto. }
  assert (Hlen' : exists len, lengthOf (Part000.merkleProof d) = Ok len
                              /\ template len = Ok tt).
  { destruct (Part000.merkleProof d) as [ | |b|x|s|m|ps]; try discriminate Hm.
    eexists. split; reflexivity. }
  destruct Hlen' as (len & Hl & Htl).
  assert (Hu : RejoinValidatorSet.stringifyPreview (nth 2 l VUndefined) = Ok tt).
  { destruct (nth 2 l VUndefined) eqn:E; try reflexivity.
    rewrite E2 in Hz. discriminate Hz. }
  eexists. split.
  - unfold RejoinValidatorSet.extractDataFromArgs, getIndex, elementAt.
    simpl rbind at 1. rewrite <- E0, Ha. simpl rbind at 1. simpl rbind at 1.
    rewrite <- E1, Hl. simpl rbind at 1. rewrite Htl. simpl rbind at 1.
    simpl rbind at 1. rewrite Hu. simpl rbind at 1.
    change (RejoinValidatorSet.parseIfString JSON_parse (nth 2 l VUndefined))
      with (Part000.parseIfString JSON_parse (nth 2 l VUndefined)).
    rewrite <- E2, Ht, Hty. simpl. rewrite Hn. simpl.
    rewrite (template_ok n Htn). simpl. reflexivity.
  - unfold RejoinValidatorSet.callParams, Part000.callParams. simpl.
    rewrite Ha, E3, E4, E5. reflexivity.
Qed.

Lemma extractDataFromArgs_second_stricter_witness :
  exists d',
    RejoinValidatorSet.extractDataFromArgs JSON.parse Samples.sampleArgs = Ok d'
    /\ RejoinValidatorSet.callParams d' = Part000.callParams Samples.sampleExtractedP000.
Proof.
  apply (extractDataFromArgs_second_stricter JSON.parse Samples.isLowerHexAddress
           Samples.sampleArgs Samples.sampleExtractedP000).
  reflexivity.
Defined.

Lemma template_inv v : template v = Ok tt -> toStringThrows v = false.
Proof.
  unfold template. destruct (toStringThrows v); [discriminate|reflexivity].
Qed.

(** X10.  What the second revision accepts, exactly: an array of at least
    six elements whose first element is a string the address test
    accepts, whose second element is falsy or an array, whose third
    element is an object or a string that parses to one, whose
    [publicInputs] count can be printed, and whose elements 3, 4 and 5 are
    truthy.  Anything else raises an error. *)
Theorem p000_extractDataFromArgs_accepts_exactly :
  forall JSON_parse isAddress args,
    (exists d, Part000.extractDataFromArgs JSON_parse isAddress args = Ok d)
    <->
    (exists l,
        args = VArr l
        /\ 6 <= List.length l
        /\ Part000.isAddressString isAddress (nth 0 l VUndefined) = true
        /\ isArray (or_else (nth 1 l VUndefined) (VArr [])) = true
        /\ isObject (Part000.parseIfString JSON_parse (nth 2 l VUndefined)) = true
        /\ (exists n,
              publicInputsCount (Part000.parseIfString JSON_parse (nth 2 l VUndefined))
              = Ok n /\ toStringThrows n = false)
        /\ truthy (nth 3 l VUndefined) = true
        /\ truthy (nth 4 l VUndefined) = true
        /\ truthy (nth 5 l VUndefined) = true).
Proof.
  intros JSON_parse isAddress args. split.
  - intros [d H].
    destruct (p000_extract_requires _ _ _ _ H)
      as (l & -> & Hlen & Ha & Hm & Hz & H3 & H4 & H5).
    destruct (p000_extract_count _ _ _ _ H) as (n & Hn & Htn).
    destruct (p000_extract_ok _ _ _ _ H) as (Hps & _).
    apply callParams_p000_inv in Hps. destruct Hps as (_ & _ & E2 & _).
    simpl elementAt in E2. rewrite E2 in Hn.
    exists l. repeat split; eauto.
  - intros (l & -> & Hlen & Ha & Hm & Hz & (n & Hn & Htn) & H3 & H4 & H5).
    destruct (isObject_not_string JSON_parse _ Hz) as (_ & _ & Ht & Hty & _).
    eexists. unfold Part000.extractDataFromArgs.
    assert (Hl : (List.length l <? 6)%nat = false) by (apply Nat.ltb_ge; lia).
    rewrite Hl, Ha, Hm. simpl negb. cbv iota.
    rewrite Ht, Hty. simpl. rewrite Hn. simpl.
    rewrite (template_ok n Htn). simpl. rewrite H3, H4, H5. reflexivity.
Qed.

Lemma p000_extractDataFromArgs_accepts_exactly_witness :
  (exists d,
      Part000.extractDataFromArgs JSON.parse Samples.isLowerHexAddress
        Samples.sampleArgsNullProof = Ok d)
  /\ 6 <= List.length Samples.expectedParams.
Proof.
  split.
  - apply (proj2 (p000_extractDataFromArgs_accepts_exactly JSON.parse
                    Samples.isLowerHexAddress Samples.sampleArgsNullProof)).
    eexists. split; [reflexivity|].
    repeat split; try reflexivity; try (simpl; lia).
    eexists. split; reflexivity.
  - destruct (proj1 (p000_extractDataFromArgs_accepts_exactly JSON.parse
                       Samples.isLowerHexAddress Samples.sampleArgs))
      as (l & Hl & Hlen & _).
    + exists Samples.sampleExtractedP000. reflexivity.
    + injection Hl as <-. exact Hlen.
Defined.

(** X11.  What the first revision accepts, exactly: any value but [null]
    and [undefined] whose element 0 and whose merkle-proof length can be
    printed, whose element 2 is an object or a string that parses to one,
    and whose [publicInputs] count can be printed.  It asks nothing of the
    number of elements, of the address or of elements 3, 4 and 5. *)
Theorem rvs_extractDataFromArgs_accepts_exactly :
  forall JSON_parse args,
    (exists d, RejoinValidatorSet.extractDataFromArgs JSON_parse args = Ok d)
    <->
    (missing args = false
     /\ toStringThrows (elementAt args 0) = false
     /\ (exists len,
           lengthOf (or_else (elementAt args 1) (VArr [])) = Ok len
           /\ toStringThrows len = false)
     /\ isObject (RejoinValidatorSet.parseIfString JSON_parse (elementAt args 2)) = true
     /\ (exists n,
           publicInputsCount
             (RejoinValidatorSet.parseIfString JSON_parse (elementAt args 2)) = Ok n
           /\ toStringThrows n = false)).
Proof.
  intros JSON_parse args. split.
  - intros [d H].
    destruct (rvs_extract_ok _ _ _ H)
      as (Hps & Ha & (len & Hl & Htl) & (n & Hn & Htn) & Ht & Hty).
    apply callParams_rvs_inv in Hps. destruct Hps as (E0 & E1 & E2 & _).
    rewrite E0 in Ha. rewrite E1 in Hl. rewrite E2 in Hn, Ht, Hty.
    repeat split.
    + destruct args; try reflexivity;
        unfold RejoinValidatorSet.extractDataFromArgs in H; discriminate H.
    + apply template_inv. exact Ha.
    + exists len. split; [exact Hl|apply template_inv; exact Htl].
    + apply isObject_spec. auto.
    + exists n. split; [exact Hn|apply template_inv; exact Htn].
  - intros (Hm & Ha & (len & Hl & Htl) & Hz & (n & Hn & Htn)).
    destruct (isObject_not_string JSON_parse _ Hz) as (_ & _ & Ht & Hty & Hu).
    assert (Hg : forall i, getIndex args i = Ok (elementAt args i)).
    { intros i. destruct args; try reflexivity; discriminate Hm. }
    assert (Hs : RejoinValidatorSet.stringifyPreview (elementAt args 2) = Ok tt).
    { destruct (elementAt args 2) eqn:E; try reflexivity.
      simpl in Hz. discriminate Hz. }
    eexists. unfold RejoinValidatorSet.extractDataFromArgs.
    rewrite !Hg. simpl rbind at 1. rewrite (template_ok _ Ha). simpl rbind at 1.
    simpl rbind at 1. rewrite Hl. simpl rbind at 1.
    rewrite (template_ok _ Htl). simpl rbind at 1. simpl rbind at 1.
    rewrite Hs. simpl rbind at 1. rewrite Ht, Hty. simpl.
    rewrite Hn. simpl. rewrite (template_ok _ Htn). reflexivity.
Qed.

Lemma rvs_extractDataFromArgs_accepts_exactly_witness :
  exists d,
    RejoinValidatorSet.extractDataFromArgs JSON.parse
      (VObj [(str "2", VStr (str "{}"))]) = Ok d.
Proof.
  apply (proj2 (rvs_extractDataFromArgs_accepts_exactly JSON.parse
                  (VObj [(str "2", VStr (str "{}"))]))).
  repeat split; try reflexivity; eexists; split; reflexivity.
Defined.

(** ** More on [callAddValidator] *)


Lemma buffered_bounds g :
  (0 <= g)%Z ->
  (g <= Z.quot (g * 120) 100
   /\ 100 * Z.quot (g * 120) 100 <= 120 * g
   /\ 120 * g < 100 * Z.quot (g * 120) 100 + 100)%Z.
Proof.
  intros Hg. rewrite Z.quot_div_nonneg by lia.
  pose proof (Z.div_mod (g * 120) 100 ltac:(lia)) as Hd.
  pose proof (Z.mod_pos_bound (g * 120) 100 ltac:(lia)) as Hm.
  lia.
Qed.

(** X13.  In the second revision, when the log lines of the call go
    through and the gas estimate answers a non-negative amount, the
    transaction is submitted with that amount plus a fifth, rounded down,
    as its gas limit: never below the estimate and never more than 20%
    above it. *)
Theorem callAddValidator_gas_buffer :
  forall h w d g,
    p000_call_pre d = Ok tt ->
    estimateGas h (Part000.callParams d) = inr g ->
    (0 <= g)%Z ->
    exists limit,
      filter isSubmission (trace (Part000.callAddValidator h w d)) =
        [AddValidatorCall (Part000.callParams d) limit]
      /\ (g <= limit /\ 100 * limit <= 120 * g /\ 120 * g < 100 * limit + 100)%Z.
Proof.
  intros h w d g Hpre He Hg.
  exists (gasLimitOf h (Part000.callParams d)). split.
  - rewrite p000_call_eq, Hpre. apply callOutcome_submissions.
  - unfold gasLimitOf. rewrite He. simpl gasEstimateOr.
    apply buffered_bounds. exact Hg.
Qed.

Lemma callAddValidator_gas_buffer_witness :
  exists limit,
    filter isSubmission
      (trace (Part000.callAddValidator (Samples.hostMatching Samples.arrayText)
                Samples.attesterAddress Samples.sampleExtractedP000)) =
      [AddValidatorCall (Part000.callParams Samples.sampleExtractedP000) limit]
    /\ (100001 <= limit /\ 100 * limit <= 120 * 100001
        /\ 120 * 100001 < 100 * limit + 100)%Z.
Proof.
  apply (callAddValidator_gas_buffer
           (Samples.hostMatching Samples.arrayText) Samples.attesterAddress
           Samples.sampleExtractedP000 100001%Z).
  - reflexivity.
  - reflexivity.
  - lia.
Defined.

Lemma callOutcome_normal h ps r :
  outcome (callOutcome h ps) = Normal r <->
  exists tx, sendTransaction h ps (gasLimitOf h ps) = inr tx
             /\ waitReceipt h tx = inr r.
Proof.
  unfold callOutcome.
  destruct (sendTransaction h ps (gasLimitOf h ps)) as [e|tx]; simpl.
  - split; [discriminate|intros (tx & H & _); discriminate].
  - destruct (waitReceipt h tx) as [e|r'] eqn:E; simpl.
    + split; [discriminate|].
      intros (tx' & H & H'). injection H as <-. congruence.
    + split.
      * intros H. injection H as <-. eauto.
      * intros (tx' & H & H'). injection H as <-. congruence.
Qed.

Lemma rvs_callOutcome_normal ev h ps r :
  outcome (rvs_callOutcome ev h ps) = Normal r <->
  ev = EthersV5
  /\ exists tx, sendTransaction h ps 2400000 = inr tx /\ waitReceipt h tx = inr r.
Proof.
  unfold rvs_callOutcome. destruct ev.
  - destruct (sendTransaction h ps 2400000) as [e|tx]; simpl.
    + split; [discriminate|intros (_ & tx & H & _); discriminate].
    + destruct (waitReceipt h tx) as [e|r'] eqn:E; simpl.
      * split; [discriminate|].
        intros (_ & tx' & H & H'). injection H as <-. congruence.
      * split.
        -- intros H. injection H as <-. eauto.
        -- intros (_ & tx' & H & H'). injection H as <-. congruence.
  - simpl. split; [discriminate|intros [H _]; discriminate].
Qed.

(** X14.  The second revision's [callAddValidator] returns a receipt
    exactly when its log lines went through, the submission returned a
    transaction and the wait for that transaction returned the receipt;
    what the gas estimate answered, or whether it answered, plays no part.
    The first revision's returns a receipt exactly when, in addition,
    ethers 5 is installed, the submission being the one with gas limit
    2,400,000; with ethers 6 it never returns one. *)
Theorem callAddValidator_returns_receipt :
  (forall h w d r,
      outcome (Part000.callAddValidator h w d) = Normal r
      <->
      p000_call_pre d = Ok tt
      /\ exists tx,
           sendTransaction h (Part000.callParams d)
             (gasLimitOf h (Part000.callParams d)) = inr tx
           /\ waitReceipt h tx = inr r)
  /\
  (forall ev h w d r,
      outcome (RejoinValidatorSet.callAddValidator ev h w d) = Normal r
      <->
      rvs_call_pre d = Ok tt
      /\ ev = EthersV5
      /\ exists tx,
           sendTransaction h (RejoinValidatorSet.callParams d) 2400000 = inr tx
           /\ waitReceipt h tx = inr r).
Proof.
  split.
  - intros h w d r. rewrite p000_call_eq. destruct (p000_call_pre d) as [[]|e].
    + rewrite callOutcome_normal. tauto.
    + simpl. split; [discriminate|intros [H _]; discriminate].
  - intros ev h w d r. rewrite rvs_call_eq. destruct (rvs_call_pre d) as [[]|e].
    + rewrite rvs_callOutcome_normal. tauto.
    + simpl. split; [discriminate|intros [H _]; discriminate].
Qed.

Lemma callAddValidator_returns_receipt_witness :
  outcome (Part000.callAddValidator
             (Samples.hostMismatch Samples.arrayText (str "y"))
             Samples.otherAddress Samples.sampleExtractedP000) =
    Normal Samples.sampleReceipt
  /\ outcome (RejoinValidatorSet.callAddValidator EthersV5
                (Samples.hostMatching Samples.arrayText)
                Samples.attesterAddress Samples.sampleExtractedRVS) =
       Normal Samples.sampleReceipt.
Proof.
  split.
  - apply (proj2 (proj1 callAddValidator_returns_receipt
                    (Samples.hostMismatch Samples.arrayText (str "y"))
                    Samples.otherAddress Samples.sampleExtractedP000
                    Samples.sampleReceipt)).
    split; [reflexivity|]. exists (str "0xfeed"). split; reflexivity.
  - apply (proj2 (proj2 callAddValidator_returns_receipt EthersV5
                    (Samples.hostMatching Samples.arrayText)
                    Samples.attesterAddress Samples.sampleExtractedRVS
                    Samples.sampleReceipt)).
    split; [reflexivity|]. split; [reflexivity|].
    exists (str "0xfeed"). split; reflexivity.
Defined.

Lemma callOutcome_thrown h ps e :
  outcome (callOutcome h ps) = Thrown e ->
  (exists t, trace (callOutcome h ps) = t ++ [Log (MsgCallFailed e)])
  /\ (sendTransaction h ps (gasLimitOf h ps) = inl e
      \/ exists tx, sendTransaction h ps (gasLimitOf h ps) = inr tx
                    /\ waitReceipt h tx = inl e).
Proof.
  unfold callOutcome.
  destruct (sendTransaction h ps (gasLimitOf h ps)) as [e'|tx];
    unfold outcome, trace; cbn [fst snd].
  - intros H. injection H as ->.
    split; [exists (callPrefix h ps); reflexivity|left; reflexivity].
  - destruct (waitReceipt h tx) as [e'|r] eqn:E; cbn [fst snd]; [|discriminate].
    intros H. injection H as ->. split.
    + exists (callPrefix h ps ++ [WaitCall tx]). rewrite <- app_assoc. reflexivity.
    + right. eauto.
Qed.

Lemma callOutcome_not_returned h ps : outcome (callOutcome h ps) <> Returned.
Proof.
  unfold callOutcome.
  destruct (sendTransaction h ps (gasLimitOf h ps)) as [e'|tx]; simpl;
    [discriminate|].
  destruct (waitReceipt h tx); simpl; discriminate.
Qed.

Lemma rvs_callOutcome_thrown ev h ps e :
  outcome (rvs_callOutcome ev h ps) = Thrown e ->
  (exists t, trace (rvs_callOutcome ev h ps) = t ++ [Log (MsgCallFailed e)])
  /\ (ev = EthersV6 /\ e = TypeError
      \/ ev = EthersV5
         /\ (sendTransaction h ps 2400000 = inl e
             \/ exists tx, sendTransaction h ps 2400000 = inr tx
                           /\ waitReceipt h tx = inl e)).
Proof.
  unfold rvs_callOutcome. destruct ev.
  - destruct (sendTransaction h ps 2400000) as [e'|tx];
      unfold outcome, trace; cbn [fst snd].
    + intros H. injection H as ->. split.
      * exists [Log (MsgGasEstimationFailed TypeError); AddValidatorCall ps 2400000].
        reflexivity.
      * right. auto.
    + destruct (waitReceipt h tx) as [e'|r] eqn:E; cbn [fst snd]; [|discriminate].
      intros H. injection H as ->. split.
      * exists [Log (MsgGasEstimationFailed TypeError); AddValidatorCall ps 2400000;
                WaitCall tx].
        reflexivity.
      * right. split; [reflexivity|]. right. eauto.
  - unfold outcome, trace; cbn [fst snd]. intros H. injection H as <-. split.
    + exists (EstimateGasCall ps
              :: match estimateGas h ps with
                 | inl e => [Log (MsgGasEstimationFailed e)]
                 | inr _ => []
                 end).
      destruct (estimateGas h ps); reflexivity.
    + left. auto.
Qed.

Lemma rvs_callOutcome_not_returned ev h ps :
  outcome (rvs_callOutcome ev h ps) <> Returned.
Proof.
  unfold rvs_callOutcome. destruct ev; [|discriminate].
  destruct (sendTransaction h ps 2400000) as [e'|tx]; simpl; [discriminate|].
  destruct (waitReceipt h tx); simpl; discriminate.
Qed.

(** X15.  An error that leaves [callAddValidator] has been printed by its
    [catch] block, after every request and every other traced line of the
    call, and is rethrown unchanged (the hint lines the second revision
    may print after it are narration and are not traced).  In the second
    revision it is the error of one of the call's own log lines, of the
    submission, or of the wait for the submitted transaction: a failed gas
    estimate alone never fails the call.  In the first revision it is the
    error of a log line, the [TypeError] of the mixed interfaces with
    ethers 6, or, with ethers 5, the error of the submission or of the
    wait.  The call never ends by an early return. *)
Theorem callAddValidator_rethrows :
  (forall h w d e,
      outcome (Part000.callAddValidator h w d) = Thrown e ->
      (exists t, trace (Part000.callAddValidator h w d) =
                 t ++ [Log (MsgCallFailed e)])
      /\ (p000_call_pre d = Err e
          \/ sendTransaction h (Part000.callParams d)
               (gasLimitOf h (Part000.callParams d)) = inl e
          \/ exists tx,
               sendTransaction h (Part000.callParams d)
                 (gasLimitOf h (Part000.callParams d)) = inr tx
               /\ waitReceipt h tx = inl e))
  /\ (forall h w d, outcome (Part000.callAddValidator h w d) <> Returned)
  /\
  (forall ev h w d e,
      outcome (RejoinValidatorSet.callAddValidator ev h w d) = Thrown e ->
      (exists t, trace (RejoinValidatorSet.callAddValidator ev h w d) =
                 t ++ [Log (MsgCallFailed e)])
      /\ (rvs_call_pre d = Err e
          \/ ev = EthersV6 /\ e = TypeError
          \/ ev = EthersV5
             /\ (sendTransaction h (RejoinValidatorSet.callParams d) 2400000 = inl e
                 \/ exists tx,
                      sendTransaction h (RejoinValidatorSet.callParams d) 2400000
                      = inr tx
                      /\ waitReceipt h tx = inl e)))
  /\ (forall ev h w d,
        outcome (RejoinValidatorSet.callAddValidator ev h w d) <> Returned).
Proof.
  split; [|split; [|split]].
  - intros h w d e. rewrite p000_call_eq. destruct (p000_call_pre d) as [[]|e0].
    + intros H. destruct (callOutcome_thrown _ _ _ H) as [Ht Hc]. tauto.
    + simpl. intros H. injection H as ->. split; [exists []; reflexivity|auto].
  - intros h w d. rewrite p000_call_eq. destruct (p000_call_pre d) as [[]|e0].
    + apply callOutcome_not_returned.
    + simpl. discriminate.
  - intros ev h w d e. rewrite rvs_call_eq. destruct (rvs_call_pre d) as [[]|e0].
    + intros H. destruct (rvs_callOutcome_thrown _ _ _ _ H) as [Ht Hc]. tauto.
    + simpl. intros H. injection H as ->. split; [exists []; reflexivity|auto].
  - intros ev h w d. rewrite rvs_call_eq. destruct (rvs_call_pre d) as [[]|e0].
    + apply rvs_callOutcome_not_returned.
    + simpl. discriminate.
Qed.

Lemma callAddValidator_rethrows_witness :
  ((exists t, trace (Part000.callAddValidator Samples.hostReverting
                       Samples.attesterAddress Samples.sampleExtractedP000) =
              t ++ [Log (MsgCallFailed (HostError (str "execution reverted")))])
   /\ (p000_call_pre Samples.sampleExtractedP000 =
         Err (HostError (str "execution reverted"))
       \/ sendTransaction Samples.hostReverting
            (Part000.callParams Samples.sampleExtractedP000)
            (gasLimitOf Samples.hostReverting
               (Part000.callParams Samples.sampleExtractedP000)) =
          inl (HostError (str "execution reverted"))
       \/ exists tx,
            sendTransaction Samples.hostReverting
              (Part000.callParams Samples.sampleExtractedP000)
              (gasLimitOf Samples.hostReverting
                 (Part000.callParams Samples.sampleExtractedP000)) = inr tx
            /\ waitReceipt Samples.hostReverting tx =
               inl (HostError (str "execution reverted"))))
  /\ exists t, trace (RejoinValidatorSet.callAddValidator EthersV6
                        (Samples.hostMatching Samples.arrayText)
                        Samples.attesterAddress Samples.sampleExtractedRVS) =
               t ++ [Log (MsgCallFailed TypeError)].
Proof.
  split.
  - apply (proj1 callAddValidator_rethrows
             Samples.hostReverting Samples.attesterAddress
             Samples.sampleExtractedP000 (HostError (str "execution reverted"))).
    reflexivity.
  - apply (proj1 (proj1 (proj2 (proj2 callAddValidator_rethrows))
                    EthersV6 (Samples.hostMatching Samples.arrayText)
                    Samples.attesterAddress Samples.sampleExtractedRVS
                    TypeError eq_refl)).
Defined.

(** ** More on [main] *)

Lemma rvs_checked_mainBody JSON_parse ev h w args d lowered :
  rvs_checked JSON_parse h w args d lowered ->
  RejoinValidatorSet.mainBody JSON_parse ev h =
  finish h w (RejoinValidatorSet.attester d) lowered
         (RejoinValidatorSet.callAddValidator ev h w d).
Proof.
  intros (Hpk & Hw & Hin & Hp & Hx & Hpre).
  apply jsstring_eqb_false in Hpk. apply jsstring_eqb_false in Hin.
  rewrite rvs_mainBody_eq. cbv zeta. rewrite Hpk, Hw, Hin, Hp, Hx, Hpre.
  reflexivity.
Qed.

Lemma p000_checked_mainBody JSON_parse isAddress h w args d lowered :
  p000_checked JSON_parse isAddress h w args d lowered ->
  Part000.mainBody JSON_parse isAddress h =
  finish h w (Part000.attester d) lowered (Part000.callAddValidator h w d).
Proof.
  intros (Hpk & Hw & Hp & Hx & Hpre).
  apply jsstring_eqb_false in Hpk.
  rewrite p000_mainBody_eq. cbv zeta. rewrite Hpk, Hw, Hp, Hx, Hpre.
  reflexivity.
Qed.

Lemma rvs_checked_unique JSON_parse h w args d lowered w' args' d' lowered' :
  rvs_checked JSON_parse h w args d lowered ->
  rvs_checked JSON_parse h w' args' d' lowered' ->
  w = w' /\ args = args' /\ d = d' /\ lowered = lowered'.
Proof.
  intros (_ & Hw & _ & Hp & Hx & Hpre) (_ & Hw' & _ & Hp' & Hx' & Hpre').
  assert (w = w') by congruence. assert (args = args') by congruence.
  subst. assert (d = d') by congruence. subst.
  assert (lowered = lowered') by congruence. auto.
Qed.

Lemma p000_checked_unique JSON_parse isAddress h w args d lowered w' args' d' lowered' :
  p000_checked JSON_parse isAddress h w args d lowered ->
  p000_checked JSON_parse isAddress h w' args' d' lowered' ->
  w = w' /\ args = args' /\ d = d' /\ lowered = lowered'.
Proof.
  intros (_ & Hw & Hp & Hx & Hpre) (_ & Hw' & Hp' & Hx' & Hpre').
  assert (w = w') by congruence. assert (args = args') by congruence.
  subst. assert (d = d') by congruence. subst.
  assert (lowered = lowered') by congruence. auto.
Qed.

(** A run either gets as far as the address check, or stops before it
    with one of a few short traces. *)
Lemma rvs_main_cases JSON_parse ev h :
  (exists w args d lowered, rvs_checked JSON_parse h w args d lowered)
  \/ ((forall w args d lowered, ~ rvs_checked JSON_parse h w args d lowered)
      /\ (RejoinValidatorSet.mainBody JSON_parse ev h =
            ([Asked AskPrivateKey; Log MsgNoPrivateKey], Returned)
          \/ (exists e, RejoinValidatorSet.mainBody JSON_parse ev h =
                ([Asked AskPrivateKey], Thrown e))
          \/ RejoinValidatorSet.mainBody JSON_parse ev h =
               (asked2 ++ [Log MsgNoArgs], Returned)
          \/ (exists e, RejoinValidatorSet.mainBody JSON_parse ev h =
                (asked2, Thrown e)))).
Proof.
  rewrite rvs_mainBody_eq. cbv zeta.
  destruct (jsstring_eqb (trim (answer h AskPrivateKey)) []) eqn:Epk.
  { right. split; [|auto]. intros w args d lowered (Hpk & _).
    apply jsstring_eqb_eq in Epk. contradiction. }
  destruct (newWallet h (trim (answer h AskPrivateKey))) as [e|w] eqn:Ew.
  { right. split; [|eauto]. intros w args d lowered (_ & Hw & _). congruence. }
  destruct (jsstring_eqb (trim (answer h AskArgs)) []) eqn:Ein.
  { right. split; [|auto]. intros w' args d lowered (_ & _ & Hin & _).
    apply jsstring_eqb_eq in Ein. contradiction. }
  destruct (RejoinValidatorSet.parseArgsData JSON_parse (trim (answer h AskArgs)))
    as [args|e] eqn:Ep.
  2:{ right. split; [|eauto 6]. intros w' args d lowered (_ & _ & _ & Hp & _).
      congruence. }
  destruct (RejoinValidatorSet.extractDataFromArgs JSON_parse args) as [d|e] eqn:Ex.
  2:{ right. split; [|eauto 6].
      intros w' args' d lowered (_ & _ & _ & Hp & Hx & _). congruence. }
  destruct (rvs_preflight d) as [lowered|e] eqn:Epre.
  2:{ right. split; [|eauto 6].
      intros w' args' d' lowered (_ & _ & _ & Hp & Hx & Hpre). congruence. }
  left. exists w, args, d, lowered.
  apply jsstring_eqb_false in Epk. apply jsstring_eqb_false in Ein.
  repeat split; assumption.
Qed.

Lemma p000_main_cases JSON_parse isAddress h :
  (exists w args d lowered, p000_checked JSON_parse isAddress h w args d lowered)
  \/ ((forall w args d lowered,
          ~ p000_checked JSON_parse isAddress h w args d lowered)
      /\ (Part000.mainBody JSON_parse isAddress h =
            ([Asked AskPrivateKey; Log MsgNoPrivateKey], Returned)
          \/ (exists e, Part000.mainBody JSON_parse isAddress h =
                ([Asked AskPrivateKey], Thrown e))
          \/ (exists e, Part000.mainBody JSON_parse isAddress h =
                (asked2, Thrown e)))).
Proof.
  rewrite p000_mainBody_eq. cbv zeta.
  destruct (jsstring_eqb (trim (answer h AskPrivateKey)) []) eqn:Epk.
  { right. split; [|auto]. intros w args d lowered (Hpk & _).
    apply jsstring_eqb_eq in Epk. contradiction. }
  destruct (newWallet h (trim (answer h AskPrivateKey))) as [e|w] eqn:Ew.
  { right. split; [|eauto]. intros w args d lowered (_ & Hw & _). congruence. }
  destruct (Part000.parseArgsData JSON_parse (trim (answer h AskArgs)))
    as [args|e] eqn:Ep.
  2:{ right. split; [|eauto 6]. intros w' args d lowered (_ & _ & Hp & _).
      congruence. }
  destruct (Part000.extractDataFromArgs JSON_parse isAddress args) as [d|e] eqn:Ex.
  2:{ right. split; [|eauto 6].
      intros w' args' d lowered (_ & _ & Hp & Hx & _). congruence. }
  destruct (p000_preflight d) as [lowered|e] eqn:Epre.
  2:{ right. split; [|eauto 6].
      intros w' args' d' lowered (_ & _ & Hp & Hx & Hpre). congruence. }
  left. exists w, args, d, lowered.
  apply jsstring_eqb_false in Epk.
  repeat split; assumption.
Qed.

Lemma rvs_main_trace JSON_parse ev h :
  trace (RejoinValidatorSet.main JSON_parse ev h) =
  trace (RejoinValidatorSet.mainBody JSON_parse ev h)
  ++ match outcome (RejoinValidatorSet.mainBody JSON_parse ev h) with
     | Thrown e => [Log MsgFailed; Log (MsgErrorMessage e); Log MsgTroubleshooting]
     | _ => []
     end.
Proof.
  unfold RejoinValidatorSet.main. rewrite trace_tryCatch.
  destruct (outcome (RejoinValidatorSet.mainBody JSON_parse ev h)); reflexivity.
Qed.

Lemma p000_main_trace JSON_parse isAddress h :
  trace (Part000.main JSON_parse isAddress h) =
  trace (Part000.mainBody JSON_parse isAddress h)
  ++ match outcome (Part000.mainBody JSON_parse isAddress h) with
     | Thrown e => [Log MsgFailed; Log (MsgErrorMessage e); Log MsgTroubleshooting]
     | _ => []
     end.
Proof.
  unfold Part000.main. rewrite trace_tryCatch.
  destruct (outcome (Part000.mainBody JSON_parse isAddress h)); reflexivity.
Qed.

(** Only the body of [main] asks questions and talks to the network: the
    [catch] block prints. *)
Lemma rvs_main_filter_events (f : event -> bool) JSON_parse ev h :
  (forall m, f (Log m) = false) ->
  filter f (trace (RejoinValidatorSet.main JSON_parse ev h)) =
  filter f (trace (RejoinValidatorSet.mainBody JSON_parse ev h)).
Proof.
  intros Hf. rewrite rvs_main_trace, filter_app.
  destruct (outcome (RejoinValidatorSet.mainBody JSON_parse ev h)); simpl;
    rewrite ?Hf, app_nil_r; reflexivity.
Qed.

Lemma p000_main_filter_events (f : event -> bool) JSON_parse isAddress h :
  (forall m, f (Log m) = false) ->
  filter f (trace (Part000.main JSON_parse isAddress h)) =
  filter f (trace (Part000.mainBody JSON_parse isAddress h)).
Proof.
  intros Hf. rewrite p000_main_trace, filter_app.
  destruct (outcome (Part000.mainBody JSON_parse isAddress h)); simpl;
    rewrite ?Hf, app_nil_r; reflexivity.
Qed.

Lemma callOutcome_prompts h ps : filter isAsked (trace (callOutcome h ps)) = [].
Proof.
  unfold callOutcome, callPrefix.
  destruct (sendTransaction h ps (gasLimitOf h ps)) as [e|tx];
    [|destruct (waitReceipt h tx)];
    destruct (estimateGas h ps); reflexivity.
Qed.

Lemma rvs_callOutcome_prompts ev h ps :
  filter isAsked (trace (rvs_callOutcome ev h ps)) = [].
Proof.
  unfold rvs_callOutcome. destruct ev.
  - destruct (sendTransaction h ps 2400000) as [e|tx];
      [|destruct (waitReceipt h tx)]; reflexivity.
  - destruct (estimateGas h ps); reflexivity.
Qed.

Lemma rvs_call_prompts ev h w d :
  filter isAsked (trace (RejoinValidatorSet.callAddValidator ev h w d)) = [].
Proof.
  destruct (call_cases_rvs ev h w d) as [[e ->]| ->];
    [reflexivity|apply rvs_callOutcome_prompts].
Qed.

Lemma p000_call_prompts h w d :
  filter isAsked (trace (Part000.callAddValidator h w d)) = [].
Proof.
  destruct (call_cases_p000 h w d) as [[e ->]| ->];
    [reflexivity|apply callOutcome_prompts].
Qed.

Lemma confirmation_prompts h w att lowered :
  filter isAsked (trace (confirmation h w att lowered)) =
  if jsstring_eqb (toLowerCase w) lowered then [] else [Asked AskProceed].
Proof.
  unfold confirmation, getUserInput.
  destruct (jsstring_eqb (toLowerCase w) lowered); simpl; [reflexivity|].
  destruct (negb (jsstring_eqb (toLowerCase (trim (answer h AskProceed))) (str "y")));
    reflexivity.
Qed.

Lemma confirmation_rpc h w att lowered :
  filter isRpc (trace (confirmation h w att lowered)) = [].
Proof.
  unfold confirmation, getUserInput.
  destruct (jsstring_eqb (toLowerCase w) lowered); simpl; [reflexivity|].
  destruct (negb (jsstring_eqb (toLowerCase (trim (answer h AskProceed))) (str "y")));
    reflexivity.
Qed.

Lemma finish_prompts h w att lowered c :
  filter isAsked (trace c) = [] ->
  filter isAsked (trace (finish h w att lowered c)) =
  asked2 ++ if jsstring_eqb (toLowerCase w) lowered then [] else [Asked AskProceed].
Proof.
  intros Hc. rewrite finish_trace, !filter_app, confirmation_prompts.
  change (filter isAsked asked2) with asked2. f_equal.
  destruct (declined h w lowered); [apply app_nil_r|].
  rewrite filter_app, Hc.
  destruct (outcome c); simpl; apply app_nil_r.
Qed.

Lemma finish_rpc h w att lowered c :
  filter isRpc (trace (finish h w att lowered c)) =
  if declined h w lowered then [] else filter isRpc (trace c).
Proof.
  rewrite finish_trace, !filter_app, confirmation_rpc. simpl.
  destruct (declined h w lowered); [reflexivity|].
  rewrite filter_app. destruct (outcome c); simpl; rewrite ?app_nil_r; reflexivity.
Qed.

(** X16.  A blank answer ends the run at once.  When the private key is
    blank, both revisions print that no key was given and return: no wallet
    is built and nothing further is asked.  When the pasted text is blank,
    the first revision prints that no data was given and returns, whereas
    the second, which has no such test, lets [parseArgsData] raise and
    reports the failure. *)
Theorem main_blank_answers :
  (forall JSON_parse ev h,
      trim (answer h AskPrivateKey) = [] ->
      RejoinValidatorSet.main JSON_parse ev h =
        ([Asked AskPrivateKey; Log MsgNoPrivateKey], Returned))
  /\
  (forall JSON_parse isAddress h,
      trim (answer h AskPrivateKey) = [] ->
      Part000.main JSON_parse isAddress h =
        ([Asked AskPrivateKey; Log MsgNoPrivateKey], Returned))
  /\
  (forall JSON_parse ev h w,
      trim (answer h AskPrivateKey) <> [] ->
      newWallet h (trim (answer h AskPrivateKey)) = inr w ->
      trim (answer h AskArgs) = [] ->
      RejoinValidatorSet.main JSON_parse ev h = (asked2 ++ [Log MsgNoArgs], Returned))
  /\
  (forall JSON_parse isAddress h w,
      trim (answer h AskPrivateKey) <> [] ->
      newWallet h (trim (answer h AskPrivateKey)) = inr w ->
      trim (answer h AskArgs) = [] ->
      Part000.main JSON_parse isAddress h =
        (asked2 ++ [Log MsgFailed; Log (MsgErrorMessage NoInputData);
                    Log MsgTroubleshooting], Normal tt)).
Proof.
  split; [|split; [|split]].
  - intros JSON_parse ev h Hpk. unfold RejoinValidatorSet.main.
    rewrite rvs_mainBody_eq. cbv zeta. rewrite Hpk. reflexivity.
  - intros JSON_parse isAddress h Hpk. unfold Part000.main.
    rewrite p000_mainBody_eq. cbv zeta. rewrite Hpk. reflexivity.
  - intros JSON_parse ev h w Hpk Hw Hin. apply jsstring_eqb_false in Hpk.
    unfold RejoinValidatorSet.main.
    rewrite rvs_mainBody_eq. cbv zeta. rewrite Hpk, Hw, Hin. reflexivity.
  - intros JSON_parse isAddress h w Hpk Hw Hin. apply jsstring_eqb_false in Hpk.
    unfold Part000.main.
    rewrite p000_mainBody_eq. cbv zeta. rewrite Hpk, Hw, Hin. reflexivity.
Qed.

Lemma main_blank_answers_witness :
  RejoinValidatorSet.main JSON.parse EthersV5 Samples.hostNoKey =
    ([Asked AskPrivateKey; Log MsgNoPrivateKey], Returned)
  /\ RejoinValidatorSet.main JSON.parse EthersV5 Samples.hostNoArgs =
       (asked2 ++ [Log MsgNoArgs], Returned)
  /\ Part000.main JSON.parse Samples.isLowerHexAddress Samples.hostNoArgs =
       (asked2 ++ [Log MsgFailed; Log (MsgErrorMessage NoInputData);
                   Log MsgTroubleshooting], Normal tt).
Proof.
  split; [|split].
  - apply (proj1 main_blank_answers JSON.parse EthersV5 Samples.hostNoKey). reflexivity.
  - apply (proj1 (proj2 (proj2 main_blank_answers)) JSON.parse EthersV5 Samples.hostNoArgs
             Samples.attesterAddress);
      [vm_compute; discriminate|reflexivity|reflexivity].
  - apply (proj2 (proj2 (proj2 main_blank_answers)) JSON.parse
             Samples.isLowerHexAddress Samples.hostNoArgs Samples.attesterAddress);
      [vm_compute; discriminate|reflexivity|reflexivity].
Defined.

(** X17.  [main] asks at most three questions, always in the order
    private key, pasted data, confirmation.  The confirmation question is
    asked exactly in the runs that got as far as the address check with a
    wallet address that differs, after lowering, from the extracted
    attester address. *)
Theorem main_questions :
  (forall JSON_parse ev h,
      (filter isAsked (trace (RejoinValidatorSet.main JSON_parse ev h)) = [Asked AskPrivateKey]
       \/ filter isAsked (trace (RejoinValidatorSet.main JSON_parse ev h)) = asked2
       \/ filter isAsked (trace (RejoinValidatorSet.main JSON_parse ev h)) =
          asked2 ++ [Asked AskProceed])
      /\ (In (Asked AskProceed) (trace (RejoinValidatorSet.main JSON_parse ev h))
          <-> exists w args d lowered,
                rvs_checked JSON_parse h w args d lowered
                /\ toLowerCase w <> lowered))
  /\
  (forall JSON_parse isAddress h,
      (filter isAsked (trace (Part000.main JSON_parse isAddress h)) = [Asked AskPrivateKey]
       \/ filter isAsked (trace (Part000.main JSON_parse isAddress h)) = asked2
       \/ filter isAsked (trace (Part000.main JSON_parse isAddress h)) =
          asked2 ++ [Asked AskProceed])
      /\ (In (Asked AskProceed) (trace (Part000.main JSON_parse isAddress h))
          <-> exists w args d lowered,
                p000_checked JSON_parse isAddress h w args d lowered
                /\ toLowerCase w <> lowered)).
Proof.
  split.
  - intros JSON_parse ev h.
    assert (Hin : forall q,
               In (Asked q) (trace (RejoinValidatorSet.main JSON_parse ev h)) <->
               In (Asked q) (filter isAsked (trace (RejoinValidatorSet.main JSON_parse ev h)))).
    { intros q. rewrite filter_In. simpl. tauto. }
    rewrite Hin.
    rewrite (rvs_main_filter_events isAsked JSON_parse ev h (fun _ => eq_refl)).
    destruct (rvs_main_cases JSON_parse ev h)
      as [(w & args & d & lowered & Hc)|[Hno [H|[[e H]|[H|[e H]]]]]].
    + rewrite (rvs_checked_mainBody JSON_parse ev h _ _ _ _ Hc).
      rewrite (finish_prompts h w _ lowered _ (rvs_call_prompts ev h w d)).
      destruct (jsstring_eqb (toLowerCase w) lowered) eqn:E.
      * split; [right; left; apply app_nil_r|].
        apply jsstring_eqb_eq in E. split.
        -- simpl. intros [H|[H|[]]]; discriminate.
        -- intros (w' & args' & d' & lowered' & Hc' & Hne).
           destruct (rvs_checked_unique _ _ _ _ _ _ _ _ _ _ Hc Hc')
             as (-> & _ & _ & ->). contradiction.
      * split; [right; right; reflexivity|].
        apply jsstring_eqb_false in E. split.
        -- intros _. exists w, args, d, lowered. auto.
        -- intros _. simpl. auto.
    + rewrite H. split; [left; reflexivity|]. split.
      * simpl. intros [H'|[]]; discriminate.
      * intros (w & args & d & lowered & Hc & _). destruct (Hno _ _ _ _ Hc).
    + rewrite H. split; [left; reflexivity|]. split.
      * simpl. intros [H'|[]]; discriminate.
      * intros (w & args & d & lowered & Hc & _). destruct (Hno _ _ _ _ Hc).
    + rewrite H. split; [right; left; reflexivity|]. split.
      * simpl. intros [H'|[H'|[]]]; discriminate.
      * intros (w & args & d & lowered & Hc & _). destruct (Hno _ _ _ _ Hc).
    + rewrite H. split; [right; left; reflexivity|]. split.
      * simpl. intros [H'|[H'|[]]]; discriminate.
      * intros (w & args & d & lowered & Hc & _). destruct (Hno _ _ _ _ Hc).
  - intros JSON_parse isAddress h.
    assert (Hin : forall q,
               In (Asked q) (trace (Part000.main JSON_parse isAddress h)) <->
               In (Asked q) (filter isAsked (trace (Part000.main JSON_parse isAddress h)))).
    { intros q. rewrite filter_In. simpl. tauto. }
    rewrite Hin.
    rewrite (p000_main_filter_events isAsked JSON_parse isAddress h (fun _ => eq_refl)).
    destruct (p000_main_cases JSON_parse isAddress h)
      as [(w & args & d & lowered & Hc)|[Hno [H|[[e H]|[e H]]]]].
    + rewrite (p000_checked_mainBody _ _ _ _ _ _ _ Hc).
      rewrite (finish_prompts h w _ lowered _ (p000_call_prompts h w d)).
      destruct (jsstring_eqb (toLowerCase w) lowered) eqn:E.
      * split; [right; left; apply app_nil_r|].
        apply jsstring_eqb_eq in E. split.
        -- simpl. intros [H|[H|[]]]; discriminate.
        -- intros (w' & args' & d' & lowered' & Hc' & Hne).
           destruct (p000_checked_unique _ _ _ _ _ _ _ _ _ _ _ Hc Hc')
             as (-> & _ & _ & ->). contradiction.
      * split; [right; right; reflexivity|].
        apply jsstring_eqb_false in E. split.
        -- intros _. exists w, args, d, lowered. auto.
        -- intros _. simpl. auto.
    + rewrite H. split; [left; reflexivity|]. split.
      * simpl. intros [H'|[]]; discriminate.
      * intros (w & args & d & lowered & Hc & _). destruct (Hno _ _ _ _ Hc).
    + rewrite H. split; [left; reflexivity|]. split.
      * simpl. intros [H'|[]]; discriminate.
      * intros (w & args & d & lowered & Hc & _). destruct (Hno _ _ _ _ Hc).
    + rewrite H. split; [right; left; reflexivity|]. split.
      * simpl. intros [H'|[H'|[]]]; discriminate.
      * intros (w & args & d & lowered & Hc & _). destruct (Hno _ _ _ _ Hc).
Qed.

Lemma main_questions_witness :
  In (Asked AskProceed)
     (trace (RejoinValidatorSet.main JSON.parse EthersV5
               (Samples.hostMismatch Samples.arrayText (str "y")))).
Proof.
  apply (proj2 (proj2 (proj1 main_questions JSON.parse EthersV5
                         (Samples.hostMismatch Samples.arrayText (str "y"))))).
  exists Samples.otherAddress, Samples.sampleArgs, Samples.sampleExtractedRVS,
    Samples.attesterAddress.
  split.
  - unfold rvs_checked. repeat split; try (vm_compute; discriminate);
      vm_compute; reflexivity.
  - vm_compute. discriminate.
Defined.

(** X18.  [main] talks to the RPC endpoint only in runs that got as far as
    the address check and were not cancelled at the confirmation: every
    other run, and in particular a declined one, sends nothing, not even
    the gas estimate.  In the runs that do, the requests are those of the
    one [callAddValidator] call on the extracted data. *)
Theorem main_rpc_only_after_checks :
  (forall JSON_parse ev h,
      filter isRpc (trace (RejoinValidatorSet.main JSON_parse ev h)) = []
      \/ exists w args d lowered,
           rvs_checked JSON_parse h w args d lowered
           /\ declined h w lowered = false
           /\ filter isRpc (trace (RejoinValidatorSet.main JSON_parse ev h)) =
              filter isRpc (trace (RejoinValidatorSet.callAddValidator ev h w d)))
  /\
  (forall JSON_parse isAddress h,
      filter isRpc (trace (Part000.main JSON_parse isAddress h)) = []
      \/ exists w args d lowered,
           p000_checked JSON_parse isAddress h w args d lowered
           /\ declined h w lowered = false
           /\ filter isRpc (trace (Part000.main JSON_parse isAddress h)) =
              filter isRpc (trace (Part000.callAddValidator h w d))).
Proof.
  split.
  - intros JSON_parse ev h.
    rewrite (rvs_main_filter_events isRpc JSON_parse ev h (fun _ => eq_refl)).
    destruct (rvs_main_cases JSON_parse ev h)
      as [(w & args & d & lowered & Hc)|[Hno [H|[[e H]|[H|[e H]]]]]];
      try (rewrite H; left; reflexivity).
    rewrite (rvs_checked_mainBody JSON_parse ev h _ _ _ _ Hc), finish_rpc.
    destruct (declined h w lowered) eqn:Ed; [left; reflexivity|].
    right. exists w, args, d, lowered. auto.
  - intros JSON_parse isAddress h.
    rewrite (p000_main_filter_events isRpc JSON_parse isAddress h (fun _ => eq_refl)).
    destruct (p000_main_cases JSON_parse isAddress h)
      as [(w & args & d & lowered & Hc)|[Hno [H|[[e H]|[e H]]]]];
      try (rewrite H; left; reflexivity).
    rewrite (p000_checked_mainBody _ _ _ _ _ _ _ Hc), finish_rpc.
    destruct (declined h w lowered) eqn:Ed; [left; reflexivity|].
    right. exists w, args, d, lowered. auto.
Qed.

Lemma callOutcome_logs h ps r :
  ~ In (Log (MsgSuccess r)) (trace (callOutcome h ps))
  /\ ~ In (Log MsgFailed) (trace (callOutcome h ps)).
Proof.
  unfold callOutcome, callPrefix.
  destruct (sendTransaction h ps (gasLimitOf h ps)) as [e|tx];
    [|destruct (waitReceipt h tx)];
    destruct (estimateGas h ps); simpl; split; intros H;
    repeat (destruct H as [H|H]; [discriminate|]); exact H.
Qed.

Lemma rvs_callOutcome_logs ev h ps r :
  ~ In (Log (MsgSuccess r)) (trace (rvs_callOutcome ev h ps))
  /\ ~ In (Log MsgFailed) (trace (rvs_callOutcome ev h ps)).
Proof.
  unfold rvs_callOutcome. destruct ev.
  - destruct (sendTransaction h ps 2400000) as [e|tx];
      [|destruct (waitReceipt h tx)]; simpl; split; intros H;
      repeat (destruct H as [H|H]; [discriminate|]); exact H.
  - destruct (estimateGas h ps); simpl; split; intros H;
      repeat (destruct H as [H|H]; [discriminate|]); exact H.
Qed.

Lemma rvs_call_logs ev h w d r :
  ~ In (Log (MsgSuccess r)) (trace (RejoinValidatorSet.callAddValidator ev h w d))
  /\ ~ In (Log MsgFailed) (trace (RejoinValidatorSet.callAddValidator ev h w d)).
Proof.
  destruct (call_cases_rvs ev h w d) as [[e ->]| ->]; [|apply rvs_callOutcome_logs].
  simpl. split; intros [H|[]]; discriminate.
Qed.

Lemma p000_call_logs h w d r :
  ~ In (Log (MsgSuccess r)) (trace (Part000.callAddValidator h w d))
  /\ ~ In (Log MsgFailed) (trace (Part000.callAddValidator h w d)).
Proof.
  destruct (call_cases_p000 h w d) as [[e ->]| ->]; [|apply callOutcome_logs].
  simpl. split; intros [H|[]]; discriminate.
Qed.

Lemma confirmation_logs h w att lowered r :
  ~ In (Log (MsgSuccess r)) (trace (confirmation h w att lowered))
  /\ ~ In (Log MsgFailed) (trace (confirmation h w att lowered)).
Proof.
  unfold confirmation, getUserInput.
  destruct (negb (jsstring_eqb (toLowerCase w) lowered)); simpl;
    [|split; intros []].
  destruct (negb (jsstring_eqb (toLowerCase (trim (answer h AskProceed))) (str "y")));
    simpl; split; intros H;
    repeat (destruct H as [H|H]; [discriminate|]); exact H.
Qed.

(** The success line of a run that reached the address check. *)
Lemma finish_success h w att lowered (c : M receipt) r :
  (forall r', ~ In (Log (MsgSuccess r')) (trace c)) ->
  ~ In (Log MsgFailed) (trace c) ->
  (In (Log (MsgSuccess r)) (trace (finish h w att lowered c))
   <-> declined h w lowered = false /\ outcome c = Normal r)
  /\ ~ In (Log MsgFailed) (trace (finish h w att lowered c)).
Proof.
  intros Hs Hf. rewrite finish_trace.
  destruct (confirmation_logs h w att lowered r) as [Cs Cf].
  split.
  - rewrite !in_app_iff. split.
    + intros [H|[H|H]].
      * simpl in H. destruct H as [H|[H|[]]]; discriminate.
      * contradiction.
      * destruct (declined h w lowered); [destruct H|].
        split; [reflexivity|]. apply in_app_iff in H. destruct H as [H|H].
        -- destruct (Hs _ H).
        -- destruct (outcome c) as [r'| |e]; [|destruct H|destruct H].
           destruct H as [H|[]]. congruence.
    + intros [Hd Hc]. right. right. rewrite Hd, Hc.
      apply in_app_iff. right. left. reflexivity.
  - rewrite !in_app_iff. intros [H|[H|H]].
    + simpl in H. destruct H as [H|[H|[]]]; discriminate.
    + contradiction.
    + destruct (declined h w lowered); [destruct H|].
      apply in_app_iff in H. destruct H as [H|H]; [contradiction|].
      destruct (outcome c); [|destruct H|destruct H].
      destruct H as [H|[]]. discriminate.
Qed.

(** X19.  [main] prints the success line with a receipt exactly when the
    run reached the address check, was not cancelled, and [callAddValidator]
    returned that receipt; such a run prints no failure line and completes
    normally.  So a success is never announced for a transaction that was
    not submitted and mined, and never together with a failure. *)
Theorem main_success_line :
  (forall JSON_parse ev h r,
      (In (Log (MsgSuccess r)) (trace (RejoinValidatorSet.main JSON_parse ev h))
       <-> exists w args d lowered,
             rvs_checked JSON_parse h w args d lowered
             /\ declined h w lowered = false
             /\ outcome (RejoinValidatorSet.callAddValidator ev h w d) = Normal r)
      /\ (In (Log (MsgSuccess r)) (trace (RejoinValidatorSet.main JSON_parse ev h)) ->
          ~ In (Log MsgFailed) (trace (RejoinValidatorSet.main JSON_parse ev h))
          /\ outcome (RejoinValidatorSet.main JSON_parse ev h) = Normal tt))
  /\
  (forall JSON_parse isAddress h r,
      (In (Log (MsgSuccess r)) (trace (Part000.main JSON_parse isAddress h))
       <-> exists w args d lowered,
             p000_checked JSON_parse isAddress h w args d lowered
             /\ declined h w lowered = false
             /\ outcome (Part000.callAddValidator h w d) = Normal r)
      /\ (In (Log (MsgSuccess r)) (trace (Part000.main JSON_parse isAddress h)) ->
          ~ In (Log MsgFailed) (trace (Part000.main JSON_parse isAddress h))
          /\ outcome (Part000.main JSON_parse isAddress h) = Normal tt)).
Proof.
  split.
  - intros JSON_parse ev h r.
    assert (Hmain : In (Log (MsgSuccess r)) (trace (RejoinValidatorSet.main JSON_parse ev h))
                    <-> In (Log (MsgSuccess r))
                           (trace (RejoinValidatorSet.mainBody JSON_parse ev h))).
    { rewrite rvs_main_trace, in_app_iff. split; [|auto]. intros [H|H]; [exact H|].
      destruct (outcome (RejoinValidatorSet.mainBody JSON_parse ev h));
        [destruct H|destruct H|].
      simpl in H. repeat (destruct H as [H|H]; [discriminate|]). destruct H. }
    destruct (rvs_main_cases JSON_parse ev h)
      as [(w & args & d & lowered & Hc)|[Hno Hearly]].
    + pose proof (rvs_checked_mainBody JSON_parse ev h _ _ _ _ Hc) as Hb.
      destruct (finish_success h w (RejoinValidatorSet.attester d) lowered
                  (RejoinValidatorSet.callAddValidator ev h w d) r
                  (fun r' => proj1 (rvs_call_logs ev h w d r'))
                  (proj2 (rvs_call_logs ev h w d r))) as [Hs Hf].
      rewrite <- Hb in Hs, Hf.
      assert (Hiff : In (Log (MsgSuccess r)) (trace (RejoinValidatorSet.main JSON_parse ev h))
                     <-> exists w args d lowered,
                           rvs_checked JSON_parse h w args d lowered
                           /\ declined h w lowered = false
                           /\ outcome (RejoinValidatorSet.callAddValidator ev h w d) = Normal r).
      { rewrite Hmain, Hs. split.
        - intros [Hd Ho]. exists w, args, d, lowered. auto.
        - intros (w' & args' & d' & lowered' & Hc' & Hd & Ho).
          destruct (rvs_checked_unique _ _ _ _ _ _ _ _ _ _ Hc Hc')
            as (-> & _ & -> & ->). auto. }
      split; [exact Hiff|].
      intros Hin. apply Hmain, Hs in Hin. destruct Hin as [Hd Ho].
      assert (Hob : outcome (RejoinValidatorSet.mainBody JSON_parse ev h) = Normal tt).
      { rewrite Hb, finish_outcome, Hd, Ho. reflexivity. }
      split.
      * rewrite rvs_main_trace, Hob, app_nil_r. exact Hf.
      * unfold RejoinValidatorSet.main. rewrite outcome_tryCatch, Hob. reflexivity.
    + assert (Hnot : ~ In (Log (MsgSuccess r))
                       (trace (RejoinValidatorSet.mainBody JSON_parse ev h))).
      { destruct Hearly as [H|[[e H]|[H|[e H]]]]; rewrite H; simpl; intros Hin;
          repeat (destruct Hin as [Hin|Hin]; [discriminate|]); exact Hin. }
      split.
      * rewrite Hmain. split; [intros H; destruct (Hnot H)|].
        intros (w & args & d & lowered & Hc & _). destruct (Hno _ _ _ _ Hc).
      * intros H. apply Hmain in H. destruct (Hnot H).
  - intros JSON_parse isAddress h r.
    assert (Hmain : In (Log (MsgSuccess r)) (trace (Part000.main JSON_parse isAddress h))
                    <-> In (Log (MsgSuccess r))
                           (trace (Part000.mainBody JSON_parse isAddress h))).
    { rewrite p000_main_trace, in_app_iff. split; [|auto]. intros [H|H]; [exact H|].
      destruct (outcome (Part000.mainBody JSON_parse isAddress h));
        [destruct H|destruct H|].
      simpl in H. repeat (destruct H as [H|H]; [discriminate|]). destruct H. }
    destruct (p000_main_cases JSON_parse isAddress h)
      as [(w & args & d & lowered & Hc)|[Hno Hearly]].
    + pose proof (p000_checked_mainBody _ _ _ _ _ _ _ Hc) as Hb.
      destruct (finish_success h w (Part000.attester d) lowered
                  (Part000.callAddValidator h w d) r
                  (fun r' => proj1 (p000_call_logs h w d r'))
                  (proj2 (p000_call_logs h w d r))) as [Hs Hf].
      rewrite <- Hb in Hs, Hf.
      assert (Hiff : In (Log (MsgSuccess r)) (trace (Part000.main JSON_parse isAddress h))
                     <-> exists w args d lowered,
                           p000_checked JSON_parse isAddress h w args d lowered
                           /\ declined h w lowered = false
                           /\ outcome (Part000.callAddValidator h w d) = Normal r).
      { rewrite Hmain, Hs. split.
        - intros [Hd Ho]. exists w, args, d, lowered. auto.
        - intros (w' & args' & d' & lowered' & Hc' & Hd & Ho).
          destruct (p000_checked_unique _ _ _ _ _ _ _ _ _ _ _ Hc Hc')
            as (-> & _ & -> & ->). auto. }
      split; [exact Hiff|].
      intros Hin. apply Hmain, Hs in Hin. destruct Hin as [Hd Ho].
      assert (Hob : outcome (Part000.mainBody JSON_parse isAddress h) = Normal tt).
      { rewrite Hb, finish_outcome, Hd, Ho. reflexivity. }
      split.
      * rewrite p000_main_trace, Hob, app_nil_r. exact Hf.
      * unfold Part000.main. rewrite outcome_tryCatch, Hob. reflexivity.
    + assert (Hnot : ~ In (Log (MsgSuccess r))
                       (trace (Part000.mainBody JSON_parse isAddress h))).
      { destruct Hearly as [H|[[e H]|[e H]]]; rewrite H; simpl; intros Hin;
          repeat (destruct Hin as [Hin|Hin]; [discriminate|]); exact Hin. }
      split.
      * rewrite Hmain. split; [intros H; destruct (Hnot H)|].
        intros (w & args & d & lowered & Hc & _). destruct (Hno _ _ _ _ Hc).
      * intros H. apply Hmain in H. destruct (Hnot H).
Qed.

Lemma main_success_line_witness :
  ~ In (Log MsgFailed)
       (trace (Part000.main JSON.parse Samples.isLowerHexAddress
                 (Samples.hostMatching Samples.arrayText)))
  /\ outcome (Part000.main JSON.parse Samples.isLowerHexAddress
                (Samples.hostMatching Samples.arrayText)) = Normal tt.
Proof.
  apply (proj2 (proj2 main_success_line JSON.parse Samples.isLowerHexAddress
                  (Samples.hostMatching Samples.arrayText) Samples.sampleReceipt)).
  vm_compute. tauto.
Defined.

(** ** The two revisions on the same tuple *)

Lemma parsePart_agree JSON_parse e :
  isBlank e = false ->
  RejoinValidatorSet.parsePart JSON_parse e = Part000.parsePart JSON_parse e.
Proof.
  unfold isBlank, RejoinValidatorSet.parsePart, Part000.parsePart. cbv zeta.
  destruct (trim e) as [|c r] eqn:E; [discriminate|]. intros _.
  destruct (startsWith [c_lbrace] (c :: r) && endsWith [c_rbrace] (c :: r));
    [reflexivity|].
  destruct (startsWith [c_lbracket] (c :: r) && endsWith [c_rbracket] (c :: r));
    reflexivity.
Qed.

Lemma parsePart_blank JSON_parse e :
  isBlank e = true ->
  RejoinValidatorSet.parsePart JSON_parse e = VStr []
  /\ Part000.parsePart JSON_parse e = VNull.
Proof.
  unfold isBlank, RejoinValidatorSet.parsePart, Part000.parsePart. cbv zeta.
  destruct (trim e) as [|c r] eqn:E; [|discriminate]. intros _.
  split; reflexivity.
Qed.

(** X20.  On a text that both revisions clean to the same tuple, with
    elements well nested for both, the two [parseArgsData] return arrays
    of the same length that agree at every non-blank element; a blank
    element that is not the last becomes the empty string in the first
    revision and [null] in the second.  So the two results are equal when
    no element before the last is blank. *)
Theorem parseArgsData_revisions_on_tuples :
  forall JSON_parse input es,
    Forall rvs_element es ->
    Forall p000_element es ->
    RejoinValidatorSet.cleanInput input = tuple es ->
    Part000.cleanInput input = tuple es ->
    exists l1 l2,
      RejoinValidatorSet.parseArgsData JSON_parse input = Ok (VArr l1)
      /\ Part000.parseArgsData JSON_parse input = Ok (VArr l2)
      /\ List.length l1 = List.length (kept es)
      /\ List.length l2 = List.length (kept es)
      /\ (forall i e, nth_error (kept es) i = Some e ->
            if isBlank e
            then nth_error l1 i = Some (VStr []) /\ nth_error l2 i = Some VNull
            else nth_error l1 i = nth_error l2 i)
      /\ (Forall (fun e => isBlank e = false) (kept es) -> l1 = l2).
Proof.
  intros JSON_parse input es H1 H2 Hc1 Hc2.
  exists (map (RejoinValidatorSet.parsePart JSON_parse) (kept es)),
         (map (Part000.parsePart JSON_parse) (kept es)).
  split; [|split; [|split; [|split; [|split]]]].
  - rewrite (rvs_parse_tuple JSON_parse input es H1 Hc1), map_map.
    do 2 f_equal. apply map_ext. intros x. apply rvs_parsePart_trim.
  - rewrite (p000_parse_tuple JSON_parse input es H2 Hc2), map_map.
    do 2 f_equal. apply map_ext. intros x. apply p000_parsePart_trim.
  - apply length_map.
  - apply length_map.
  - intros i e Hi. rewrite !nth_error_map, Hi. simpl.
    destruct (isBlank e) eqn:Eb.
    + destruct (parsePart_blank JSON_parse e Eb) as [-> ->]. auto.
    + rewrite (parsePart_agree JSON_parse e Eb). reflexivity.
  - intros Hall. apply map_ext_in. intros e He.
    apply parsePart_agree. rewrite Forall_forall in Hall. apply Hall. exact He.
Qed.

Lemma parseArgsData_revisions_on_tuples_witness :
  exists l1 l2,
    RejoinValidatorSet.parseArgsData JSON.parse (str "(a,,{b,c})") = Ok (VArr l1)
    /\ Part000.parseArgsData JSON.parse (str "(a,,{b,c})") = Ok (VArr l2)
    /\ List.length l1 = 3 /\ List.length l2 = 3
    /\ nth_error l1 1 = Some (VStr []) /\ nth_error l2 1 = Some VNull
    /\ nth_error l1 2 = nth_error l2 2.
Proof.
  destruct (parseArgsData_revisions_on_tuples JSON.parse (str "(a,,{b,c})")
              [str "a"; []; c_lbrace :: str "b,c" ++ [c_rbrace]])
    as (l1 & l2 & P1 & P2 & L1 & L2 & Hnth & _).
  - repeat apply Forall_cons; try apply Forall_nil; unfold rvs_element.
    + cbn. plain_run.
    + apply nested_nil.
    + apply nested_group; [reflexivity|cbn; plain_run|apply nested_nil].
  - repeat apply Forall_cons; try apply Forall_nil; unfold p000_element.
    + cbn. plain_run.
    + apply nested_nil.
    + apply nested_group; [reflexivity|cbn; plain_run|apply nested_nil].
  - reflexivity.
  - reflexivity.
  - exists l1, l2. split; [exact P1|]. split; [exact P2|].
    split; [exact L1|]. split; [exact L2|].
    pose proof (Hnth 1 [] eq_refl) as Hb.
    pose proof (Hnth 2 (c_lbrace :: str "b,c" ++ [c_rbrace]) eq_refl) as Hg.
    split; [exact (proj1 Hb)|]. split; [exact (proj2 Hb)|]. exact Hg.
Defined.
